(** * cxsi: CxSAST scan usage insight -- a shallow embedding of [cxsi.py]

    The script loads a collection of scan records, normalises each one into
    a row of cells, and assembles a workbook with a [Scans] data table and a
    [Summary] sheet of aggregate formulas.  This file embeds the script's
    functions (same names, same order of effects) over

    - [pyval]: the Python values the script handles (what [json.load]
      yields, plus parsed timestamps);
    - [Exc] / [M]: exceptions, and exceptions over the module-level globals;
    - [Xlsx]: the part of the spreadsheet library the script drives: a cell
      table keyed by (row, column), column/row settings, merged ranges and
      table objects.

    and proves properties of the report against those definitions. *)

From Stdlib Require Import String Ascii ZArith QArith List Bool Lia DecimalString.
From stdpp Require Import base option list strings gmap.

Set Warnings "-register-all".

Local Open Scope string_scope.
Local Open Scope Z_scope.
Local Open Scope list_scope.

(** ** Python values *)

(** A parsed timestamp.  The sheet stores a date as its serial day number;
    only that number is observable in the report. *)
Record datetime := { serial : Q }.

Inductive pyval :=
| PyNone
| PyBool (b : bool)
| PyInt (z : Z)
| PyStr (s : string)
| PyDatetime (d : datetime)
| PyList (l : list pyval)
| PyDict (d : list (string * pyval)).

Inductive exn :=
| KeyError (key : pyval)
| TypeError
| ValueError
| OSError
| NameError
| ZeroDivisionError
| SystemExit (code : Z).

(** [SystemExit] derives from [BaseException], not from [Exception]: an
    [except Exception] clause lets it through. *)
Definition is_Exception (e : exn) : bool :=
  match e with
  | SystemExit _ => false
  | _ => true
  end.

(** Computations that return or raise. *)
Inductive Exc (A : Type) :=
| Returns (a : A)
| Raises (e : exn).
Arguments Returns {A} a.
Arguments Raises {A} e.

#[global] Instance Exc_ret : MRet Exc := fun _ a => Returns a.
#[global] Instance Exc_bind : MBind Exc := fun _ _ f m =>
  match m with
  | Returns a => f a
  | Raises e => Raises e
  end.

(** Dictionaries keep insertion order ([OrderedDict], and [dict] since 3.6). *)
Fixpoint assoc {V : Type} (k : string) (d : list (string * V)) : option V :=
  match d with
  | [] => None
  | (k', v) :: d' => if String.eqb k k' then Some v else assoc k d'
  end.

(** [d[k] = v]: replaces the value in place when the key is there, appends
    the pair otherwise. *)
Fixpoint od_set {V : Type} (k : string) (v : V) (d : list (string * V)) : list (string * V) :=
  match d with
  | [] => [(k, v)]
  | (k', v') :: d' => if String.eqb k k' then (k', v) :: d' else (k', v') :: od_set k v d'
  end.

(** [bool(v)] *)
Definition truthy (v : pyval) : bool :=
  match v with
  | PyNone => false
  | PyBool b => b
  | PyInt z => negb (Z.eqb z 0)
  | PyStr s => negb (String.eqb s "")
  | PyDatetime _ => true
  | PyList l => match l with [] => false | _ => true end
  | PyDict d => match d with [] => false | _ => true end
  end.

(** [v[k]] for a string key [k]: only a dictionary can be subscripted by a
    string. *)
Definition getitem (v : pyval) (k : string) : Exc pyval :=
  match v with
  | PyDict d =>
      match assoc k d with
      | Some x => Returns x
      | None => Raises (KeyError (PyStr k))
      end
  | _ => Raises TypeError
  end.

Fixpoint chars (s : string) : list pyval :=
  match s with
  | EmptyString => []
  | String c s' => PyStr (String c EmptyString) :: chars s'
  end.

(** [for x in v]: the items the loop visits. *)
Definition iter (v : pyval) : Exc (list pyval) :=
  match v with
  | PyList l => Returns l
  | PyStr s => Returns (chars s)
  | PyDict d => Returns (map (fun kv => PyStr (fst kv)) d)
  | _ => Raises TypeError
  end.

(** [len(v)] *)
Definition len (v : pyval) : Exc Z :=
  match v with
  | PyList l => Returns (Z.of_nat (length l))
  | PyStr s => Returns (Z.of_nat (String.length s))
  | PyDict d => Returns (Z.of_nat (length d))
  | _ => Raises TypeError
  end.

(** [v[:n]] *)
Definition slice_to (v : pyval) (n : nat) : Exc pyval :=
  match v with
  | PyList l => Returns (PyList (firstn n l))
  | PyStr s => Returns (PyStr (String.substring 0 n s))
  | _ => Raises TypeError
  end.

(** ** The spreadsheet library, as far as the script drives it

    A worksheet is a cell table keyed by zero-based (row, column), plus the
    settings the script records on it.  Nothing reaches the file system
    before [close]: the workbook is assembled in memory and [close] saves
    it. *)
Module Xlsx.

Inductive prop :=
| PBool (b : bool)
| PInt (z : Z)
| PStr (s : string).

(** A format object, by its properties. *)
Definition Format := list (string * prop).

Inductive content :=
| Number (z : Z)
| Text (s : string)
| Formula (f : string)
| Boolean (b : bool)
| Date (d : datetime)
| Blank.

Record Cell := { content_of : content; format_of : option Format }.

(** A column of a table, and the options of [add_table].  [width] is the
    script's own key, read back by the script itself. *)
Record column := {
  header : string;
  format : option Format;
  width : Z;
  formula : option string
}.

Record options := {
  name : string;
  columns : list column
}.

(** A range in A1 notation, ['A2:AX10']: column letters and one-based row
    numbers. *)
Record Range := {
  first_col : string;
  first_row : Z;
  last_col : string;
  last_row : Z
}.

Fixpoint col_number (letters : string) (acc : Z) : Z :=
  match letters with
  | EmptyString => acc
  | String c rest => col_number rest (acc * 26 + (Z.of_nat (nat_of_ascii c) - 64))
  end.

(** Zero-based column of a column name: ["A"] is 0, ["AX"] is 49. *)
Definition xl_col (letters : string) : Z := col_number letters 0 - 1.

(** Zero-based row of a one-based row number. *)
Definition xl_row (n : Z) : Z := n - 1.

Record Worksheet := {
  ws_name : string;
  tab_color : option string;
  table : gmap (Z * Z) Cell;
  colinfo : list (Z * Z * Z * option Format * option Z);
  rowinfo : list (Z * Q * option Format);
  merged : list (Range * string * Format);
  panes : option (Z * Z);
  tables : list (Range * options)
}.

Definition new_worksheet (n : string) : Worksheet :=
  {| ws_name := n; tab_color := None; table := ∅; colinfo := []; rowinfo := [];
     merged := []; panes := None; tables := [] |}.

Definition with_table (f : gmap (Z * Z) Cell -> gmap (Z * Z) Cell) (ws : Worksheet) : Worksheet :=
  {| ws_name := ws_name ws; tab_color := tab_color ws; table := f (table ws);
     colinfo := colinfo ws; rowinfo := rowinfo ws; merged := merged ws;
     panes := panes ws; tables := tables ws |}.

Definition xls_rowmax : Z := 1048576.
Definition xls_colmax : Z := 16384.

(** Rows and columns outside the sheet are refused. *)
Definition check_dimensions (row col : Z) : bool :=
  (0 <=? row) && (0 <=? col) && (row <? xls_rowmax) && (col <? xls_colmax).

(** Every typed [write_*] checks the position and drops the call, without
    an exception, when it is outside the sheet. *)
Definition store (row col : Z) (c : Cell) (ws : Worksheet) : Worksheet :=
  if check_dimensions row col then with_table (insert (row, col) c) ws else ws.

(** A blank cell is kept only when it carries a format. *)
Definition write_blank (row col : Z) (fmt : option Format) (ws : Worksheet) : Worksheet :=
  match fmt with
  | None => ws
  | Some _ => store row col {| content_of := Blank; format_of := fmt |} ws
  end.

Definition starts_with_eq (s : string) : bool :=
  match s with
  | String c _ => Ascii.eqb c "="%char
  | EmptyString => false
  end.

(** [ws.write(row, col, token, format)]: the type of the token selects the
    kind of cell; a token of no supported type raises [TypeError].  (The
    library also turns strings that look like URLs into links and refuses
    strings beyond the cell limit; both are stored as text here.) *)
Definition write (row col : Z) (token : pyval) (fmt : option Format) (ws : Worksheet) : Exc Worksheet :=
  match token with
  | PyNone => Returns (write_blank row col fmt ws)
  | PyBool b => Returns (store row col {| content_of := Boolean b; format_of := fmt |} ws)
  | PyInt z => Returns (store row col {| content_of := Number z; format_of := fmt |} ws)
  | PyStr s =>
      if String.eqb s "" then Returns (write_blank row col fmt ws)
      else if starts_with_eq s
           then Returns (store row col {| content_of := Formula s; format_of := fmt |} ws)
           else Returns (store row col {| content_of := Text s; format_of := fmt |} ws)
  | PyDatetime d => Returns (store row col {| content_of := Date d; format_of := fmt |} ws)
  | PyList _ | PyDict _ => Raises TypeError
  end.

Definition set_column (first last w : Z) (fmt : option Format) (hidden : option Z) (ws : Worksheet) : Worksheet :=
  {| ws_name := ws_name ws; tab_color := tab_color ws; table := table ws;
     colinfo := colinfo ws ++ [(first, last, w, fmt, hidden)]; rowinfo := rowinfo ws;
     merged := merged ws; panes := panes ws; tables := tables ws |}.

Definition set_row (row : Z) (height : Q) (fmt : option Format) (ws : Worksheet) : Worksheet :=
  {| ws_name := ws_name ws; tab_color := tab_color ws; table := table ws;
     colinfo := colinfo ws; rowinfo := rowinfo ws ++ [(row, height, fmt)];
     merged := merged ws; panes := panes ws; tables := tables ws |}.

(** The text and format of a merged range are kept with the merge. *)
Definition merge_range (rng : Range) (data : string) (fmt : Format) (ws : Worksheet) : Worksheet :=
  {| ws_name := ws_name ws; tab_color := tab_color ws; table := table ws;
     colinfo := colinfo ws; rowinfo := rowinfo ws;
     merged := merged ws ++ [(rng, data, fmt)]; panes := panes ws; tables := tables ws |}.

Definition freeze_panes (row col : Z) (ws : Worksheet) : Worksheet :=
  {| ws_name := ws_name ws; tab_color := tab_color ws; table := table ws;
     colinfo := colinfo ws; rowinfo := rowinfo ws; merged := merged ws;
     panes := Some (row, col); tables := tables ws |}.

Definition set_tab_color (color : string) (ws : Worksheet) : Worksheet :=
  {| ws_name := ws_name ws; tab_color := Some color; table := table ws;
     colinfo := colinfo ws; rowinfo := rowinfo ws; merged := merged ws;
     panes := panes ws; tables := tables ws |}.

(** *** Tables *)

Definition default_column (k : nat) : column :=
  {| header := "Column" +:+ NilZero.string_of_uint (Nat.to_uint (S k));
     format := None; width := 0; formula := None |}.

(** The columns of a table [n] columns wide: the user's definitions in
    order, default ones where the user's list is shorter; definitions
    beyond the range are not used. *)
Fixpoint table_columns (k n : nat) (user : list column) : list column :=
  match n with
  | O => []
  | S n' =>
      match user with
      | c :: user' => c :: table_columns (S k) n' user'
      | [] => default_column k :: table_columns (S k) n' []
      end
  end.

(** The first row of the range is the header row, the rows below it are
    the data rows. *)
Definition header_row (rng : Range) : Z := xl_row (first_row rng).
Definition data_rows (rng : Range) : list Z :=
  seqZ (header_row rng + 1) (xl_row (last_row rng) - header_row rng).
Definition range_width (rng : Range) : nat :=
  Z.to_nat (xl_col (last_col rng) - xl_col (first_col rng) + 1).

(** What a table writes for one of its columns: the header text, and the
    column formula in every data row. *)
Definition column_cells (rng : Range) (c : Z) (col : column) : list (Z * Z * Cell) :=
  (header_row rng, c, {| content_of := Text (header col); format_of := None |}) ::
  match formula col with
  | Some f => map (fun r => (r, c, {| content_of := Formula f; format_of := format col |}))
                  (data_rows rng)
  | None => []
  end.

Definition table_cells (rng : Range) (opts : options) : list (Z * Z * Cell) :=
  concat (imap (fun k col => column_cells rng (xl_col (first_col rng) + Z.of_nat k) col)
               (table_columns 0 (range_width rng) (columns opts))).

Definition store_all (cells : list (Z * Z * Cell)) (ws : Worksheet) : Worksheet :=
  foldl (fun w rc => store rc.1.1 rc.1.2 rc.2 w) ws cells.

(** The ranges that [add_table] refuses: a corner outside the sheet, or no
    data row below the header row. *)
Definition refused (rng : Range) : bool :=
  negb (check_dimensions (xl_row (first_row rng)) (xl_col (first_col rng)))
  || negb (check_dimensions (xl_row (last_row rng)) (xl_col (last_col rng)))
  || (xl_row (last_row rng) - xl_row (first_row rng) - 1 <? 0).

(** [ws.add_table(range, options)], for a range given from its top left to
    its bottom right corner.  On a range that it refuses the library warns
    and returns, without raising, and the sheet is as it was. *)
Definition add_table (rng : Range) (opts : options) (ws : Worksheet) : Worksheet :=
  if refused rng then ws
  else
    let ws' := store_all (table_cells rng opts) ws in
    {| ws_name := ws_name ws'; tab_color := tab_color ws'; table := table ws';
       colinfo := colinfo ws'; rowinfo := rowinfo ws'; merged := merged ws';
       panes := panes ws'; tables := tables ws' ++ [(rng, opts)] |}.

(** *** Workbooks *)

Record Workbook := {
  wb_options : list (string * prop);
  properties : list (string * string);
  worksheets : list Worksheet;
  formats : list Format;
  fileclosed : bool
}.

Definition new_workbook (opts : list (string * prop)) : Workbook :=
  {| wb_options := opts; properties := []; worksheets := []; formats := [];
     fileclosed := false |}.

Definition set_properties (p : list (string * string)) (wb : Workbook) : Workbook :=
  {| wb_options := wb_options wb; properties := p; worksheets := worksheets wb;
     formats := formats wb; fileclosed := fileclosed wb |}.

(** [wb.add_worksheet(name)]: the new sheet is the last one; its position
    is the handle the caller keeps. *)
Definition add_worksheet (n : string) (wb : Workbook) : nat * Workbook :=
  (length (worksheets wb),
   {| wb_options := wb_options wb; properties := properties wb;
      worksheets := worksheets wb ++ [new_worksheet n];
      formats := formats wb; fileclosed := fileclosed wb |}).

Definition add_format (p : Format) (wb : Workbook) : Format * Workbook :=
  (p,
   {| wb_options := wb_options wb; properties := properties wb;
      worksheets := worksheets wb; formats := formats wb ++ [p];
      fileclosed := fileclosed wb |}).

Definition set_worksheets (l : list Worksheet) (wb : Workbook) : Workbook :=
  {| wb_options := wb_options wb; properties := properties wb; worksheets := l;
     formats := formats wb; fileclosed := fileclosed wb |}.

Definition mark_closed (wb : Workbook) : Workbook :=
  {| wb_options := wb_options wb; properties := properties wb;
     worksheets := worksheets wb; formats := formats wb; fileclosed := true |}.

End Xlsx.

Import Xlsx.

(** ** The script's globals and its world *)

Record Args := {
  customer : string;
  scan_data_file : string;
  excel_file : string;
  force : bool;
  debug : bool
}.

Inductive level := DEBUG | INFO | WARNING | ERROR | CRITICAL.

(** The records the script sends to its logger, one constructor per call
    site, with the values the message is formatted from. *)
Inductive message :=
| Banner
| ArgsLine (a : Args)
| InitializingFormats
| LoadingScanData (file : string)
| ScanFileFound (file : string)
| ScanFileNotFound (file : string)
| LoadedJson (count : Z)
| FirstScans (v : pyval)
| FailedToLoadJson
| Traceback (e : option exn)
| ExcelExistsOverwriting (file : string)
| UnableToOverwrite
| ExcelExists (file : string)
| CreatingExcel (file : string)
| InitializingWorkbook
| WritingScans (count : Z)
| Done (elapsed_ms : Z)
| WritingSummary
| ClosingWorkbook (file : string)
| Exiting (code : Z)
| UnexpectedException.

(** What is at the path of the scan data file: nothing usable (missing or
    empty), text that is not JSON, or a JSON document. *)
Inductive json_file :=
| NoData
| NotJson
| Json (doc : pyval).

(** What is at the output path: a file the run did not make, or a workbook
    the run saved. *)
Inductive artifact :=
| Foreign
| Saved (wb : Workbook).

Record state := {
  (* module-level names; [None] is a name not bound yet *)
  _args : option Args;
  _log : list (level * message);
  _scans_wb : option Workbook;
  _wb_formats : list (string * Format);
  _worksheets : list (string * nat);
  (* the world around the run *)
  input_file : json_file;
  output_file : option artifact;
  removable : bool;
  clock : nat -> Z;
  ticks : nat;
  stdout : list (Z * Z)
}.

Definition set_args (a : Args) (s : state) : state :=
  {| _args := Some a; _log := _log s; _scans_wb := _scans_wb s;
     _wb_formats := _wb_formats s; _worksheets := _worksheets s;
     input_file := input_file s; output_file := output_file s;
     removable := removable s; clock := clock s; ticks := ticks s; stdout := stdout s |}.

Definition add_log (r : level * message) (s : state) : state :=
  {| _args := _args s; _log := _log s ++ [r]; _scans_wb := _scans_wb s;
     _wb_formats := _wb_formats s; _worksheets := _worksheets s;
     input_file := input_file s; output_file := output_file s;
     removable := removable s; clock := clock s; ticks := ticks s; stdout := stdout s |}.

Definition set_scans_wb (wb : Workbook) (s : state) : state :=
  {| _args := _args s; _log := _log s; _scans_wb := Some wb;
     _wb_formats := _wb_formats s; _worksheets := _worksheets s;
     input_file := input_file s; output_file := output_file s;
     removable := removable s; clock := clock s; ticks := ticks s; stdout := stdout s |}.

Definition set_wb_format (k : string) (f : Format) (s : state) : state :=
  {| _args := _args s; _log := _log s; _scans_wb := _scans_wb s;
     _wb_formats := od_set k f (_wb_formats s); _worksheets := _worksheets s;
     input_file := input_file s; output_file := output_file s;
     removable := removable s; clock := clock s; ticks := ticks s; stdout := stdout s |}.

Definition set_worksheet (k : string) (h : nat) (s : state) : state :=
  {| _args := _args s; _log := _log s; _scans_wb := _scans_wb s;
     _wb_formats := _wb_formats s; _worksheets := od_set k h (_worksheets s);
     input_file := input_file s; output_file := output_file s;
     removable := removable s; clock := clock s; ticks := ticks s; stdout := stdout s |}.

Definition set_output_file (o : option artifact) (s : state) : state :=
  {| _args := _args s; _log := _log s; _scans_wb := _scans_wb s;
     _wb_formats := _wb_formats s; _worksheets := _worksheets s;
     input_file := input_file s; output_file := o;
     removable := removable s; clock := clock s; ticks := ticks s; stdout := stdout s |}.

Definition tick (s : state) : state :=
  {| _args := _args s; _log := _log s; _scans_wb := _scans_wb s;
     _wb_formats := _wb_formats s; _worksheets := _worksheets s;
     input_file := input_file s; output_file := output_file s;
     removable := removable s; clock := clock s; ticks := S (ticks s); stdout := stdout s |}.

Definition add_stdout (p : Z * Z) (s : state) : state :=
  {| _args := _args s; _log := _log s; _scans_wb := _scans_wb s;
     _wb_formats := _wb_formats s; _worksheets := _worksheets s;
     input_file := input_file s; output_file := output_file s;
     removable := removable s; clock := clock s; ticks := ticks s; stdout := stdout s ++ [p] |}.

(** ** Statements: exceptions over the globals *)

Inductive outcome (A : Type) :=
| Ok (a : A) (s : state)
| Raise (e : exn) (s : state).
Arguments Ok {A} a s.
Arguments Raise {A} e s.

Definition M (A : Type) : Type := state -> outcome A.

#[global] Instance M_ret : MRet M := fun _ a s => Ok a s.
#[global] Instance M_bind : MBind M := fun _ _ f m s =>
  match m s with
  | Ok a s' => f a s'
  | Raise e s' => Raise e s'
  end.

Definition raise {A : Type} (e : exn) : M A := fun s => Raise e s.

Definition lift {A : Type} (x : Exc A) : M A := fun s =>
  match x with
  | Returns a => Ok a s
  | Raises e => Raise e s
  end.

Definition gets {A : Type} (f : state -> A) : M A := fun s => Ok (f s) s.
Definition modify (f : state -> state) : M unit := fun s => Ok tt (f s).

(** [try: body / except <handles> as err: handler / else: orelse] *)
Definition try_except {A : Type} (body : M A) (handles : exn -> bool)
    (handler : exn -> M A) (orelse : A -> M A) : M A := fun s =>
  match body s with
  | Ok a s' => orelse a s'
  | Raise e s' => if handles e then handler e s' else Raise e s'
  end.

Fixpoint for_each {A : Type} (l : list A) (body : A -> M unit) : M unit :=
  match l with
  | [] => mret tt
  | x :: l' => body x;; for_each l' body
  end.

(** A module-level name that may not be bound yet. *)
Definition global {A : Type} (f : state -> option A) : M A := fun s =>
  match f s with
  | Some a => Ok a s
  | None => Raise NameError s
  end.

Definition log (l : level) (m : message) : M unit := modify (add_log (l, m)).

(** [timer()] *)
Definition timer : M Z := fun s => Ok (clock s (ticks s)) (tick s).

(** [_wb_formats[k]] and [_worksheets[k]] *)
Definition wb_format (k : string) : M Format := fun s =>
  match assoc k (_wb_formats s) with
  | Some f => Ok f s
  | None => Raise (KeyError (PyStr k)) s
  end.

Definition worksheet (k : string) : M nat := fun s =>
  match assoc k (_worksheets s) with
  | Some h => Ok h s
  | None => Raise (KeyError (PyStr k)) s
  end.

(** A method call on the worksheet behind a handle.  The sheet belongs to
    the workbook: what the call changes is what [close] later saves. *)
Definition on_sheet (h : nat) (f : Worksheet -> Exc Worksheet) : M unit := fun s =>
  match _scans_wb s with
  | Some wb =>
      match worksheets wb !! h with
      | Some w =>
          match f w with
          | Returns w' => Ok tt (set_scans_wb (set_worksheets (<[h := w']> (worksheets wb)) wb) s)
          | Raises e => Raise e s
          end
      | None => Raise NameError s
      end
  | None => Raise NameError s
  end.

Definition call (h : nat) (f : Worksheet -> Worksheet) : M unit :=
  on_sheet h (fun w => Returns (f w)).

(** [_scans_wb.close()]: saves the workbook at the output path; a second
    call does nothing. *)
Definition close : M unit := fun s =>
  match _scans_wb s with
  | Some wb =>
      if fileclosed wb then Ok tt s
      else Ok tt (set_output_file (Some (Saved wb)) (set_scans_wb (mark_closed wb) s))
  | None => Raise NameError s
  end.

(** [os.remove(excel_file)] *)
Definition os_remove : M unit := fun s =>
  if removable s then Ok tt (set_output_file None s) else Raise OSError s.

(** ** The script *)

Definition SCANS_TABLE_NAME : string := "AllScans".

(** The double quote character, for the formulas that contain one. *)
Definition dq : string := String "034"%char EmptyString.

(** [print_progress_bar(iteration, total)]: prints one line of the bar; the
    percentage divides by [total]. *)
Definition print_progress_bar (iteration total : Z) : M unit :=
  if Z.eqb total 0 then raise ZeroDivisionError
  else modify (add_stdout (iteration, total)).

(** [exit_script(code)]: closes the workbook when the name [_scans_wb] is
    bound, then leaves through [sys.exit(code)]. *)
Definition exit_script {A : Type} (code : Z) : M A :=
  try_except
    (_ ← global _scans_wb;
     args ← global _args;
     log DEBUG (ClosingWorkbook (excel_file args));;
     close)
    (fun e => match e with NameError => true | _ => false end)
    (fun _ => mret tt)
    mret;;
  log DEBUG (Exiting code);;
  raise (SystemExit code).

Definition init_logging : M unit :=
  args ← global _args;
  log INFO Banner;;
  log INFO (ArgsLine args).

Definition init_wb_formats : M (list (string * Format)) :=
  log DEBUG InitializingFormats;;
  mret [
    ("general", []);
    ("header", [("bold", PBool true); ("text_wrap", PBool false)]);
    ("summary header", [("bold", PBool true); ("align", PStr "center")]);
    ("bold", [("bold", PBool true)]);
    ("center", [("align", PStr "center")]);
    ("right", [("align", PStr "right")]);
    ("date", [("num_format", PStr "mm/dd/yyyy")]);
    ("datetime", [("num_format", PStr "yyyy-mm-dd hh:mm:ss")]);
    ("date bold", [("bold", PBool true); ("num_format", PStr "mm/dd/yyyy")]);
    ("duration", [("num_format", PStr "[h]:mm:ss")]);
    ("duration bold", [("bold", PBool true); ("num_format", PStr "[h]:mm:ss")]);
    ("percent", [("num_format", PStr "0%")]);
    ("decimal 2", [("num_format", PStr "0.00")]);
    ("integer", [("num_format", PInt 1)]);
    ("long", [("num_format", PInt 3)]);
    ("header_color", [("bold", PInt 1); ("bg_color", PStr "#4F81BD"); ("font_color", PStr "#FFFFFF");
                      ("border_color", PStr "#EEECE1"); ("bottom", PInt 1)]);
    ("bad", [("bg_color", PStr "#FFC7CE"); ("font_color", PStr "#9C0006")]);
    ("neutral", [("bg_color", PStr "#FFEB9C"); ("font_color", PStr "#9C6500")]);
    ("good", [("bg_color", PStr "#C6EFCE"); ("font_color", PStr "#006100")]);
    ("inverse", [("bg_color", PStr "#000000"); ("font_color", PStr "#FFFFFF")]);
    ("header_merge", [("bold", PInt 1); ("border", PInt 1); ("align", PStr "center");
                      ("valign", PStr "vcenter"); ("fg_color", PStr "#4F81BD");
                      ("font_color", PStr "#FFFFFF"); ("border_color", PStr "#EEECE1")])
  ].

(** An entry of the language columns: [{'col': .., 'hidden': ..}]. *)
Record lang_column := { lang_col : Z; lang_hidden : Z }.

Definition DEFAULT_HIDE : Z := 0.

(** Language columns start at 33; [-1] marks a language that is not
    tracked. *)
Definition init_lang_columns : list (string * lang_column) := [
  ("Apex", {| lang_col := 33; lang_hidden := DEFAULT_HIDE |});
  ("ASP", {| lang_col := 34; lang_hidden := DEFAULT_HIDE |});
  ("Cobol", {| lang_col := 35; lang_hidden := DEFAULT_HIDE |});
  ("CPP", {| lang_col := 36; lang_hidden := DEFAULT_HIDE |});
  ("CSharp", {| lang_col := 37; lang_hidden := DEFAULT_HIDE |});
  ("Groovy", {| lang_col := 38; lang_hidden := DEFAULT_HIDE |});
  ("Go", {| lang_col := 39; lang_hidden := DEFAULT_HIDE |});
  ("Java", {| lang_col := 40; lang_hidden := DEFAULT_HIDE |});
  ("JavaScript", {| lang_col := 41; lang_hidden := DEFAULT_HIDE |});
  ("Kotlin", {| lang_col := 42; lang_hidden := DEFAULT_HIDE |});
  ("Objc", {| lang_col := 43; lang_hidden := DEFAULT_HIDE |});
  ("PHP", {| lang_col := 44; lang_hidden := DEFAULT_HIDE |});
  ("Perl", {| lang_col := 45; lang_hidden := DEFAULT_HIDE |});
  ("Python", {| lang_col := 46; lang_hidden := DEFAULT_HIDE |});
  ("Ruby", {| lang_col := 47; lang_hidden := DEFAULT_HIDE |});
  ("Scala", {| lang_col := 48; lang_hidden := DEFAULT_HIDE |});
  ("Typescript", {| lang_col := 49; lang_hidden := DEFAULT_HIDE |});
  ("VbNet", {| lang_col := 50; lang_hidden := DEFAULT_HIDE |});
  ("VB6", {| lang_col := 51; lang_hidden := DEFAULT_HIDE |});
  (* don't track these *)
  ("Common", {| lang_col := -1; lang_hidden := DEFAULT_HIDE |});
  ("PLSQL", {| lang_col := -1; lang_hidden := DEFAULT_HIDE |});
  ("VbScript", {| lang_col := -1; lang_hidden := DEFAULT_HIDE |});
  ("Unknown", {| lang_col := -1; lang_hidden := DEFAULT_HIDE |})
].

(** [load_json(file)]: the document of the scan data file; leaves the
    script when there is none, or when it is not JSON. *)
Definition load_json (file : string) : M pyval :=
  log INFO (LoadingScanData file);;
  data ← gets input_file;
  match data with
  | NoData => log WARNING (ScanFileNotFound file);; exit_script 2
  | NotJson =>
      log DEBUG (ScanFileFound file);;
      log CRITICAL FailedToLoadJson;;
      log ERROR (Traceback None);;
      exit_script 3
  | Json scan_data =>
      log DEBUG (ScanFileFound file);;
      value ← lift (getitem scan_data "value");
      count ← lift (len value);
      log INFO (LoadedJson count);;
      args ← global _args;
      (if debug args
       then value ← lift (getitem scan_data "value");
            first ← lift (slice_to value 10);
            log DEBUG (FirstScans first)
       else mret tt);;
      mret scan_data
  end.

Definition DEFAULT_COL_WIDTH : Z := 10.
Definition DEFAULT_DATE_WIDTH : Z := 18.
Definition DEFAULT_DURATION_WIDTH : Z := 14.
Definition DEFAULT_RATE_WIDTH : Z := 12.
Definition DEFAULT_RESULT_WIDTH : Z := 8.
Definition DEFAULT_LANG_WIDTH : Z := 8.

(** One entry of [options['columns']]; its format is read from
    [_wb_formats] when the entry is built. *)
Definition column_def (h fmt_key : string) (w : Z) (f : option string) : M column :=
  fmt ← wb_format fmt_key;
  mret {| header := h; format := Some fmt; width := w; formula := f |}.

Fixpoint sequence {A : Type} (l : list (M A)) : M (list A) :=
  match l with
  | [] => mret []
  | m :: l' => x ← m; xs ← sequence l'; mret (x :: xs)
  end.

(** The loop of [init_scans_ws_options]: a header for every language whose
    column is not [-1]. *)
Fixpoint append_lang_headers (lang_columns : list (string * lang_column))
    (columns : list column) : M (list column) :=
  match lang_columns with
  | [] => mret columns
  | (lang, lc) :: rest =>
      if lang_col lc >? -1
      then lang_header ← column_def lang "integer" DEFAULT_LANG_WIDTH None;
           append_lang_headers rest (columns ++ [lang_header])
      else append_lang_headers rest columns
  end.

(** [init_scans_ws_options(lang_columns)]: options for scans data table *)
Definition init_scans_ws_options (lang_columns : list (string * lang_column)) : M options :=
  fixed ← sequence [
    column_def "ScanId" "integer" DEFAULT_COL_WIDTH None;
    column_def "ProjectName" "general" 30 None;
    column_def "ProjectId" "integer" DEFAULT_COL_WIDTH None;
    column_def "TeamId" "general" 36 None;
    column_def "Team" "general" 15 None;
    column_def "EngineId" "integer" DEFAULT_COL_WIDTH None;
    column_def "Origin" "general" DEFAULT_COL_WIDTH None;
    column_def "Preset" "general" 28 None;
    column_def "Incr" "integer" 8 None;
    column_def "LOC" "integer" DEFAULT_COL_WIDTH None;
    column_def "FailedLOC" "integer" 11 None;
    column_def "FileCount" "integer" DEFAULT_COL_WIDTH None;
    column_def "ScanRequestedOn" "datetime" DEFAULT_DATE_WIDTH None;
    column_def "QueuedOn" "datetime" DEFAULT_DATE_WIDTH None;
    column_def "EngineStartedOn" "datetime" DEFAULT_DATE_WIDTH None;
    column_def "EngineFinishedOn" "datetime" DEFAULT_DATE_WIDTH None;
    column_def "ScanCompletedOn" "datetime" DEFAULT_DATE_WIDTH None;
    column_def "ScanDuration" "duration" DEFAULT_DURATION_WIDTH
      (Some "=IF([@ScanCompletedOn]>0,[@ScanCompletedOn]-[@ScanRequestedOn],0)");
    column_def "SourceTime" "duration" DEFAULT_DURATION_WIDTH
      (Some "=[@QueuedOn]-[@ScanRequestedOn]");
    column_def "QueuedTime" "duration" DEFAULT_DURATION_WIDTH
      (Some "=IF([@EngineStartedOn]>0,[@EngineStartedOn]-[@QueuedOn],0)");
    column_def "EngineTime" "duration" DEFAULT_DURATION_WIDTH
      (Some "=IF([@EngineFinishedOn]>0,[@EngineFinishedOn]-[@QueuedOn],0)");
    column_def "ScanHours" "decimal 2" DEFAULT_COL_WIDTH
      (Some "=[@ScanDuration]*24");
    column_def "Weekday" "integer" DEFAULT_COL_WIDTH
      (Some "=WEEKDAY([@ScanRequestedOn])");
    column_def "FullSpeed" "integer" DEFAULT_RATE_WIDTH
      (Some "=IF(AND([@ScanDuration]>0,[@Incr]=0),[@LOC]/([@ScanDuration]*24),0)");
    column_def "IncrSpeed" "integer" DEFAULT_RATE_WIDTH
      (Some "=IF(AND([@ScanDuration]>0,[@Incr]=1),[@LOC]/([@ScanDuration]*24),0)");
    column_def "Results" "integer" DEFAULT_RESULT_WIDTH
      (Some "=SUM([@High],[@Med],[@Low],[@Info])");
    column_def "High" "integer" DEFAULT_RESULT_WIDTH None;
    column_def "Med" "integer" DEFAULT_RESULT_WIDTH None;
    column_def "Low" "integer" DEFAULT_RESULT_WIDTH None;
    column_def "Info" "integer" DEFAULT_RESULT_WIDTH None;
    column_def "Version" "general" 13 None;
    column_def "Locked" "integer" 8 None;
    column_def "Public" "integer" 8 None
  ];
  columns ← append_lang_headers lang_columns fixed;
  mret {| name := SCANS_TABLE_NAME; columns := columns |}.

(** A cell of a scan row: [{'value': .., 'col': ..}]. *)
Record cell := { value : pyval; col : Z }.

(** [lang_columns[lang_name]]: a list or a dictionary cannot be a key; any
    other value that is not one of the names is a missing key. *)
Definition lang_lookup (lang_columns : list (string * lang_column)) (lang_name : pyval)
    : Exc (string * lang_column) :=
  match lang_name with
  | PyStr s =>
      match assoc s lang_columns with
      | Some lc => Returns (s, lc)
      | None => Raises (KeyError lang_name)
      end
  | PyList _ | PyDict _ => Raises TypeError
  | _ => Raises (KeyError lang_name)
  end.

(** The loop of [convert_json_scan] over [scan['ScannedLanguages']]. *)
Fixpoint add_language_columns (lang_columns : list (string * lang_column))
    (langs : list pyval) (scan_row : list (string * cell)) : Exc (list (string * cell)) :=
  match langs with
  | [] => Returns scan_row
  | lang :: rest =>
      lang_name ← getitem lang "LanguageName";
      entry ← lang_lookup lang_columns lang_name;
      add_language_columns lang_columns rest
        (od_set entry.1 {| value := PyInt 1; col := lang_col entry.2 |} scan_row)
  end.

Definition create_scans_wb (excel_file : string) (force : bool) : M Workbook :=
  present ← gets (fun s => bool_decide (is_Some (output_file s)));
  (if present : bool
   then if force
        then log WARNING (ExcelExistsOverwriting excel_file);;
             try_except os_remove
               (fun e => match e with OSError => true | _ => false end)
               (fun _ => log CRITICAL UnableToOverwrite;; exit_script 4)
               mret
        else log ERROR (ExcelExists excel_file);; exit_script 1
   else log INFO (CreatingExcel excel_file));;
  args ← global _args;
  let wb_options := [("remove_timezone", PBool true);
                     ("default_date_format", PStr "yyyy-mm-dd hh:mm:ss")] in
  let scans_wb := new_workbook wb_options in
  mret (set_properties [
          ("title", customer args +:+ " CxSAST Usage");
          ("subject", "Scan usage workbook");
          ("author", "Randy Geyer");
          ("company", "Checkmarx");
          ("comments", "Created with Python and XlsxWriter")
        ] scans_wb).

(** [_scans_wb.add_worksheet(name)] and [_scans_wb.add_format(props)] *)
Definition wb_add_worksheet (n : string) : M nat :=
  wb ← global _scans_wb;
  let r := add_worksheet n wb in
  modify (set_scans_wb r.2);;
  mret r.1.

Definition wb_add_format (p : Format) : M Format :=
  wb ← global _scans_wb;
  let r := add_format p wb in
  modify (set_scans_wb r.2);;
  mret r.1.

Definition init_workbook (excel_file : string) (force : bool) : M unit :=
  log DEBUG InitializingWorkbook;;
  wb ← create_scans_wb excel_file force;
  modify (set_scans_wb wb);;
  (* Scan workbook worksheets *)
  let scan_wb_props := [("Summary", "green"); ("Scans", "yellow")] in
  for_each scan_wb_props (fun ws_def =>
    ws ← wb_add_worksheet ws_def.1;
    call ws (set_tab_color ws_def.2);;
    modify (set_worksheet ws_def.1 ws));;
  (* Excel formats *)
  formats ← init_wb_formats;
  for_each formats (fun format_ =>
    f ← wb_add_format format_.2;
    modify (set_wb_format format_.1 f)).

Definition init (args : Args) : M unit :=
  modify (set_args args);;
  init_logging;;
  init_workbook (excel_file args) (force args).

Definition write_headers (ws : nat) (row col : Z) (data : list string)
    (cell_format : option Format) : M unit :=
  for_each (imap (fun k item => (col + Z.of_nat k, item)) data) (fun p =>
    on_sheet ws (write row p.1 (PyStr p.2) cell_format)).

(** [write_summary_info(ws, row, col, title, data, cell_format)]; the
    default format is the empty one, which the sheet treats as none. *)
Definition write_summary_info (ws : nat) (row col : Z) (title data : string)
    (cell_format : option Format) : M unit :=
  on_sheet ws (write row col (PyStr title) None);;
  on_sheet ws (write row (col + 1) (PyStr data) cell_format).

(** The seven per-weekday formulas differ in the day number only. *)
Definition weekday_average (TABLE day : string) : string :=
  "=COUNTIF(" +:+ TABLE +:+ "[Weekday]," +:+ dq +:+ "=" +:+ day +:+ dq +:+ ")/((MAX("
    +:+ TABLE +:+ "[ScanRequestedOn])-MIN(" +:+ TABLE +:+ "[ScanRequestedOn]))/7)".

Definition write_summary_ws (scans : pyval) : M unit :=
  log INFO WritingSummary;;
  ws ← worksheet "Summary";
  let TABLE := SCANS_TABLE_NAME in
  bold ← wb_format "bold";
  header ← wb_format "summary header";
  integer ← wb_format "integer";
  date ← wb_format "datetime";
  duration ← wb_format "duration";
  decimal ← wb_format "decimal 2";
  percent ← wb_format "percent";
  (* set column widths *)
  call ws (set_column 0 0 5 None None);;
  call ws (set_column 1 1 20 None None);;
  call ws (set_column 2 2 18 (Some integer) None);;
  call ws (set_column 3 3 10 (Some integer) None);;
  args ← global _args;
  on_sheet ws (write (xl_row 1) (xl_col "A") (PyStr (customer args +:+ " Scan Summary Info")) (Some bold));;
  (* scan summary section *)
  let row := 1 in
  let col := 1 in
  write_headers ws row col ["Scans"; "Stats"] (Some header);;
  write_summary_info ws (row + 1) col "Start Date"
    ("=MIN(" +:+ TABLE +:+ "[ScanRequestedOn])") (Some date);;
  write_summary_info ws (row + 2) col "End Date"
    ("=MAX(" +:+ TABLE +:+ "[ScanRequestedOn])") (Some date);;
  write_summary_info ws (row + 3) col "Days"
    ("=MAX(" +:+ TABLE +:+ "[ScanRequestedOn])-MIN(" +:+ TABLE +:+ "[ScanRequestedOn])") None;;
  write_summary_info ws (row + 4) col "Weeks"
    ("=ROUNDUP((MAX(" +:+ TABLE +:+ "[ScanRequestedOn])-MIN(" +:+ TABLE
       +:+ "[ScanRequestedOn]))/7,0)") None;;
  write_summary_info ws (row + 5) col "Scans"
    ("=COUNT(" +:+ TABLE +:+ "[ScanId])") None;;
  write_summary_info ws (row + 6) col "Completed Scans"
    ("=COUNT(" +:+ TABLE +:+ "[ScanCompletedOn])") None;;
  write_summary_info ws (row + 7) col "Scans Inflight"
    ("=COUNT(" +:+ TABLE +:+ "[ScanId])-COUNT(" +:+ TABLE +:+ "[ScanCompletedOn])") None;;
  write_summary_info ws (row + 8) col "Full Scans"
    ("=COUNTIF(" +:+ TABLE +:+ "[Incr]," +:+ dq +:+ "=0" +:+ dq +:+ ")") None;;
  write_summary_info ws (row + 9) col "Incr Scans"
    ("=COUNTIF(" +:+ TABLE +:+ "[Incr]," +:+ dq +:+ "=1" +:+ dq +:+ ")") None;;
  on_sheet ws (write (row + 9) (col + 2)
    (PyStr ("=COUNTIF(" +:+ TABLE +:+ "[Incr]," +:+ dq +:+ "=1" +:+ dq +:+ ")/COUNT("
              +:+ TABLE +:+ "[ScanId])")) (Some percent));;
  write_summary_info ws (row + 10) col "Avg Full Scan Rate"
    ("=AVERAGEIF(" +:+ TABLE +:+ "[FullSpeed]," +:+ dq +:+ "<>0" +:+ dq +:+ ")") None;;
  on_sheet ws (write (row + 10) (col + 2) (PyStr "LOC / Hr") None);;
  write_summary_info ws (row + 11) col "Avg Incr Scan Rate"
    ("=AVERAGEIFS(" +:+ TABLE +:+ "[IncrSpeed]," +:+ TABLE +:+ "[Incr]," +:+ dq +:+ "=1 "
       +:+ dq +:+ ")") None;;
  on_sheet ws (write (row + 11) (col + 2) (PyStr "LOC / Hr") None);;
  write_summary_info ws (row + 12) col "Max Scan Rate"
    ("=MAX(" +:+ TABLE +:+ "[FullSpeed])") None;;
  on_sheet ws (write (row + 12) (col + 2) (PyStr "LOC / Hr") None);;
  write_summary_info ws (row + 13) col "Avg Scans Per Day"
    ("=COUNT(" +:+ TABLE +:+ "[ScanId])/(MAX(" +:+ TABLE +:+ "[ScanRequestedOn])-MIN("
       +:+ TABLE +:+ "[ScanRequestedOn]))") None;;
  write_summary_info ws (row + 14) col "   Sun" (weekday_average TABLE "1") None;;
  write_summary_info ws (row + 15) col "   Mon" (weekday_average TABLE "2") None;;
  write_summary_info ws (row + 16) col "   Tue" (weekday_average TABLE "3") None;;
  write_summary_info ws (row + 17) col "   Wed" (weekday_average TABLE "4") None;;
  write_summary_info ws (row + 18) col "   Thu" (weekday_average TABLE "5") None;;
  write_summary_info ws (row + 19) col "   Fri" (weekday_average TABLE "6") None;;
  write_summary_info ws (row + 20) col "   Sat" (weekday_average TABLE "7") None.

Definition TABLE_TOP_ROWS : Z := 2.

Definition range (a : string) (r1 : Z) (b : string) (r2 : Z) : Range :=
  {| first_col := a; first_row := r1; last_col := b; last_row := r2 |}.

(** The first loop of [write_scans_ws]: a width for every column of the
    options, [ProjectId] hidden. *)
Fixpoint set_column_widths (ws : nat) (col : Z) (columns : list column) : M unit :=
  match columns with
  | [] => mret tt
  | column :: rest =>
      let col_options := if String.eqb (header column) "ProjectId" then Some 1 else None in
      call ws (set_column col col (width column) None col_options);;
      set_column_widths ws (col + 1) rest
  end.

(** [_args.scan_data_file], under a name that the parameters of [cxsi] do
    not hide. *)
Definition args_scan_data_file (a : Args) : string := scan_data_file a.

Section Script.

(** [dateutil.parser.parse] on a string: the timestamp it reads, or
    [None] where it raises. *)
Variable parse : string -> option datetime.

(** [convert_datetime(date_str)]: the parser accepts text only. *)
Definition convert_datetime (date_str : pyval) : Exc pyval :=
  match date_str with
  | PyStr s =>
      match parse s with
      | Some d => Returns (PyDatetime d)
      | None => Raises ValueError
      end
  | _ => Raises TypeError
  end.

Definition flag (v : pyval) : pyval := PyInt (if truthy v then 1 else 0).

Definition convert_json_scan (scan : pyval) (lang_columns : list (string * lang_column))
    : Exc (list (string * cell)) :=
  Id ← getitem scan "Id";
  ProjectName ← getitem scan "ProjectName";
  OwningTeamId ← getitem scan "OwningTeamId";
  TeamName ← getitem scan "TeamName";
  EngineServerId ← getitem scan "EngineServerId";
  Origin ← getitem scan "Origin";
  PresetName ← getitem scan "PresetName";
  IsIncremental ← getitem scan "IsIncremental";
  LOC ← getitem scan "LOC";
  FailedLOC ← getitem scan "FailedLOC";
  FileCount ← getitem scan "FileCount";
  ScanRequestedOn ← getitem scan "ScanRequestedOn" ≫= convert_datetime;
  QueuedOn ← getitem scan "QueuedOn" ≫= convert_datetime;
  EngineStartedOn ← getitem scan "EngineStartedOn" ≫= convert_datetime;
  EngineFinishedOn ← getitem scan "EngineFinishedOn" ≫= convert_datetime;
  ScanCompletedOn ← getitem scan "ScanCompletedOn" ≫= convert_datetime;
  High ← getitem scan "High";
  Medium ← getitem scan "Medium";
  Low ← getitem scan "Low";
  Info ← getitem scan "Info";
  ProductVersion ← getitem scan "ProductVersion";
  IsLocked ← getitem scan "IsLocked";
  IsPublic ← getitem scan "IsPublic";
  let scan_row := [
    ("ScanId", {| value := Id; col := 0 |});
    ("ProjectName", {| value := ProjectName; col := 1 |});
    ("ProjectId", {| value := PyNone; col := 2 |});
    ("TeamId", {| value := OwningTeamId; col := 3 |});
    ("Team", {| value := TeamName; col := 4 |});
    ("EngineId", {| value := EngineServerId; col := 5 |});
    ("Origin", {| value := Origin; col := 6 |});
    ("Preset", {| value := PresetName; col := 7 |});
    ("Incr", {| value := flag IsIncremental; col := 8 |});
    ("LOC", {| value := LOC; col := 9 |});
    ("FailedLOC", {| value := FailedLOC; col := 10 |});
    ("FileCount", {| value := FileCount; col := 11 |});
    ("ScanRequestedOn", {| value := ScanRequestedOn; col := 12 |});
    ("QueuedOn", {| value := QueuedOn; col := 13 |});
    ("EngineStartedOn", {| value := EngineStartedOn; col := 14 |});
    ("EngineFinishedOn", {| value := EngineFinishedOn; col := 15 |});
    ("ScanCompletedOn", {| value := ScanCompletedOn; col := 16 |});
    ("High", {| value := High; col := 26 |});
    ("Med", {| value := Medium; col := 27 |});
    ("Low", {| value := Low; col := 28 |});
    ("Info", {| value := Info; col := 29 |});
    ("Version", {| value := ProductVersion; col := 30 |});
    ("Locked", {| value := flag IsLocked; col := 31 |});
    ("Public", {| value := flag IsPublic; col := 32 |})
  ] in
  (* add language columns *)
  langs ← getitem scan "ScannedLanguages" ≫= iter;
  add_language_columns lang_columns langs scan_row.

(** The loop of [write_scans_ws] over the scans: row [i] of the data goes
    to sheet row [i + TABLE_TOP_ROWS]. *)
Fixpoint populate_data_rows (ws : nat) (lang_columns : list (string * lang_column))
    (num_scans i : Z) (scans : list pyval) : M unit :=
  match scans with
  | [] => mret tt
  | scan_item :: rest =>
      print_progress_bar (i + 1) num_scans;;
      scan_row ← lift (convert_json_scan scan_item lang_columns);
      for_each scan_row (fun scan_col =>
        let cell := scan_col.2 in
        on_sheet ws (write (i + TABLE_TOP_ROWS) (col cell) (value cell) None));;
      populate_data_rows ws lang_columns num_scans (i + 1) rest
  end.

(** [write_scans_ws(scans)]: populates the Scans worksheet *)
Definition write_scans_ws (scans : pyval) : M unit :=
  num_scans ← lift (len scans);
  log INFO (WritingScans num_scans);;
  start ← timer;
  let lang_columns := init_lang_columns in
  options ← init_scans_ws_options lang_columns;
  let table_range := range "A" TABLE_TOP_ROWS "AX" (TABLE_TOP_ROWS + num_scans) in
  ws ← worksheet "Scans";
  (* format header rows *)
  header_color ← wb_format "header_color";
  call ws (set_row 0 (72 # 5) (Some header_color));;
  merge_format ← wb_format "header_merge";
  call ws (merge_range (range "M" 1 "Q" 1) "Date Timestamps" merge_format);;
  call ws (merge_range (range "R" 1 "V" 1) "Durations" merge_format);;
  call ws (merge_range (range "W" 1 "Y" 1) "Rates per hour" merge_format);;
  call ws (merge_range (range "Z" 1 "AD" 1) "Result counts" merge_format);;
  call ws (merge_range (range "AH" 1 "AX" 1) "Languages" merge_format);;
  call ws (freeze_panes 2 2);;
  (* set column widths *)
  set_column_widths ws 0 (columns options);;
  (* set language columns *)
  let DEFAULT_LANG_COL_WIDTH := 8 in
  for_each lang_columns (fun lang =>
    let lc := lang.2 in
    let col := lang_col lc in
    if col >? -1
    then call ws (set_column col col DEFAULT_LANG_COL_WIDTH None (Some (lang_hidden lc)))
    else mret tt);;
  call ws (add_table table_range options);;
  (* populate data rows *)
  items ← lift (iter scans);
  populate_data_rows ws lang_columns num_scans 0 items;;
  end_ ← timer;
  log INFO (Done ((end_ - start) * 1000)).

(** [cxsi(customer, scan_data_file, excel, force, debug)], with the file
    arguments given by their names. *)
Definition cxsi (customer scan_data_file excel : string) (force debug : bool) : M unit :=
  try_except
    (init {| customer := customer; scan_data_file := scan_data_file;
             excel_file := excel; force := force; debug := debug |};;
     args ← global _args;
     scan_data ← load_json (args_scan_data_file args);
     lift (getitem scan_data "value") ≫= write_scans_ws;;
     lift (getitem scan_data "value") ≫= write_summary_ws)
    is_Exception
    (fun err =>
       log CRITICAL UnexpectedException;;
       log ERROR (Traceback (Some err)))
    (fun _ => exit_script 0).

End Script.

(** The state a run starts in: no global bound, the two module-level
    dictionaries empty, and the world as it is. *)
Definition start (data : json_file) (out : option artifact) (can_remove : bool)
    (time : nat -> Z) : state :=
  {| _args := None; _log := []; _scans_wb := None; _wb_formats := []; _worksheets := [];
     input_file := data; output_file := out; removable := can_remove;
     clock := time; ticks := 0; stdout := [] |}.

(** The completion status of the process: the code of [sys.exit], 0 when
    the script runs to its end, 1 when an exception is never caught. *)
Definition completion_status {A : Type} (o : outcome A) : Z :=
  match o with
  | Ok _ _ => 0
  | Raise (SystemExit code) _ => code
  | Raise _ _ => 1
  end.

Definition final_state {A : Type} (o : outcome A) : state :=
  match o with
  | Ok _ s => s
  | Raise _ s => s
  end.

(** ** How the viewer reads the formulas

    The fragment of the formula language that the statements below need:
    numbers, references to a column of the current table row, a whole table
    column, subtraction, comparison, [IF] and [COUNT].  Numbers are exact
    rationals; a date counts as its serial number; an empty cell counts as
    0 in arithmetic and comparisons. *)
Module Excel.

Inductive expr :=
| Num (n : Z)
| ThisRow (column : string)
| Column (table column : string)
| Sub (a b : expr)
| Gt (a b : expr)
| If (c a b : expr)
| Count (a : expr).

(** The formula as it is typed, without the leading [=]. *)
Fixpoint render (e : expr) : string :=
  match e with
  | Num n => NilZero.string_of_int (Z.to_int n)
  | ThisRow c => "[@" +:+ c +:+ "]"
  | Column t c => t +:+ "[" +:+ c +:+ "]"
  | Sub a b => render a +:+ "-" +:+ render b
  | Gt a b => render a +:+ ">" +:+ render b
  | If c a b => "IF(" +:+ render c +:+ "," +:+ render a +:+ "," +:+ render b +:+ ")"
  | Count a => "COUNT(" +:+ render a +:+ ")"
  end.

Definition text (e : expr) : string := "=" +:+ render e.

Inductive val :=
| VNum (q : Q)
| VBool (b : bool)
| VText (s : string)
| VEmpty
| VError.

(** The value of a cell that holds data.  A cell that holds a formula has
    the value of that formula, which this fragment does not compute. *)
Definition cell_val (c : option Cell) : val :=
  match c with
  | None => VEmpty
  | Some c =>
      match content_of c with
      | Number z => VNum (inject_Z z)
      | Date d => VNum (serial d)
      | Text s => VText s
      | Boolean b => VBool b
      | Blank => VEmpty
      | Formula _ => VError
      end
  end.

Definition number (v : val) : option Q :=
  match v with
  | VNum q => Some q
  | VEmpty => Some 0%Q
  | _ => None
  end.

(** [COUNT] counts the cells that hold a number or a date. *)
Definition numeric (c : option Cell) : bool :=
  match c with
  | Some c =>
      match content_of c with
      | Number _ | Date _ => true
      | _ => false
      end
  | None => false
  end.

Definition Qlt_bool (x y : Q) : bool := negb (Qle_bool y x).

(** The table of a given name, with the sheet it is on. *)
Definition find_table (wb : Workbook) (t : string) : option (Worksheet * (Range * options)) :=
  head (concat (map (fun ws =>
          map (fun tb => (ws, tb))
              (filter (fun tb => String.eqb (name tb.2) t = true) (tables ws)))
        (worksheets wb))).

Fixpoint index_of (h : string) (cols : list column) (k : Z) : option Z :=
  match cols with
  | [] => None
  | c :: cols' => if String.eqb (header c) h then Some k else index_of h cols' (k + 1)
  end.

(** The sheet column of a column of a table, by its header. *)
Definition column_position (tb : Range * options) (h : string) : option Z :=
  index_of h (table_columns 0 (range_width tb.1) (columns tb.2)) (xl_col (first_col tb.1)).

(** Where a formula is evaluated: in a workbook, and for a row formula in
    a row of a table of one of its sheets. *)
Record context := {
  book : Workbook;
  here : option (Worksheet * (Range * options) * Z)
}.

Fixpoint eval (ctx : context) (e : expr) : val :=
  match e with
  | Num n => VNum (inject_Z n)
  | ThisRow h =>
      match here ctx with
      | Some (ws, tb, r) =>
          match column_position tb h with
          | Some c => cell_val (table ws !! (r, c))
          | None => VError
          end
      | None => VError
      end
  | Column _ _ => VError
  | Sub a b =>
      match number (eval ctx a), number (eval ctx b) with
      | Some x, Some y => VNum (x - y)
      | _, _ => VError
      end
  | Gt a b =>
      match number (eval ctx a), number (eval ctx b) with
      | Some x, Some y => VBool (Qlt_bool y x)
      | _, _ => VError
      end
  | If c a b =>
      match eval ctx c with
      | VBool true => eval ctx a
      | VBool false => eval ctx b
      | VNum q => if Qeq_bool q 0 then eval ctx b else eval ctx a
      | _ => VError
      end
  | Count (Column t h) =>
      match find_table (book ctx) t with
      | Some (ws, tb) =>
          match column_position tb h with
          | Some c =>
              VNum (inject_Z (Z.of_nat (length
                (filter (fun r => numeric (table ws !! (r, c)) = true) (data_rows tb.1)))))
          | None => VError
          end
      | None => VError
      end
  | Count _ => VError
  end.

(** The formula of the [ScanDuration] column, and of the summary's scan
    count. *)
Definition ScanDuration : expr :=
  If (Gt (ThisRow "ScanCompletedOn") (Num 0))
     (Sub (ThisRow "ScanCompletedOn") (ThisRow "ScanRequestedOn"))
     (Num 0).

Definition Scans : expr := Count (Column SCANS_TABLE_NAME "ScanId").

End Excel.

(** ** Definitions for the statements *)

(** The formats the workbook is given, as [_wb_formats] holds them once
    [init_workbook] has run. *)
Definition formats_table : list (string * Format) :=
  Eval vm_compute in
    match init_wb_formats (start NoData None true (fun _ => 0)) with
    | Ok l _ => l
    | Raise _ _ => []
    end.

(** What [init_scans_ws_options] returns over those formats. *)
Definition scans_options : options :=
  Eval vm_compute in
    match init_scans_ws_options init_lang_columns
            {| _args := None; _log := []; _scans_wb := None; _wb_formats := formats_table;
               _worksheets := []; input_file := NoData; output_file := None;
               removable := true; clock := fun _ => 0; ticks := 0%nat; stdout := [] |} with
    | Ok o _ => o
    | Raise _ _ => {| name := ""; columns := [] |}
    end.

(** The scans table of a report of [n] scans. *)
Definition scans_range (n : Z) : Range := range "A" TABLE_TOP_ROWS "AX" (TABLE_TOP_ROWS + n).

(** The worksheet behind a handle. *)
Definition sheet (h : nat) (s : state) : option Worksheet :=
  wb ← _scans_wb s; worksheets wb !! h.

(** The state of the globals between [init] and the end of the run: the
    workbook is open with its two sheets, [Summary] first, and the formats
    are registered. *)
Definition opened (s : state) : Prop :=
  is_Some (_args s) /\
  _wb_formats s = formats_table /\
  _worksheets s = [("Summary", 0%nat); ("Scans", 1%nat)] /\
  exists wb w0 w1, _scans_wb s = Some wb /\ worksheets wb = [w0; w1] /\ fileclosed wb = false.

(** The same, before anything is written: no table on either sheet, no cell
    on the [Scans] sheet. *)
Definition ready (s : state) : Prop :=
  opened s /\
  exists w0 w1, sheet 0 s = Some w0 /\ sheet 1 s = Some w1 /\
    tables w0 = [] /\ tables w1 = [] /\ table w1 = ∅.

(** What a step of the run leaves alone, the log, the clock and the
    terminal apart. *)
Definition frame (s s' : state) : Prop :=
  _args s' = _args s /\ _wb_formats s' = _wb_formats s /\
  _worksheets s' = _worksheets s /\ input_file s' = input_file s /\
  output_file s' = output_file s.

(** What [write] stores for a value written without a format; [None] for
    the values that leave the sheet as it is. *)
Definition cell_content (v : pyval) : option content :=
  match v with
  | PyNone => None
  | PyBool b => Some (Boolean b)
  | PyInt z => Some (Number z)
  | PyStr s =>
      if String.eqb s "" then None
      else if starts_with_eq s then Some (Formula s) else Some (Text s)
  | PyDatetime d => Some (Date d)
  | PyList _ | PyDict _ => None
  end.

(** The content that a scan row leaves in column [c]: that of its last
    cell for [c] that stores something. *)
Fixpoint stored (c : Z) (scan_row : list (string * cell)) (acc : option content) : option content :=
  match scan_row with
  | [] => acc
  | kc :: rest =>
      stored c rest
        (if Z.eqb (col kc.2) c
         then match cell_content (value kc.2) with Some x => Some x | None => acc end
         else acc)
  end.


(** The names in a record's language-usage list. *)
Definition uses (scan : pyval) (lang : string) : Prop :=
  exists langs, (getitem scan "ScannedLanguages" ≫= iter) = Returns langs /\
    exists l, In l langs /\ getitem l "LanguageName" = Returns (PyStr lang).

(** The cell that a data cell of a scan row leaves, over what was there. *)
Definition over (x : option content) (old : option Cell) : option Cell :=
  match x with
  | Some x => Some {| content_of := x; format_of := None |}
  | None => old
  end.

(** The formula cell that a table puts in column [c] of each of its data
    rows, for the columns inside the range that have a formula. *)
Definition formula_at (cols : list column) (c0 c : Z) : option Cell :=
  if c0 <=? c
  then column ← cols !! Z.to_nat (c - c0);
       f ← formula column;
       Some {| content_of := Formula f; format_of := format column |}
  else None.

Definition table_formula (rng : Range) (opts : options) (c : Z) : option Cell :=
  formula_at (table_columns 0 (range_width rng) (columns opts)) (xl_col (first_col rng)) c.

Section Rows.

Variable parse : string -> option datetime.

(** A field of a record as the normaliser reads it, [None] standing for
    a field that cannot be read. *)
Definition field (scan : pyval) (k : string) : pyval :=
  match getitem scan k with
  | Returns v => v
  | Raises _ => PyNone
  end.

Definition stamp (scan : pyval) (k : string) : pyval :=
  match getitem scan k ≫= convert_datetime parse with
  | Returns v => v
  | Raises _ => PyNone
  end.

(** The cells of a scan row that do not depend on the languages. *)
Definition fixed_cells (scan : pyval) : list (string * cell) := [
  ("ScanId", {| value := field scan "Id"; col := 0 |});
  ("ProjectName", {| value := field scan "ProjectName"; col := 1 |});
  ("ProjectId", {| value := PyNone; col := 2 |});
  ("TeamId", {| value := field scan "OwningTeamId"; col := 3 |});
  ("Team", {| value := field scan "TeamName"; col := 4 |});
  ("EngineId", {| value := field scan "EngineServerId"; col := 5 |});
  ("Origin", {| value := field scan "Origin"; col := 6 |});
  ("Preset", {| value := field scan "PresetName"; col := 7 |});
  ("Incr", {| value := flag (field scan "IsIncremental"); col := 8 |});
  ("LOC", {| value := field scan "LOC"; col := 9 |});
  ("FailedLOC", {| value := field scan "FailedLOC"; col := 10 |});
  ("FileCount", {| value := field scan "FileCount"; col := 11 |});
  ("ScanRequestedOn", {| value := stamp scan "ScanRequestedOn"; col := 12 |});
  ("QueuedOn", {| value := stamp scan "QueuedOn"; col := 13 |});
  ("EngineStartedOn", {| value := stamp scan "EngineStartedOn"; col := 14 |});
  ("EngineFinishedOn", {| value := stamp scan "EngineFinishedOn"; col := 15 |});
  ("ScanCompletedOn", {| value := stamp scan "ScanCompletedOn"; col := 16 |});
  ("High", {| value := field scan "High"; col := 26 |});
  ("Med", {| value := field scan "Medium"; col := 27 |});
  ("Low", {| value := field scan "Low"; col := 28 |});
  ("Info", {| value := field scan "Info"; col := 29 |});
  ("Version", {| value := field scan "ProductVersion"; col := 30 |});
  ("Locked", {| value := flag (field scan "IsLocked"); col := 31 |});
  ("Public", {| value := flag (field scan "IsPublic"); col := 32 |})
].

(** Writing the cells of a scan row into sheet row [r], on the sheet
    itself. *)
Fixpoint write_cells (r : Z) (scan_row : list (string * cell)) (w : Worksheet) : Exc Worksheet :=
  match scan_row with
  | [] => Returns w
  | kc :: rest =>
      w' ← write r (col kc.2) (value kc.2) None w;
      write_cells r rest w'
  end.

(** Normalising the scans and writing their rows from data row [i] on, on
    the sheet itself. *)
Fixpoint fill (i : Z) (scans : list pyval) (w : Worksheet) : Exc Worksheet :=
  match scans with
  | [] => Returns w
  | scan_item :: rest =>
      scan_row ← convert_json_scan parse scan_item init_lang_columns;
      w' ← write_cells (i + TABLE_TOP_ROWS) scan_row w;
      fill (i + 1) rest w'
  end.

End Rows.

(** ** Sample data for the worked examples *)

(** A stand-in for the timestamp parser: a text of the form [dN...] reads as
    day [N] for a digit [N]; any other text is refused. *)
Definition sample_parse (s : string) : option datetime :=
  match s with
  | String "d" (String c _) =>
      let n := Z.of_nat (nat_of_ascii c) - 48 in
      if (0 <=? n) && (n <=? 9) then Some {| serial := inject_Z n |} else None
  | _ => None
  end.

Definition sample_scan (id : Z) (requested completed : string) (incremental : bool)
    (langs : list string) : pyval :=
  PyDict [
    ("Id", PyInt id); ("ProjectName", PyStr "webgoat"); ("OwningTeamId", PyStr "team-1");
    ("TeamName", PyStr "CxServer"); ("ProductVersion", PyStr "8.9.0");
    ("EngineServerId", PyInt 1); ("Origin", PyStr "Web Portal");
    ("PresetName", PyStr "Checkmarx Default");
    ("ScanRequestedOn", PyStr requested); ("QueuedOn", PyStr requested);
    ("EngineStartedOn", PyStr requested); ("EngineFinishedOn", PyStr completed);
    ("ScanCompletedOn", PyStr completed);
    ("FileCount", PyInt 12); ("LOC", PyInt 1000); ("FailedLOC", PyInt 0);
    ("High", PyInt 1); ("Medium", PyInt 2); ("Low", PyInt 3); ("Info", PyInt 4);
    ("IsIncremental", PyBool incremental); ("IsLocked", PyBool false);
    ("IsPublic", PyBool true);
    ("ScannedLanguages", PyList (map (fun l => PyDict [("LanguageName", PyStr l)]) langs))
  ].

Definition sample_scans : list pyval := [
  sample_scan 101 "d2" "d5" false ["Java"; "Common"];
  sample_scan 102 "d3" "d4" true ["JavaScript"; "VB6"]
].

Definition sample_doc (scans : list pyval) : pyval := PyDict [("value", PyList scans)].

Definition sample_args : Args :=
  {| customer := "acme"; scan_data_file := "scans.json"; excel_file := "scans.xlsx";
     force := false; debug := false |}.

(** The state of a sample run once [init] has opened the workbook. *)
Definition sample_ready : state :=
  final_state (init sample_args (start (Json (sample_doc sample_scans)) None true (fun n => Z.of_nat n))).

(** An entry of a scan row that stands for a language of the registry. *)
Definition entry_ok (x : string * cell) : Prop :=
  exists e, assoc x.1 init_lang_columns = Some e /\
            x.2 = {| value := PyInt 1; col := lang_col e |}.

(** The name at a language column. *)
Definition lang_at (c : Z) : string :=
  match nth_error init_lang_columns (Z.to_nat (c - 33)) with
  | Some x => x.1
  | None => ""
  end.

(** The body of the inner loop of [write_scans_ws]: one cell of a scan row,
    written into sheet row [r] of the [Scans] sheet. *)
Definition row_writer (r : Z) (scan_col : string * cell) : M unit :=
  let cell := scan_col.2 in on_sheet 1 (write r (col cell) (value cell) None).

(** The output path is free, or may be cleared. *)
Definition permitted (out : option artifact) (force rm : bool) : Prop :=
  out = None \/ (force = true /\ rm = true).

(** The handler of [cxsi] for an unexpected exception. *)
Definition unexpected (err : exn) : M unit :=
  log CRITICAL UnexpectedException;; log ERROR (Traceback (Some err)).


(** ** Definitions for the statements on whole runs *)

(** The fields of a record that the normaliser reads, the languages
    apart. *)
Definition required_fields : list string := [
  "Id"; "ProjectName"; "OwningTeamId"; "TeamName"; "EngineServerId"; "Origin";
  "PresetName"; "IsIncremental"; "LOC"; "FailedLOC"; "FileCount";
  "High"; "Medium"; "Low"; "Info"; "ProductVersion"; "IsLocked"; "IsPublic"
].

Definition timestamp_fields : list string := [
  "ScanRequestedOn"; "QueuedOn"; "EngineStartedOn"; "EngineFinishedOn"; "ScanCompletedOn"
].

(** A record whose fields can all be read and whose timestamps parse. *)
Definition well_formed (parse : string -> option datetime) (scan : pyval) : Prop :=
  Forall (fun k => exists v, getitem scan k = Returns v) required_fields /\
  Forall (fun k => exists d, (getitem scan k ≫= convert_datetime parse) = Returns (PyDatetime d))
         timestamp_fields.

(** A record whose language-usage list names languages of the registry
    only. *)
Definition known_languages (scan : pyval) : Prop :=
  exists langs, (getitem scan "ScannedLanguages" ≫= iter) = Returns langs /\
    Forall (fun l => exists n, getitem l "LanguageName" = Returns (PyStr n) /\
                               is_Some (assoc n init_lang_columns)) langs.



Definition sample_clock (n : nat) : Z := Z.of_nat n.

(** A record set with a language that the registry does not have. *)
Definition sample_unknown : list pyval := [
  sample_scan 101 "d2" "d5" false ["Java"];
  sample_scan 102 "d3" "d4" true ["Fortran"]
].

(** The number of tracked languages that appear in at least one record. *)
Definition uses_b (scan : pyval) (lang : string) : bool :=
  match getitem scan "ScannedLanguages" ≫= iter with
  | Returns langs =>
      List.existsb (fun l => match getitem l "LanguageName" with
                             | Returns (PyStr n) => String.eqb n lang
                             | _ => false
                             end) langs
  | Raises _ => false
  end.

Definition used_tracked (scans : list pyval) : nat :=
  length (List.filter (fun e => (lang_col e.2 >? -1) && List.existsb (fun scan => uses_b scan e.1) scans)
                      init_lang_columns).

(** The tracked languages of the registry, in its order. *)
Definition tracked_languages : list string :=
  map fst (List.filter (fun e => lang_col e.2 >? -1) init_lang_columns).






(** The sample run after [write_scans_ws]. *)
Definition sample_written : state :=
  final_state (write_scans_ws sample_parse (PyList sample_scans) sample_ready).

(** The first sample record, which uses the tracked language [Java] and the
    untracked language [Common], and its row. *)
Definition sample_record : pyval := sample_scan 101 "d2" "d5" false ["Java"; "Common"].

Definition sample_row : list (string * cell) :=
  match convert_json_scan sample_parse sample_record init_lang_columns with
  | Returns scan_row => scan_row
  | Raises _ => []
  end.

(** The record of [sample_unknown] that names a language absent from the
    registry. *)
Definition sample_fortran : pyval := sample_scan 102 "d3" "d4" true ["Fortran"].

(** ** Definitions for the properties of the single functions *)

(** Every key of a record that the normaliser reads. *)
Definition record_fields : list string :=
  required_fields ++ timestamp_fields ++ ["ScannedLanguages"].

(** The three fields that the normaliser reduces to 0 or 1, with the key
    and the column of their cell. *)
Definition flag_fields : list (string * string * Z) := [
  ("IsIncremental", "Incr", 8); ("IsLocked", "Locked", 31); ("IsPublic", "Public", 32)
].


(** Two sheets with the same settings: name, tab colour, column and row
    settings, merged ranges and panes; their cells and tables may differ. *)
Definition same_settings (w w' : Worksheet) : Prop :=
  ws_name w' = ws_name w /\ tab_color w' = tab_color w /\ colinfo w' = colinfo w /\
  rowinfo w' = rowinfo w /\ merged w' = merged w /\ panes w' = panes w.

(** The column settings that the two loops of [write_scans_ws] make: one
    for every column definition of the options, with [ProjectId] hidden,
    then one for every tracked language of the registry. *)
Definition option_widths (columns : list column) : list (Z * Z * Z * option Format * option Z) :=
  imap (fun k column =>
          (Z.of_nat k, Z.of_nat k, width column, None,
           if String.eqb (header column) "ProjectId" then Some 1 else None))
       columns.

Definition language_widths (lang_columns : list (string * lang_column))
    : list (Z * Z * Z * option Format * option Z) :=
  map (fun lang => (lang_col lang.2, lang_col lang.2, 8, None, Some (lang_hidden lang.2)))
      (List.filter (fun lang => lang_col lang.2 >? -1) lang_columns).

(** The two sheets as [init_workbook] makes them. *)
Definition summary_sheet : Worksheet := set_tab_color "green" (new_worksheet "Summary").
Definition scans_sheet : Worksheet := set_tab_color "yellow" (new_worksheet "Scans").

(** [s * n]: [n] copies of [s], and the empty text when [n] is not
    positive. *)
Fixpoint str_repeat (s : string) (n : nat) : string :=
  match n with
  | O => ""
  | S n' => s +:+ str_repeat s n'
  end.

Definition str_mul (s : string) (n : Z) : string := str_repeat s (Z.to_nat n).

(** The bar that [print_progress_bar] prints, for whole numbers:
    [filledLength = int(length * iteration // total)], where [//] rounds
    down, and [bar = fill * filledLength + '-' * (length - filledLength)]. *)
Definition filledLength (length iteration total : Z) : Z := (length * iteration) / total.

Definition bar (fill : string) (length iteration total : Z) : string :=
  str_mul fill (filledLength length iteration total)
  +:+ str_mul "-" (length - filledLength length iteration total).

(** The cell that [write] leaves for a value written with a format, over
    what was there: a value that [write] takes for empty leaves a blank cell
    when there is a format, and the cell as it was when there is none. *)
Definition written (v : pyval) (fmt : option Format) (old : option Cell) : option Cell :=
  match cell_content v with
  | Some x => Some {| content_of := x; format_of := fmt |}
  | None =>
      match fmt with
      | Some _ => Some {| content_of := Blank; format_of := fmt |}
      | None => old
      end
  end.






(** The second sample record, which uses [VB6], a tracked language. *)
Definition sample_vb6 : pyval := sample_scan 102 "d3" "d4" true ["JavaScript"; "VB6"].

(** ** The query that [print_query] prints *)

Definition __version__ : string := "1.0.0".
Definition __banner__ : string := "cxsi.py: CxSAST scan usage insight.".

Module Query.

Definition select : string :=
  "Id,ProjectName,OwningTeamId,TeamName,ProductVersion,EngineServerId,Origin,PresetName,ScanRequestedOn,"
  +:+ "QueuedOn,EngineStartedOn,EngineFinishedOn,ScanCompletedOn,ScanDuration,FileCount,LOC,FailedLOC,High,"
  +:+ "Medium,Low,Info,IsIncremental,IsLocked,IsPublic".

Definition filter_ : string :=
  "ScanRequestedOn%20gt%202019-05-01T00:00:00.000Z%20and%20ScanRequestedOn%20lt%202019-08-01T00:00:00.000Z".

Definition languages : string := "ScannedLanguages($select=LanguageName)".

Definition query : string :=
  "http://<cxhost>/cxwebinterface/odata/v1/Scans?$select=" +:+ select
  +:+ "&$expand=" +:+ languages +:+ "&$filter=" +:+ filter_.

End Query.

(** [print_query(ctx, param, value)]: the lines it echoes before it leaves
    through [ctx.exit()], or [None] when it returns without a word. *)
Definition print_query (resilient_parsing value : bool) : option (list string) :=
  if negb value || resilient_parsing then None
  else Some [__banner__ +:+ " v" +:+ __version__; " ";
             "OData query to generate Scan data:"; " "; Query.query].

(** The items of a list that is written with a separator between them. *)
Fixpoint split_on (sep : ascii) (s word : string) : list string :=
  match s with
  | EmptyString => [word]
  | String c rest =>
      if Ascii.eqb c sep then word :: split_on sep rest ""
      else split_on sep rest (word +:+ String c "")
  end.

(** The fields of a scan that the query asks the server for. *)
Definition selected : list string := split_on "," Query.select "".

(** The first sample record as the server returns it for that query: with
    its [ScanDuration]. *)
Definition sample_queried : pyval :=
  match sample_record with
  | PyDict fields => PyDict (fields ++ [("ScanDuration", PyStr "3.00:00:00")])
  | other => other
  end.

(** * Properties *)

(** ** Ordered dictionaries *)

Lemma od_set_app_notin {V} k (v : V) l1 l2 :
  assoc k l1 = None -> od_set k v (l1 ++ l2) = l1 ++ od_set k v l2.
Proof.
  induction l1 as [|[k' v'] l1 IH]; simpl; [reflexivity|].
  destruct (String.eqb k k'); [discriminate|].
  intros H. now rewrite IH.
Qed.

Lemma od_set_In_new {V} k (v : V) l : In (k, v) (od_set k v l).
Proof.
  induction l as [|[k' v'] l IH]; simpl; [now left|].
  destruct (String.eqb_spec k k') as [->|]; simpl; auto.
Qed.

Lemma od_set_In_old {V} k (v : V) l x : In x l -> x.1 <> k -> In x (od_set k v l).
Proof.
  induction l as [|[k' v'] l IH]; simpl; [tauto|].
  intros [<-|Hin] Hne; destruct (String.eqb_spec k k') as [->|]; simpl in *; auto; congruence.
Qed.

Lemma od_set_In_inv {V} k (v : V) l x : In x (od_set k v l) -> x = (k, v) \/ In x l.
Proof.
  induction l as [|[k' v'] l IH]; simpl; [intros [<-|[]]; auto|].
  destruct (String.eqb_spec k k') as [->|]; simpl; intuition auto.
Qed.

(** ** The language registry *)

Ltac case_key k :=
  match goal with
  | |- context [String.eqb k ?x] => destruct (String.eqb_spec k x) as [->|]
  end.

Lemma registry_cols k e :
  assoc k init_lang_columns = Some e -> lang_col e = -1 \/ 33 <= lang_col e <= 51.
Proof.
  unfold init_lang_columns; cbn [assoc].
  repeat (destruct (String.eqb k _); [intros [= <-]; cbn; lia|]).
  discriminate.
Qed.

Lemma registry_lang_at k e :
  assoc k init_lang_columns = Some e -> lang_col e <> -1 -> lang_at (lang_col e) = k.
Proof.
  unfold init_lang_columns; cbn [assoc].
  repeat (case_key k;
          [intros [= <-] Hne; first [reflexivity | exfalso; apply Hne; reflexivity]|]).
  discriminate.
Qed.


Section Normaliser.
Variable parse : string -> option datetime.

Lemma registry_not_fixed scan k :
  assoc k init_lang_columns <> None -> assoc k (fixed_cells parse scan) = None.
Proof.
  unfold init_lang_columns; cbn [assoc].
  repeat (case_key k; [intros _; reflexivity|]).
  congruence.
Qed.

Lemma convert_datetime_inv v x :
  convert_datetime parse v = Returns x -> exists d, x = PyDatetime d.
Proof.
  destruct v; simpl; try discriminate.
  destruct (parse s); [|discriminate]. intros [= <-]. eauto.
Qed.

Lemma add_language_columns_inv fixed langs :
  (forall k, assoc k init_lang_columns <> None -> assoc k fixed = None) ->
  forall extra0 row,
  add_language_columns init_lang_columns langs (fixed ++ extra0) = Returns row ->
  Forall entry_ok extra0 ->
  exists extra, row = fixed ++ extra /\ Forall entry_ok extra /\
    (forall x, In x extra0 -> In x extra) /\
    (forall x, In x extra -> In x extra0 \/
       exists l, In l langs /\ getitem l "LanguageName" = Returns (PyStr x.1)) /\
    (forall l k, In l langs -> getitem l "LanguageName" = Returns (PyStr k) ->
       exists e, assoc k init_lang_columns = Some e /\
                 In (k, {| value := PyInt 1; col := lang_col e |}) extra).
Proof.
  intros Hdis. induction langs as [|lang rest IH]; intros extra0 row; cbn [add_language_columns].
  - intros [= <-] Hok. exists extra0. repeat split; auto.
    intros l k [].
  - destruct (getitem lang "LanguageName") as [lang_name|] eqn:Hname; cbn [mbind Exc_bind]; [|discriminate].
    destruct (lang_lookup init_lang_columns lang_name) as [[s lc]|] eqn:Hlook; cbn [mbind Exc_bind fst snd]; [|discriminate].
    assert (Hs : lang_name = PyStr s /\ assoc s init_lang_columns = Some lc).
    { unfold lang_lookup in Hlook. destruct lang_name; try discriminate.
      destruct (assoc s0 init_lang_columns) eqn:E; [|discriminate].
      injection Hlook as <- <-. auto. }
    destruct Hs as [-> Hs].
    rewrite od_set_app_notin by (apply Hdis; congruence).
    intros Hrun Hok.
    assert (Hnew : entry_ok (s, {| value := PyInt 1; col := lang_col lc |})) by (exists lc; auto).
    apply IH in Hrun.
    2:{ apply List.Forall_forall. intros x Hx. apply od_set_In_inv in Hx as [->|Hx]; auto.
        rewrite List.Forall_forall in Hok. auto. }
    destruct Hrun as (extra & -> & Hext & Hkeep & Hfrom & Hlang).
    exists extra. split; [reflexivity|]. split; [exact Hext|]. split; [|split].
    + intros x Hx. apply Hkeep.
      destruct (String.eqb_spec x.1 s) as [Heq|Hne].
      * rewrite List.Forall_forall in Hok. destruct (Hok x Hx) as (e & He & Hc).
        rewrite Heq in He. rewrite Hs in He. injection He as <-.
        destruct x as [k c]; simpl in *. subst. apply od_set_In_new.
      * now apply od_set_In_old.
    + intros x Hx. destruct (Hfrom x Hx) as [Hin|(l & Hl & Hn)].
      * apply od_set_In_inv in Hin as [->|Hin]; auto.
        right. exists lang. split; [now left|]. exact Hname.
      * right. exists l. split; [now right|]. exact Hn.
    + intros l k [<-|Hl] Hk.
      * rewrite Hname in Hk. injection Hk as <-. exists lc. split; auto.
        apply Hkeep, od_set_In_new.
      * eauto.
Qed.

Ltac split_exc H :=
  match type of H with
  | context [match ?x with Returns _ => _ | Raises _ => _ end] =>
      match x with
      | context [match _ with Returns _ => _ | Raises _ => _ end] => fail 1
      | _ => destruct x eqn:?; cbv beta iota in H; [|discriminate H]
      end
  end.

Lemma convert_json_scan_inv scan row :
  convert_json_scan parse scan init_lang_columns = Returns row ->
  exists langs,
    (getitem scan "ScannedLanguages" ≫= iter) = Returns langs /\
    add_language_columns init_lang_columns langs (fixed_cells parse scan) = Returns row /\
    (exists d, stamp parse scan "ScanRequestedOn" = PyDatetime d) /\
    (exists d, stamp parse scan "ScanCompletedOn" = PyDatetime d).
Proof.
  unfold convert_json_scan, fixed_cells, field, stamp. intros H.
  unfold mbind, Exc_bind in *. cbv beta in *.
  repeat split_exc H.
  eexists. split; [reflexivity|]. split; [exact H|].
  split; eapply convert_datetime_inv; eassumption.
Qed.

End Normaliser.

(** ** Cells *)

Lemma tables_store r c x w : tables (store r c x w) = tables w.
Proof. unfold store. now destruct (check_dimensions r c). Qed.

Lemma table_store r c x w r' c' :
  table (store r c x w) !! (r', c') =
    if decide (r' = r /\ c' = c /\ check_dimensions r c = true) then Some x
    else table w !! (r', c').
Proof.
  unfold store. destruct (check_dimensions r c) eqn:Hd; cbn [table with_table].
  - destruct (decide ((r, c) = (r', c'))) as [[= -> ->]|Hne].
    + rewrite lookup_insert_eq. rewrite decide_True by auto. reflexivity.
    + rewrite lookup_insert_ne by exact Hne.
      rewrite decide_False; [reflexivity|]. intros (-> & -> & _). now apply Hne.
  - rewrite decide_False; [reflexivity|]. intros (_ & _ & ?). discriminate.
Qed.

Lemma write_inv r c v w w' :
  write r c v None w = Returns w' ->
  tables w' = tables w /\
  forall r' c', table w' !! (r', c') =
    if decide (r' = r /\ c' = c /\ check_dimensions r c = true)
    then over (cell_content v) (table w !! (r', c'))
    else table w !! (r', c').
Proof.
  unfold write, write_blank, cell_content.
  destruct v as [|b|z|s|d|l|d]; try discriminate;
    try (intros [= <-]; split; [apply tables_store|];
         intros r' c'; rewrite table_store; now case_decide).
  - intros [= <-]. split; [reflexivity|]. intros r' c'. now case_decide.
  - destruct (String.eqb s ""); [|destruct (starts_with_eq s)];
      intros [= <-]; (split; [try apply tables_store; reflexivity|]);
      intros r' c'; rewrite ?table_store; now case_decide.
Qed.

Lemma write_exception r c v f w e : write r c v f w = Raises e -> is_Exception e = true.
Proof.
  unfold write. destruct v; try discriminate.
  - destruct (String.eqb s ""); [|destruct (starts_with_eq s)]; discriminate.
  - now intros [= <-].
  - now intros [= <-].
Qed.

Lemma stored_acc c scan_row : forall acc,
  stored c scan_row acc =
    match stored c scan_row None with Some x => Some x | None => acc end.
Proof.
  induction scan_row as [|kc rest IH]; intros acc; cbn [stored]; [reflexivity|].
  rewrite IH.
  match goal with
  | |- _ = match stored c rest (if ?a then ?b else ?d) with _ => _ end =>
      rewrite (IH (if a then b else d))
  end.
  destruct (stored c rest None); [reflexivity|].
  destruct (col kc.2 =? c); [|reflexivity].
  now destruct (cell_content (value kc.2)).
Qed.

Lemma stored_app c l1 l2 acc : stored c (l1 ++ l2) acc = stored c l2 (stored c l1 acc).
Proof.
  revert acc. induction l1 as [|kc l1 IH]; intros acc; cbn [stored app]; [reflexivity|].
  apply IH.
Qed.

Lemma stored_other c l acc : (forall x, In x l -> col x.2 <> c) -> stored c l acc = acc.
Proof.
  revert acc. induction l as [|kc l IH]; intros acc H; cbn [stored]; [reflexivity|].
  rewrite IH by (intros x Hx; apply H; now right).
  destruct (Z.eqb_spec (col kc.2) c) as [Heq|]; [|reflexivity].
  exfalso. apply (H kc); [now left|exact Heq].
Qed.

Lemma write_cells_inv r scan_row : forall w w',
  write_cells r scan_row w = Returns w' ->
  tables w' = tables w /\
  forall r' c', table w' !! (r', c') =
    if decide (r' = r /\ check_dimensions r c' = true)
    then over (stored c' scan_row None) (table w !! (r', c'))
    else table w !! (r', c').
Proof.
  induction scan_row as [|kc rest IH]; intros w w'; cbn [write_cells].
  - intros [= <-]. split; [reflexivity|]. intros r' c'. now case_decide.
  - destruct (write r (col kc.2) (value kc.2) None w) as [w1|] eqn:Hw;
      cbn [mbind Exc_bind]; [|discriminate].
    intros Hrest. apply IH in Hrest as [Ht Hrest]. apply write_inv in Hw as [Ht1 Hw].
    split; [congruence|]. intros r' c'. rewrite Hrest, Hw. cbn [stored].
    match goal with
    | |- context [stored c' rest (if ?a then ?b else ?d)] =>
        rewrite (stored_acc c' rest (if a then b else d))
    end.
    destruct (decide (r' = r /\ check_dimensions r c' = true)) as [[-> Hd]|Hn].
    + destruct (Z.eqb_spec (col kc.2) c') as [Heq|Hne].
      * rewrite decide_True by (rewrite Heq; auto).
        destruct (stored c' rest None); [reflexivity|].
        now destruct (cell_content (value kc.2)).
      * rewrite decide_False by (intros (_ & ? & _); congruence).
        now destruct (stored c' rest None).
    + rewrite decide_False; [reflexivity|].
      intros (-> & -> & Hd). apply Hn. auto.
Qed.

Section Fill.
Variable parse : string -> option datetime.

Lemma fill_inv scans : forall i w w',
  fill parse i scans w = Returns w' ->
  tables w' = tables w /\
  (forall (k : nat) scan, scans !! k = Some scan ->
     exists scan_row, convert_json_scan parse scan init_lang_columns = Returns scan_row /\
       forall c, check_dimensions (i + Z.of_nat k + TABLE_TOP_ROWS) c = true ->
         table w' !! (i + Z.of_nat k + TABLE_TOP_ROWS, c) =
           over (stored c scan_row None) (table w !! (i + Z.of_nat k + TABLE_TOP_ROWS, c))) /\
  (forall r c, ~ (i + TABLE_TOP_ROWS <= r < i + TABLE_TOP_ROWS + Z.of_nat (length scans)) ->
     table w' !! (r, c) = table w !! (r, c)).
Proof.
  induction scans as [|scan_item rest IH]; intros i w w'; cbn [fill].
  - intros [= <-]. split; [reflexivity|]. split; [|reflexivity].
    intros k scan Hk. discriminate.
  - destruct (convert_json_scan parse scan_item init_lang_columns) as [scan_row|] eqn:Hrow;
      cbn [mbind Exc_bind]; [|discriminate].
    destruct (write_cells (i + TABLE_TOP_ROWS) scan_row w) as [w1|] eqn:Hw;
      cbn [mbind Exc_bind]; [|discriminate].
    intros Hrest. apply IH in Hrest as (Ht & Hrows & Hout).
    apply write_cells_inv in Hw as [Ht1 Hw].
    split; [congruence|]. split.
    + intros [|k] scan Hk; cbn in Hk.
      * injection Hk as <-. exists scan_row. split; [exact Hrow|].
        intros c Hd. replace (i + Z.of_nat 0 + TABLE_TOP_ROWS) with (i + TABLE_TOP_ROWS) in * by lia.
        rewrite Hout by (unfold TABLE_TOP_ROWS; lia).
        rewrite Hw. now rewrite decide_True by auto.
      * destruct (Hrows k scan Hk) as (row' & Hrow' & Hc). exists row'. split; [exact Hrow'|].
        intros c Hd.
        replace (i + Z.of_nat (S k) + TABLE_TOP_ROWS) with (i + 1 + Z.of_nat k + TABLE_TOP_ROWS) in * by lia.
        rewrite Hc by exact Hd. rewrite Hw.
        rewrite decide_False by (intros [? _]; lia). reflexivity.
    + intros r c Hr. cbn [length] in Hr.
      rewrite Hout by lia. rewrite Hw.
      rewrite decide_False by (intros [? _]; lia). reflexivity.
Qed.

Lemma fill_raises scans : forall i w scan e,
  In scan scans -> convert_json_scan parse scan init_lang_columns = Raises e ->
  exists e', fill parse i scans w = Raises e'.
Proof.
  induction scans as [|scan_item rest IH]; intros i w scan e [].
  - subst. intros H. cbn [fill]. rewrite H. eexists. reflexivity.
  - intros Hc. cbn [fill].
    destruct (convert_json_scan parse scan_item init_lang_columns); cbn [mbind Exc_bind]; [|eauto].
    destruct (write_cells _ _ _); cbn [mbind Exc_bind]; eauto.
Qed.

End Fill.

(** ** Tables *)

Lemma store_all_app l1 l2 w : store_all (l1 ++ l2) w = store_all l2 (store_all l1 w).
Proof. unfold store_all. apply foldl_app. Qed.

Lemma tables_store_all l : forall w, tables (store_all l w) = tables w.
Proof.
  induction l as [|x l IH]; intros w; [reflexivity|].
  change (store_all (x :: l) w) with (store_all l (store x.1.1 x.1.2 x.2 w)).
  rewrite IH. apply tables_store.
Qed.

Lemma table_store_rows rows c x : forall w r' c',
  table (store_all (map (fun r => (r, c, x)) rows) w) !! (r', c') =
    if decide (c' = c /\ r' ∈ rows /\ check_dimensions r' c = true) then Some x
    else table w !! (r', c').
Proof.
  induction rows as [|r rows IH]; intros w r' c'.
  - cbn. rewrite decide_False; [reflexivity|]. intros (_ & H & _). now apply elem_of_nil in H.
  - change (store_all (map (fun r => (r, c, x)) (r :: rows)) w)
      with (store_all (map (fun r => (r, c, x)) rows) (store r c x w)).
    rewrite IH, table_store.
    destruct (decide (c' = c /\ r' ∈ rows /\ check_dimensions r' c = true)) as [(-> & Hin & Hd)|Hn].
    + rewrite decide_True; [reflexivity|]. split; [reflexivity|]. split; [now apply elem_of_cons; right|exact Hd].
    + destruct (decide (r' = r /\ c' = c /\ check_dimensions r c = true)) as [(-> & -> & Hd)|Hn'].
      * rewrite decide_True; [reflexivity|]. split; [reflexivity|]. split; [now apply elem_of_cons; left|exact Hd].
      * rewrite decide_False; [reflexivity|].
        intros (-> & Hin & Hd). apply elem_of_cons in Hin as [->|Hin]; [apply Hn'|apply Hn]; auto.
Qed.

Lemma table_column_cells rng c column w r' c' :
  r' <> header_row rng ->
  table (store_all (column_cells rng c column) w) !! (r', c') =
    if decide (r' ∈ data_rows rng /\ check_dimensions r' c' = true)
    then match formula_at [column] c c' with
         | Some x => Some x
         | None => table w !! (r', c')
         end
    else table w !! (r', c').
Proof.
  intros Hr. unfold column_cells, formula_at.
  match goal with
  | |- context [store_all (?h :: ?l) w] =>
      change (store_all (h :: l) w) with (store_all l (store h.1.1 h.1.2 h.2 w))
  end.
  cbn [fst snd].
  assert (Hold : forall l,
    table (store (header_row rng) c l w) !! (r', c') = table w !! (r', c')).
  { intros l. rewrite table_store. rewrite decide_False; [reflexivity|]. intros (? & _). auto. }
  destruct (Z.leb_spec c c') as [Hle|Hlt].
  - destruct (decide (c' = c)) as [->|Hne].
    + replace (Z.to_nat (c - c)) with 0%nat by lia. cbn [lookup list_lookup mbind option_bind].
      destruct (formula column) as [f|]; cbn [mbind option_bind].
      * rewrite table_store_rows, Hold.
        destruct (decide (r' ∈ data_rows rng /\ check_dimensions r' c = true)) as [[H1 H2]|Hn].
        -- now rewrite decide_True by auto.
        -- rewrite decide_False; [reflexivity|]. intros (_ & ? & ?). apply Hn. auto.
      * cbn. rewrite Hold. now case_decide.
    + assert (Hnone : [column] !! Z.to_nat (c' - c) = None).
      { destruct (Z.to_nat (c' - c)) eqn:E; [lia|reflexivity]. }
      rewrite Hnone. cbn [mbind option_bind].
      destruct (formula column) as [f|].
      * rewrite table_store_rows, Hold. rewrite decide_False by (intros (? & _); auto).
        now case_decide.
      * cbn. rewrite Hold. now case_decide.
  - destruct (formula column) as [f|].
    + rewrite table_store_rows, Hold. rewrite decide_False by (intros (? & _); lia).
      now case_decide.
    + cbn. rewrite Hold. now case_decide.
Qed.

Lemma formula_at_cons column cols c0 c :
  formula_at (column :: cols) c0 c =
    match formula_at [column] c0 c with
    | Some x => Some x
    | None => formula_at cols (c0 + 1) c
    end.
Proof.
  unfold formula_at.
  destruct (Z.leb_spec c0 c) as [Hle|Hlt].
  - destruct (decide (c = c0)) as [->|Hne].
    + replace (Z.to_nat (c0 - c0)) with 0%nat by lia. cbn [lookup list_lookup mbind option_bind].
      destruct (formula column); cbn [mbind option_bind]; [reflexivity|].
      now rewrite (proj2 (Z.leb_gt _ _)) by lia.
    + replace (Z.to_nat (c - c0)) with (S (Z.to_nat (c - (c0 + 1)))) by lia.
      cbn [lookup list_lookup]. rewrite ?lookup_nil. cbn [mbind option_bind].
      now rewrite (proj2 (Z.leb_le _ _)) by lia.
  - now rewrite (proj2 (Z.leb_gt _ _)) by lia.
Qed.

Lemma table_columns_cells rng cols : forall c0 w r' c',
  r' <> header_row rng ->
  table (store_all (concat (imap (fun k column => column_cells rng (c0 + Z.of_nat k) column) cols)) w)
    !! (r', c') =
    if decide (r' ∈ data_rows rng /\ check_dimensions r' c' = true)
    then match formula_at cols c0 c' with
         | Some x => Some x
         | None => table w !! (r', c')
         end
    else table w !! (r', c').
Proof.
  induction cols as [|column cols IH]; intros c0 w r' c' Hr.
  - cbn. unfold formula_at. destruct (c0 <=? c'); cbn; now case_decide.
  - rewrite imap_cons. cbn [concat]. rewrite store_all_app.
    rewrite (imap_ext _ (fun k column => column_cells rng ((c0 + 1) + Z.of_nat k) column)).
    2:{ intros k x _. cbn. f_equal. lia. }
    rewrite IH by exact Hr. replace (c0 + Z.of_nat 0) with c0 by lia.
    rewrite table_column_cells by exact Hr. rewrite (formula_at_cons column cols c0 c').
    case_decide; [|reflexivity].
    destruct (formula_at [column] c0 c') eqn:E1; [|reflexivity].
    destruct (formula_at cols (c0 + 1) c') eqn:E2; [|reflexivity].
    exfalso. unfold formula_at in E1, E2.
    destruct (Z.leb_spec (c0 + 1) c'); [|discriminate].
    destruct (c0 <=? c'); [|discriminate].
    replace (Z.to_nat (c' - c0)) with (S (Z.to_nat (c' - (c0 + 1)))) in E1 by lia.
    discriminate.
Qed.

Lemma table_add_table rng opts w r c :
  refused rng = false ->
  r <> header_row rng ->
  table (add_table rng opts w) !! (r, c) =
    if decide (r ∈ data_rows rng /\ check_dimensions r c = true)
    then match table_formula rng opts c with
         | Some x => Some x
         | None => table w !! (r, c)
         end
    else table w !! (r, c).
Proof.
  intros Hacc Hr. unfold add_table, table_cells, table_formula. rewrite Hacc. cbn [table].
  now apply table_columns_cells.
Qed.

Lemma tables_add_table rng opts w :
  refused rng = false -> tables (add_table rng opts w) = tables w ++ [(rng, opts)].
Proof. intros Hacc. unfold add_table. rewrite Hacc. cbn [tables]. now rewrite tables_store_all. Qed.

Lemma add_table_refused rng opts w : refused rng = true -> add_table rng opts w = w.
Proof. intros Href. unfold add_table. now rewrite Href. Qed.

(** The scans table: its header row, its data rows and its formulas. *)

Lemma scans_header_row n : header_row (scans_range n) = 1.
Proof. reflexivity. Qed.

(** The library takes the scans table of a report of at least one scan
    that fits the rows of a sheet, and refuses the one of an empty
    report. *)
Lemma scans_range_accepted n :
  1 <= n -> n + 2 <= xls_rowmax -> refused (scans_range n) = false.
Proof.
  intros Hn Hfit. unfold refused, scans_range, range, xl_row, TABLE_TOP_ROWS.
  cbn [first_row last_row first_col last_col].
  change (xl_col "A") with 0. change (xl_col "AX") with 49.
  unfold check_dimensions, xls_colmax in *. unfold xls_rowmax in *.
  rewrite !orb_false_iff, !negb_false_iff, !andb_true_iff, !Z.leb_le, !Z.ltb_lt, Z.ltb_ge.
  lia.
Qed.

Lemma scans_range_refused : refused (scans_range 0) = true.
Proof. reflexivity. Qed.

Lemma scans_data_rows n r : r ∈ data_rows (scans_range n) <-> 2 <= r < 2 + n.
Proof.
  unfold data_rows, scans_range, range, header_row, xl_row, TABLE_TOP_ROWS. cbn [first_row last_row].
  rewrite elem_of_seqZ. lia.
Qed.

Lemma scans_formula_columns n c x :
  table_formula (scans_range n) scans_options c = Some x -> 17 <= c <= 25.
Proof.
  unfold table_formula, formula_at.
  change (xl_col (first_col (scans_range n))) with 0.
  change (range_width (scans_range n)) with 50%nat.
  destruct (Z.leb_spec 0 c) as [Hc|]; [|discriminate].
  replace (c - 0) with c by lia.
  remember (Z.to_nat c) as m eqn:Hm.
  assert (Hcm : c = Z.of_nat m) by lia. clear Hm. subst c.
  do 51 (destruct m as [|m]; [cbn; first [discriminate | intros _; lia]|]).
  cbn. discriminate.
Qed.

Lemma scans_duration_formula n :
  table_formula (scans_range n) scans_options 17 =
    Some {| content_of := Formula (Excel.text Excel.ScanDuration);
            format_of := Some [("num_format", PStr "[h]:mm:ss")] |}.
Proof. reflexivity. Qed.

(** ** The loops of [write_scans_ws], on the sheet *)

Lemma frame_refl s : frame s s.
Proof. repeat split. Qed.

Lemma frame_trans s1 s2 s3 : frame s1 s2 -> frame s2 s3 -> frame s1 s3.
Proof. unfold frame. intuition congruence. Qed.

Lemma set_worksheets_same wb l : worksheets wb = l -> set_worksheets l wb = wb.
Proof. destruct wb. cbn. now intros ->. Qed.

Lemma on_sheet_1 s wb w0 w1 f :
  _scans_wb s = Some wb -> worksheets wb = [w0; w1] ->
  on_sheet 1 f s =
    match f w1 with
    | Returns w1' => Ok tt (set_scans_wb (set_worksheets [w0; w1'] wb) s)
    | Raises e => Raise e s
    end.
Proof. unfold on_sheet. intros -> ->. cbn. reflexivity. Qed.

Lemma for_each_cells r scan_row : forall s wb w0 w1,
  _scans_wb s = Some wb -> worksheets wb = [w0; w1] ->
  match for_each scan_row (row_writer r) s with
  | Ok _ s' =>
      exists w1', write_cells r scan_row w1 = Returns w1' /\
        _scans_wb s' = Some (set_worksheets [w0; w1'] wb) /\ frame s s'
  | Raise e s' =>
      is_Exception e = true /\ write_cells r scan_row w1 = Raises e /\
      exists w1', _scans_wb s' = Some (set_worksheets [w0; w1'] wb) /\ frame s s'
  end.
Proof.
  induction scan_row as [|kc rest IH]; intros s wb w0 w1 Hwb Hws.
  - cbn. exists w1. rewrite set_worksheets_same by exact Hws. auto using frame_refl.
  - cbn [for_each write_cells]. unfold mbind at 1, M_bind. unfold row_writer at 1.
    cbv zeta. rewrite (on_sheet_1 s wb w0 w1) by assumption.
    destruct (write r (col kc.2) (value kc.2) None w1) as [w1a|e] eqn:Hw.
    + specialize (IH (set_scans_wb (set_worksheets [w0; w1a] wb) s)
                    (set_worksheets [w0; w1a] wb) w0 w1a eq_refl eq_refl).
      cbn [mbind Exc_bind].
      destruct (for_each rest (row_writer r) _) as [[] s'|e s'].
      * destruct IH as (w1' & Hc & Hb & Hf). exists w1'. split; [exact Hc|].
        split; [exact Hb|]. eapply frame_trans; [|exact Hf]. repeat split.
      * destruct IH as (He & Hc & w1' & Hb & Hf). split; [exact He|].
        split; [exact Hc|]. exists w1'.
        split; [exact Hb|]. eapply frame_trans; [|exact Hf]. repeat split.
    + split; [eapply write_exception; eassumption|]. split; [reflexivity|].
      exists w1. rewrite set_worksheets_same by exact Hws. auto using frame_refl.
Qed.

Section Loop.
Variable parse : string -> option datetime.

Lemma convert_json_scan_exception scan lc e :
  convert_json_scan parse scan lc = Raises e -> is_Exception e = true.
Proof.
  assert (Hg : forall v k x, getitem v k = Raises x -> is_Exception x = true).
  { intros v k x. unfold getitem. destruct v; try (now intros [= <-]).
    destruct (assoc k d); [discriminate|now intros [= <-]]. }
  assert (Hd : forall v x, convert_datetime parse v = Raises x -> is_Exception x = true).
  { intros v x. unfold convert_datetime. destruct v; try (now intros [= <-]).
    destruct (parse s); [discriminate|now intros [= <-]]. }
  assert (Hi : forall v x, iter v = Raises x -> is_Exception x = true).
  { intros v x. unfold iter. destruct v; try discriminate; now intros [= <-]. }
  assert (Hl : forall langs row, add_language_columns lc langs row = Raises e ->
                                 is_Exception e = true).
  { induction langs as [|lang rest IH]; intros row; cbn [add_language_columns]; [discriminate|].
    destruct (getitem lang "LanguageName") as [n|x] eqn:E; cbn [mbind Exc_bind];
      [|intros [= <-]; eauto].
    destruct (lang_lookup lc n) as [p|x] eqn:E'; cbn [mbind Exc_bind]; [apply IH|].
    intros [= <-]. unfold lang_lookup in E'.
    destruct n; try (now injection E' as <-).
    destruct (assoc s lc); [discriminate|now injection E' as <-]. }
  unfold convert_json_scan. unfold mbind, Exc_bind. cbv beta.
  repeat match goal with
  | |- match ?x with Returns _ => _ | Raises _ => _ end = _ -> _ =>
      match x with
      | context [match _ with Returns _ => _ | Raises _ => _ end] => fail 1
      | _ => let E := fresh "E" in
             destruct x eqn:E; [|intros [= <-]; eauto]
      end
  | |- match match ?x with Returns _ => _ | Raises _ => _ end with _ => _ end = _ -> _ =>
      let E := fresh "E" in destruct x eqn:E; [|intros [= <-]; eauto]
  end.
  apply Hl.
Qed.

Lemma populate_data_rows_inv n scans : forall i s wb w0 w1,
  _scans_wb s = Some wb -> worksheets wb = [w0; w1] ->
  match populate_data_rows parse 1 init_lang_columns n i scans s with
  | Ok _ s' =>
      exists w1', fill parse i scans w1 = Returns w1' /\
        _scans_wb s' = Some (set_worksheets [w0; w1'] wb) /\ frame s s'
  | Raise e s' =>
      is_Exception e = true /\
      (fill parse i scans w1 = Raises e \/ (n = 0 /\ scans <> [])) /\
      exists w1', _scans_wb s' = Some (set_worksheets [w0; w1'] wb) /\ frame s s'
  end.
Proof.
  induction scans as [|scan_item rest IH]; intros i s wb w0 w1 Hwb Hws.
  - cbn. exists w1. rewrite set_worksheets_same by exact Hws. auto using frame_refl.
  - cbn [populate_data_rows fill]. unfold mbind at 1, M_bind.
    unfold print_progress_bar.
    destruct (Z.eqb_spec n 0) as [Hn|Hn].
    { cbn. split; [reflexivity|]. split; [right; split; [exact Hn|discriminate]|]. exists w1.
      rewrite set_worksheets_same by exact Hws. auto using frame_refl. }
    unfold modify at 1. unfold mbind at 1, M_bind. unfold lift at 1.
    destruct (convert_json_scan parse scan_item init_lang_columns) as [scan_row|e] eqn:Hrow.
    2:{ split; [eapply convert_json_scan_exception; eassumption|].
        split; [left; reflexivity|]. exists w1. cbn.
        rewrite Hwb, set_worksheets_same by exact Hws. split; [reflexivity|]. repeat split. }
    cbn [mbind Exc_bind]. unfold mbind at 1, M_bind.
    pose proof (for_each_cells (i + TABLE_TOP_ROWS) scan_row (add_stdout (i + 1, n) s)
                  wb w0 w1 Hwb Hws) as Hrow_w.
    change (for_each scan_row _ (add_stdout (i + 1, n) s))
      with (for_each scan_row (row_writer (i + TABLE_TOP_ROWS)) (add_stdout (i + 1, n) s)).
    destruct (for_each scan_row (row_writer (i + TABLE_TOP_ROWS)) _) as [[] s1|e s1].
    + destruct Hrow_w as (w1a & Hc & Hb & Hf). rewrite Hc. cbn [mbind Exc_bind].
      specialize (IH (i + 1) s1 (set_worksheets [w0; w1a] wb) w0 w1a Hb eq_refl).
      destruct (populate_data_rows parse 1 init_lang_columns n (i + 1) rest s1) as [[] s'|e s'].
      * destruct IH as (w1' & Hfill & Hb' & Hf'). exists w1'. split; [exact Hfill|].
        split; [exact Hb'|]. eapply frame_trans; [|exact Hf'].
        eapply frame_trans; [|exact Hf]. repeat split.
      * destruct IH as (He & Hwhy & w1' & Hb' & Hf'). split; [exact He|].
        split; [destruct Hwhy as [Hwhy|[Hwhy _]]; [left; exact Hwhy|contradiction]|].
        exists w1'.
        split; [exact Hb'|]. eapply frame_trans; [|exact Hf'].
        eapply frame_trans; [|exact Hf]. repeat split.
    + destruct Hrow_w as (He & Hc & w1' & Hb & Hf). split; [exact He|].
      split; [left; rewrite Hc; reflexivity|]. exists w1'.
      split; [exact Hb|]. eapply frame_trans; [|exact Hf]. repeat split.
Qed.

End Loop.

(** ** [write_scans_ws] on an open workbook *)

Ltac explicit_state s :=
  destruct s as [? ? ? ? ? ? ? ? ? ? ?]; cbn in *.

Section Scans.
Variable parse : string -> option datetime.

Lemma write_scans_ws_inv scans s :
  opened s ->
  exists wb w0 w1 w1b,
    _scans_wb s = Some wb /\ worksheets wb = [w0; w1] /\
    table w1b = table w1 /\ tables w1b = tables w1 /\
    match write_scans_ws parse (PyList scans) s with
    | Ok _ s' =>
        exists w1',
          fill parse 0 scans
            (add_table (scans_range (Z.of_nat (length scans))) scans_options w1b) = Returns w1' /\
          _scans_wb s' = Some (set_worksheets [w0; w1'] wb) /\ frame s s'
    | Raise e s' =>
        is_Exception e = true /\
        (fill parse 0 scans
           (add_table (scans_range (Z.of_nat (length scans))) scans_options w1b) = Raises e \/
         (Z.of_nat (length scans) = 0 /\ scans <> [])) /\
        exists w1', _scans_wb s' = Some (set_worksheets [w0; w1'] wb) /\ frame s s'
    end.
Proof.
  intros (Ha & Hf & Hw & wb & w0 & w1 & Hwb & Hws & Hcl).
  explicit_state s. subst. destruct wb as [wo pr wsl fo cl]. cbn in *. subst.
  unfold write_scans_ws. cbn [len iter]. generalize (Z.of_nat (length scans)). intros n.
  eexists _, w0, w1, _. split; [reflexivity|]. split; [reflexivity|].
  match goal with
  | |- _ /\ _ /\ match ?run with _ => _ end =>
      let r := eval cbv -[populate_data_rows add_table set_column set_row merge_range
                          freeze_panes Z.add Z.sub Z.mul] in run in
      change run with r
  end.
  match goal with
  | |- context [populate_data_rows ?p ?h ?lc ?m ?i ?items ?S] =>
      pose proof (populate_data_rows_inv p m items i S _ w0 _ eq_refl eq_refl) as Hp;
      change init_lang_columns with lc in Hp;
      destruct (populate_data_rows p h lc m i items S) as [[] s1|e s1]
  end.
  - destruct Hp as (w1' & Hfill & Hb & Hfr).
    split; [|split]; [| |exists w1'; split; [exact Hfill|]].
    + reflexivity.
    + reflexivity.
    + explicit_state s1. unfold frame in *. cbn in *. intuition congruence.
  - destruct Hp as (He & Hwhy & w1' & Hb & Hfr).
    split; [|split]; [| |split; [exact He|]; split; [exact Hwhy|]].
    + reflexivity.
    + reflexivity.
    + exists w1'. explicit_state s1. unfold frame in *. cbn in *. intuition congruence.
Qed.

End Scans.

(** ** [write_summary_ws] on an open workbook *)

Lemma write_text r c s f w :
  exists w', write r c (PyStr s) f w = Returns w' /\ tables w' = tables w.
Proof.
  unfold write, write_blank.
  destruct (String.eqb s ""); [|destruct (starts_with_eq s)];
    try destruct f; eexists; (split; [reflexivity|]); try apply tables_store; reflexivity.
Qed.

Ltac lookup_stores :=
  repeat (rewrite table_store;
          first [ rewrite decide_True by (repeat split; reflexivity)
                | rewrite decide_False by (clear; intros (? & ? & ?); lia) ]).


(** ** The run, up to the writing of the sheets *)

Ltac run_norm :=
  match goal with
  | |- exists s, match ?run with _ => _ end = _ /\ _ =>
      let r := eval cbv -[getitem write_scans_ws write_summary_ws exit_script
                          Z.of_nat firstn] in run in
      change run with r
  end.

Section Run.
Variable parse : string -> option datetime.

Lemma cxsi_run cu f x fo dbg doc scans out rm clk :
  permitted out fo rm ->
  getitem doc "value" = Returns (PyList scans) ->
  exists s,
    cxsi parse cu f x fo dbg (start (Json doc) out rm clk) =
      try_except (write_scans_ws parse (PyList scans);; write_summary_ws (PyList scans))
        is_Exception unexpected (fun _ => exit_script 0) s /\
    ready s /\
    _args s = Some {| customer := cu; scan_data_file := f; excel_file := x;
                      force := fo; debug := dbg |} /\
    output_file s = None.
Proof.
  intros Hp Hv.
  assert (Hcases : out = None \/ exists a, out = Some a /\ fo = true /\ rm = true).
  { destruct Hp as [->|[-> ->]]; [now left|]. destruct out; [right; eauto|now left]. }
  unfold cxsi, try_except.
  destruct Hcases as [->|(a & -> & -> & ->)]; destruct dbg.
  all: repeat (run_norm; rewrite !Hv; cbv beta iota).
  all: run_norm.
  all: eexists; split; [unfold mbind, M_bind; reflexivity|];
       split; [|split; reflexivity];
       split;
         [split; [eexists; reflexivity|]; split; [reflexivity|]; split; [reflexivity|];
          eexists _, _, _; repeat split; reflexivity
         |eexists _, _; repeat split; reflexivity].
Qed.

End Run.

(** ** The cells of a scan row *)

Section RowFacts.
Variable parse : string -> option datetime.

Lemma scan_row_parts scan scan_row :
  convert_json_scan parse scan init_lang_columns = Returns scan_row ->
  exists langs extra,
    (getitem scan "ScannedLanguages" ≫= iter) = Returns langs /\
    scan_row = fixed_cells parse scan ++ extra /\
    Forall entry_ok extra /\
    (forall x, In x extra ->
       exists l, In l langs /\ getitem l "LanguageName" = Returns (PyStr x.1)) /\
    (forall l k, In l langs -> getitem l "LanguageName" = Returns (PyStr k) ->
       exists e, assoc k init_lang_columns = Some e /\
                 In (k, {| value := PyInt 1; col := lang_col e |}) extra) /\
    (exists d, stamp parse scan "ScanRequestedOn" = PyDatetime d) /\
    (exists d, stamp parse scan "ScanCompletedOn" = PyDatetime d).
Proof.
  intros H. apply convert_json_scan_inv in H as (langs & Hl & Hadd & Hreq & Hcomp).
  rewrite <- (app_nil_r (fixed_cells parse scan)) in Hadd.
  apply add_language_columns_inv in Hadd as (extra & -> & Hok & _ & Hfrom & Hlang);
    [|apply registry_not_fixed|constructor].
  exists langs, extra. repeat split; auto.
  intros x Hx. destruct (Hfrom x Hx) as [[]|]; assumption.
Qed.

Lemma fixed_cells_columns scan k c :
  In (k, c) (fixed_cells parse scan) -> 0 <= col c <= 16 \/ 26 <= col c <= 32.
Proof.
  unfold fixed_cells. cbn [In].
  intros H. repeat (destruct H as [H|H]; [injection H as <- <-; cbn [col]; lia|]).
  destruct H.
Qed.

Lemma extra_columns x : entry_ok x -> col x.2 = -1 \/ 33 <= col x.2 <= 51.
Proof.
  intros (e & He & ->). cbn [col]. eapply registry_cols, He.
Qed.

End RowFacts.

(** ** What a scan row stores, column by column *)

Lemma stored_same c y l : forall acc,
  (forall x, In x l -> col x.2 = c -> cell_content (value x.2) = Some y) ->
  acc = Some y \/ (exists x, In x l /\ col x.2 = c) ->
  stored c l acc = Some y.
Proof.
  induction l as [|kc l IH]; intros acc Hall Hsome; cbn [stored].
  - destruct Hsome as [->|(x & [] & _)]. reflexivity.
  - apply IH; [intros x Hx; apply Hall; now right|].
    destruct (Z.eqb_spec (col kc.2) c) as [Hc|Hc].
    + left. rewrite (Hall kc) by (auto; now left). reflexivity.
    + destruct Hsome as [->|(x & [<-|Hin] & Hx)]; [now left|contradiction|].
      right. eauto.
Qed.

Section Stored.
Variable parse : string -> option datetime.

Lemma stored_fixed scan k c :
  In (k, c) (fixed_cells parse scan) ->
  stored (col c) (fixed_cells parse scan) None = cell_content (value c).
Proof.
  unfold fixed_cells. cbn [In].
  intros H.
  repeat (destruct H as [H|H];
          [injection H as <- <-; cbn -[field stamp flag cell_content];
           now destruct (cell_content _)|]).
  destruct H.
Qed.

Lemma stored_fixed_none scan c :
  17 <= c <= 25 \/ 33 <= c \/ c < 0 -> stored c (fixed_cells parse scan) None = None.
Proof.
  intros Hc. apply stored_other. intros [k cl] Hin.
  apply fixed_cells_columns in Hin. cbn [snd]. lia.
Qed.

Lemma stored_extra_low extra c acc :
  Forall entry_ok extra -> 0 <= c <= 32 -> stored c extra acc = acc.
Proof.
  intros Hok Hc. apply stored_other. intros x Hx.
  rewrite List.Forall_forall in Hok. pose proof (extra_columns x (Hok x Hx)). lia.
Qed.

(** A cell of a scan row at a sheet column is the one the row stores
    there. *)
Lemma scan_row_stored scan scan_row k c :
  convert_json_scan parse scan init_lang_columns = Returns scan_row ->
  In (k, c) scan_row -> 0 <= col c ->
  stored (col c) scan_row None = cell_content (value c).
Proof.
  intros Hrow Hin Hc.
  destruct (scan_row_parts parse scan scan_row Hrow)
    as (langs & extra & _ & -> & Hok & _ & _ & _ & _).
  rewrite stored_app. apply in_app_or in Hin as [Hin|Hin].
  - pose proof (fixed_cells_columns parse scan k c Hin).
    rewrite stored_extra_low by (auto; lia). now apply (stored_fixed scan k).
  - rewrite List.Forall_forall in Hok.
    destruct (Hok _ Hin) as (e & He & Hcell). cbn [fst snd] in *. subst c. cbn [col value] in *.
    apply stored_same; [|right; exists (k, {| value := PyInt 1; col := lang_col e |}); auto].
    intros x Hx Hcx. destruct (Hok x Hx) as (e' & _ & ->). reflexivity.
Qed.

Lemma scan_row_columns scan scan_row k c :
  convert_json_scan parse scan init_lang_columns = Returns scan_row ->
  In (k, c) scan_row ->
  0 <= col c <= 16 \/ 26 <= col c <= 32 \/ 33 <= col c <= 51 \/ col c = -1.
Proof.
  intros Hrow Hin.
  destruct (scan_row_parts parse scan scan_row Hrow)
    as (langs & extra & _ & -> & Hok & _ & _ & _ & _).
  apply in_app_or in Hin as [Hin|Hin].
  - pose proof (fixed_cells_columns parse scan k c Hin). lia.
  - rewrite List.Forall_forall in Hok. pose proof (extra_columns _ (Hok _ Hin)) as H.
    cbn [snd] in H. lia.
Qed.

(** C10: every cell that the normaliser produces has its column in 0..16,
    26..32, the language columns 33..51, or is the sentinel -1, so none is
    in the formula columns 17..25; and writing the cells of a scan row into
    a sheet row leaves the cells of the columns 17..25 of that row as they
    were. *)
Theorem formula_columns_untouched scan scan_row :
  convert_json_scan parse scan init_lang_columns = Returns scan_row ->
  (forall k c, In (k, c) scan_row ->
     ~ (17 <= col c <= 25) /\
     (0 <= col c <= 16 \/ 26 <= col c <= 32 \/ 33 <= col c <= 51 \/ col c = -1)) /\
  (forall r w w', write_cells r scan_row w = Returns w' ->
     forall c, 17 <= c <= 25 -> table w' !! (r, c) = table w !! (r, c)).
Proof.
  intros Hrow. split.
  - intros k c Hin. pose proof (scan_row_columns scan scan_row k c Hrow Hin). lia.
  - intros r w w' Hw c Hc. apply write_cells_inv in Hw as [_ Hw]. rewrite Hw.
    case_decide; [|reflexivity].
    rewrite stored_other; [reflexivity|].
    intros [k cl] Hin. pose proof (scan_row_columns scan scan_row k cl Hrow Hin).
    cbn [snd]. lia.
Qed.


End Stored.

(** ** Records that name untracked languages *)

Lemma assoc_In {V} k (v : V) l : In (k, v) l -> assoc k l <> None.
Proof.
  induction l as [|[k' v'] l IH]; cbn; [tauto|].
  intros [[= -> ->]|Hin].
  - now rewrite String.eqb_refl.
  - destruct (String.eqb k k'); [discriminate|auto].
Qed.

Lemma add_language_columns_returns langs : forall scan_row,
  Forall (fun l => exists n, getitem l "LanguageName" = Returns (PyStr n) /\
                             is_Some (assoc n init_lang_columns)) langs ->
  exists scan_row', add_language_columns init_lang_columns langs scan_row = Returns scan_row'.
Proof.
  induction langs as [|l langs IH]; intros scan_row Hall; cbn [add_language_columns]; [eauto|].
  apply Forall_cons in Hall as [(n & Hn & [e He]) Hall].
  rewrite Hn. cbn [mbind Exc_bind lang_lookup]. rewrite He. cbn [mbind Exc_bind]. now apply IH.
Qed.

Section Untracked.
Variable parse : string -> option datetime.

Lemma convert_json_scan_returns scan :
  well_formed parse scan -> known_languages scan ->
  exists scan_row, convert_json_scan parse scan init_lang_columns = Returns scan_row.
Proof.
  intros [Hreq Hts] (langs & Hlangs & Hknown).
  unfold required_fields, timestamp_fields in *.
  repeat match goal with
  | H : Forall _ (_ :: _) |- _ => apply Forall_cons in H as [[? ?] H]
  end.
  unfold convert_json_scan.
  repeat match goal with
  | H : (getitem scan ?k ≫= convert_datetime parse) = Returns _ |- _ => rewrite H; clear H
  end.
  repeat match goal with
  | H : getitem scan ?k = Returns _ |- _ => rewrite H; clear H
  end.
  cbn [mbind Exc_bind]. rewrite Hlangs. cbn [mbind Exc_bind].
  now apply add_language_columns_returns.
Qed.

(** C4: a record whose fields are well formed and whose languages are all
    in the registry normalises, also when some of them are untracked; the
    cell of an untracked language carries the column -1, a position that
    the sheet refuses, so that writing it changes no cell; and the cells
    that writing the row changes are in the fixed columns or in the column
    of a tracked language that the record uses. *)
Theorem untracked_language_row scan :
  well_formed parse scan -> known_languages scan ->
  exists scan_row, convert_json_scan parse scan init_lang_columns = Returns scan_row /\
    (forall L lc, uses scan L -> assoc L init_lang_columns = Some lc -> lang_col lc = -1 ->
       In (L, {| value := PyInt 1; col := -1 |}) scan_row /\
       (forall c, In (L, c) scan_row -> col c = -1) /\
       (forall r w, write r (-1) (PyInt 1) None w = Returns w)) /\
    (forall r w w', write_cells r scan_row w = Returns w' ->
       forall c, table w' !! (r, c) <> table w !! (r, c) ->
         0 <= c <= 16 \/ 26 <= c <= 32 \/
         exists L lc, uses scan L /\ assoc L init_lang_columns = Some lc /\
                      lang_col lc = c /\ c <> -1).
Proof.
  intros Hwf Hknown.
  destruct (convert_json_scan_returns scan Hwf Hknown) as [scan_row Hrow].
  exists scan_row. split; [exact Hrow|].
  destruct (scan_row_parts parse scan scan_row Hrow)
    as (langs & extra & Hlangs & Heq & Hok & Hfrom & Hlang & _ & _).
  rewrite List.Forall_forall in Hok.
  split.
  - intros L lc (langs' & Hlangs' & l & Hl & Hname) HL Hun.
    rewrite Hlangs in Hlangs'. injection Hlangs' as <-.
    destruct (Hlang l L Hl Hname) as (e & He & Hin). rewrite HL in He. injection He as <-.
    rewrite Hun in Hin. split; [rewrite Heq; apply in_or_app; now right|]. split.
    + intros c Hc. rewrite Heq in Hc. apply in_app_or in Hc as [Hc|Hc].
      * exfalso. apply assoc_In in Hc. apply Hc.
        apply registry_not_fixed. congruence.
      * destruct (Hok _ Hc) as (e & He & Hcell). cbn [fst snd] in He, Hcell.
        subst c. cbn [col]. congruence.
    + intros r w. unfold write, store, check_dimensions.
      replace (0 <=? -1) with false by reflexivity.
      now rewrite andb_false_r.
  - intros r w w' Hw c Hc. apply write_cells_inv in Hw as [_ Hw]. rewrite Hw in Hc.
    case_decide as Hd; [|contradiction]. destruct Hd as [_ Hd].
    assert (Hc0 : 0 <= c).
    { unfold check_dimensions in Hd. rewrite !andb_true_iff, !Z.leb_le in Hd. lia. }
    assert (Hex : exists x, In x scan_row /\ col x.2 = c).
    { destruct (List.existsb (fun x => col x.2 =? c) scan_row) eqn:E.
      - apply existsb_exists in E as (x & Hx & Hxc). exists x. split; [exact Hx|lia].
      - exfalso. apply Hc. rewrite stored_other; [reflexivity|].
        intros x Hx Hxc.
        assert (Ht : List.existsb (fun x => col x.2 =? c) scan_row = true).
        { apply existsb_exists. exists x. split; [exact Hx|lia]. }
        congruence. }
    destruct Hex as ([k cl] & Hx & Hxc). cbn [snd] in Hxc.
    rewrite Heq in Hx. apply in_app_or in Hx as [Hx|Hx].
    + pose proof (fixed_cells_columns parse scan k cl Hx). lia.
    + right. right. destruct (Hok _ Hx) as (e & He & Hcl). cbn [fst snd] in *.
      destruct (Hfrom _ Hx) as (l & Hl & Hn). cbn [fst] in Hn.
      exists k, e. subst cl. cbn [col] in Hxc.
      split; [exists langs; eauto|]. split; [exact He|]. split; [exact Hxc|lia].
Qed.

End Untracked.

(** ** The [Scans] sheet after [write_scans_ws] *)

Lemma check_dimensions_spec r c :
  check_dimensions r c = true <-> 0 <= r < xls_rowmax /\ 0 <= c < xls_colmax.
Proof.
  unfold check_dimensions. rewrite !andb_true_iff, !Z.leb_le, !Z.ltb_lt. lia.
Qed.

Section ScansSheet.
Variable parse : string -> option datetime.

Lemma write_scans_ws_sheet scans s s' :
  ready s ->
  Z.of_nat (length scans) + 2 <= xls_rowmax ->
  write_scans_ws parse (PyList scans) s = Ok tt s' ->
  exists wb w0 ws,
    _scans_wb s' = Some wb /\ worksheets wb = [w0; ws] /\ sheet 0 s = Some w0 /\
    fileclosed wb = false /\ frame s s' /\
    tables ws = match scans with
                | [] => []
                | _ => [(scans_range (Z.of_nat (length scans)), scans_options)]
                end /\
    (forall (i : nat) scan, scans !! i = Some scan ->
       exists scan_row, convert_json_scan parse scan init_lang_columns = Returns scan_row /\
         forall c, 0 <= c < xls_colmax ->
           table ws !! (Z.of_nat i + 2, c) =
             over (stored c scan_row None)
                  (table_formula (scans_range (Z.of_nat (length scans))) scans_options c)) /\
    (forall r c, Z.of_nat (length scans) + 2 <= r -> table ws !! (r, c) = None).
Proof.
  intros [Hop (r0 & r1 & Hs0 & Hs1 & Ht0 & Ht1 & Hempty)] Hfit Hrun.
  destruct (write_scans_ws_inv parse scans s Hop)
    as (wb & w0 & w1 & w1b & Hwb & Hws & Htab & Htabs & Hout).
  rewrite Hrun in Hout. destruct Hout as (w1' & Hfill & Hwb' & Hfr).
  unfold sheet in Hs0, Hs1. rewrite Hwb in Hs0, Hs1. cbn in Hs0, Hs1.
  rewrite Hws in Hs0, Hs1. cbn in Hs0, Hs1. injection Hs0 as <-. injection Hs1 as <-.
  destruct Hop as (_ & _ & _ & wb0 & ? & ? & Hwb0 & _ & Hcl).
  rewrite Hwb in Hwb0. injection Hwb0 as <-.
  exists (set_worksheets [w0; w1'] wb), w0, w1'.
  split; [exact Hwb'|]. split; [reflexivity|].
  split; [unfold sheet; rewrite Hwb; cbn; now rewrite Hws|].
  split; [destruct wb; exact Hcl|]. split; [exact Hfr|].
  apply fill_inv in Hfill as (Hts & Hrows & Hrest).
  assert (Hcases : scans = [] \/ refused (scans_range (Z.of_nat (length scans))) = false).
  { destruct scans; [now left|right]. apply scans_range_accepted; [cbn [length]; lia|exact Hfit]. }
  destruct Hcases as [->|Hacc].
  { change (Z.of_nat (length [])) with 0 in *.
    rewrite add_table_refused in Hts, Hrest by exact scans_range_refused.
    split; [rewrite Hts, Htabs, Ht1; reflexivity|].
    split; [intros i scan Hi; rewrite lookup_nil in Hi; discriminate|].
    intros r c Hr. rewrite Hrest by (unfold TABLE_TOP_ROWS; cbn [length]; lia).
    now rewrite Htab, Hempty, lookup_empty. }
  split.
  { rewrite Hts, tables_add_table, Htabs, Ht1 by exact Hacc.
    destruct scans; [discriminate Hacc|reflexivity]. }
  assert (Hdata : forall r c, 2 <= r < 2 + Z.of_nat (length scans) -> 0 <= c < xls_colmax ->
            table (add_table (scans_range (Z.of_nat (length scans))) scans_options w1b) !! (r, c) =
              table_formula (scans_range (Z.of_nat (length scans))) scans_options c).
  { intros r c Hr Hc.
    rewrite table_add_table by first [exact Hacc|rewrite scans_header_row; lia].
    rewrite decide_True
      by (split; [apply scans_data_rows; lia|apply check_dimensions_spec; lia]).
    rewrite Htab, Hempty, lookup_empty. now destruct (table_formula _ _ c). }
  split.
  - intros i scan Hi. destruct (Hrows i scan Hi) as (scan_row & Hrow & Hcells).
    exists scan_row. split; [exact Hrow|]. intros c Hc.
    pose proof (lookup_lt_Some _ _ _ Hi) as Hlt.
    replace (Z.of_nat i + 2) with (0 + Z.of_nat i + TABLE_TOP_ROWS)
      by (unfold TABLE_TOP_ROWS; lia).
    rewrite Hcells by (apply check_dimensions_spec; unfold TABLE_TOP_ROWS; lia).
    rewrite Hdata by (unfold TABLE_TOP_ROWS; lia). reflexivity.
  - intros r c Hr. rewrite Hrest by (unfold TABLE_TOP_ROWS; lia).
    rewrite table_add_table by first [exact Hacc|rewrite scans_header_row; lia].
    rewrite decide_False by (intros [Hd _]; apply scans_data_rows in Hd; lia).
    now rewrite Htab, Hempty, lookup_empty.
Qed.

Lemma stamp_value scan k d :
  stamp parse scan k = PyDatetime d ->
  (getitem scan k ≫= convert_datetime parse) = Returns (PyDatetime d).
Proof.
  unfold stamp. destruct (getitem scan k ≫= convert_datetime parse); [|discriminate].
  now intros ->.
Qed.

Lemma scan_row_stamps scan scan_row :
  convert_json_scan parse scan init_lang_columns = Returns scan_row ->
  exists req comp,
    (getitem scan "ScanRequestedOn" ≫= convert_datetime parse) = Returns (PyDatetime req) /\
    (getitem scan "ScanCompletedOn" ≫= convert_datetime parse) = Returns (PyDatetime comp) /\
    stored 12 scan_row None = Some (Date req) /\
    stored 16 scan_row None = Some (Date comp) /\
    stored 17 scan_row None = None.
Proof.
  intros Hrow.
  destruct (scan_row_parts parse scan scan_row Hrow)
    as (langs & extra & _ & -> & Hok & _ & _ & [req Hreq] & [comp Hcomp]).
  exists req, comp.
  split; [now apply stamp_value|]. split; [now apply stamp_value|].
  rewrite !stored_app.
  rewrite (stored_extra_low extra 12), (stored_extra_low extra 16),
    (stored_extra_low extra 17) by (auto; lia).
  rewrite (stored_fixed_none parse scan 17) by lia.
  unfold fixed_cells. cbn -[field stamp flag cell_content].
  rewrite Hreq, Hcomp. cbn. auto.
Qed.

(** The formula of [ScanDuration] on a row whose timestamps are dates. *)
Lemma ScanDuration_eval wb ws n r req comp :
  table ws !! (r, 12) = Some {| content_of := Date req; format_of := None |} ->
  table ws !! (r, 16) = Some {| content_of := Date comp; format_of := None |} ->
  let ctx := {| Excel.book := wb;
                Excel.here := Some (ws, (scans_range n, scans_options), r) |} in
  ((0 < serial comp)%Q ->
     Excel.eval ctx Excel.ScanDuration = Excel.VNum (serial comp - serial req)) /\
  (~ (0 < serial comp)%Q -> Excel.eval ctx Excel.ScanDuration = Excel.VNum 0).
Proof.
  intros H12 H16 ctx.
  assert (Hc : Excel.column_position (scans_range n, scans_options) "ScanCompletedOn" = Some 16)
    by reflexivity.
  assert (Hr : Excel.column_position (scans_range n, scans_options) "ScanRequestedOn" = Some 12)
    by reflexivity.
  unfold Excel.ScanDuration. cbn [Excel.eval Excel.here ctx].
  rewrite Hc, Hr, H12, H16. cbn [Excel.cell_val content_of Excel.number].
  unfold Excel.Qlt_bool.
  split; intros Hlt.
  - destruct (Qle_bool (serial comp) (inject_Z 0)) eqn:E; [|reflexivity].
    apply Qle_bool_iff in E. exfalso. eapply Qlt_not_le; eassumption.
  - destruct (Qle_bool (serial comp) (inject_Z 0)) eqn:E; [reflexivity|].
    exfalso. apply Hlt. apply Qnot_le_lt. intros Hle.
    apply Qle_bool_iff in Hle. change (inject_Z 0) with 0%Q in E. congruence.
Qed.

(** C2: in the sheet that [write_scans_ws] leaves, the row of every record
    is a data row of the scans table and has in the [ScanDuration] column
    the column's formula, a row-relative formula and not a value, and that
    formula evaluates on the row to completed - requested when the
    completion timestamp of the row is greater than 0, and to 0
    otherwise. *)
Theorem scan_duration_is_a_formula scans s s' :
  ready s ->
  Z.of_nat (length scans) + 2 <= xls_rowmax ->
  write_scans_ws parse (PyList scans) s = Ok tt s' ->
  exists wb ws,
    _scans_wb s' = Some wb /\ sheet 1 s' = Some ws /\
    forall (i : nat) scan, scans !! i = Some scan ->
      let r := Z.of_nat i + 2 in
      tables ws = [(scans_range (Z.of_nat (length scans)), scans_options)] /\
      table ws !! (r, 17) =
        Some {| content_of := Formula (Excel.text Excel.ScanDuration);
                format_of := Some [("num_format", PStr "[h]:mm:ss")] |} /\
      exists req comp,
        (getitem scan "ScanRequestedOn" ≫= convert_datetime parse) = Returns (PyDatetime req) /\
        (getitem scan "ScanCompletedOn" ≫= convert_datetime parse) = Returns (PyDatetime comp) /\
        let ctx := {| Excel.book := wb;
                      Excel.here := Some (ws, (scans_range (Z.of_nat (length scans)),
                                               scans_options), r) |} in
        ((0 < serial comp)%Q ->
           Excel.eval ctx Excel.ScanDuration = Excel.VNum (serial comp - serial req)) /\
        (~ (0 < serial comp)%Q -> Excel.eval ctx Excel.ScanDuration = Excel.VNum 0).
Proof.
  intros Hready Hfit Hrun.
  destruct (write_scans_ws_sheet scans s s' Hready Hfit Hrun)
    as (wb & w0 & ws & Hwb & Hws & _ & _ & _ & Htabs & Hrows & _).
  exists wb, ws. split; [exact Hwb|].
  split; [unfold sheet; rewrite Hwb; cbn; now rewrite Hws|].
  intros i scan Hi r. destruct (Hrows i scan Hi) as (scan_row & Hrow & Hcells).
  destruct (scan_row_stamps scan scan_row Hrow) as (req & comp & Hreq & Hcomp & H12 & H16 & H17).
  split; [destruct scans; [rewrite lookup_nil in Hi; discriminate|exact Htabs]|].
  split.
  - subst r. rewrite Hcells by (unfold xls_colmax; lia).
    rewrite H17, scans_duration_formula. reflexivity.
  - exists req, comp. split; [exact Hreq|]. split; [exact Hcomp|].
    apply ScanDuration_eval; subst r; rewrite Hcells by (unfold xls_colmax; lia).
    + now rewrite H12.
    + now rewrite H16.
Qed.

End ScansSheet.

(** ** The whole run on a valid record set *)




Section Valid.
Variable parse : string -> option datetime.




End Valid.

(** ** Runs that abort *)

Section Aborts.
Variable parse : string -> option datetime.

Lemma unknown_language_raises scan L :
  uses scan L -> assoc L init_lang_columns = None ->
  exists e, convert_json_scan parse scan init_lang_columns = Raises e.
Proof.
  intros (langs & Hlangs & l & Hl & Hname) Hnone.
  destruct (convert_json_scan parse scan init_lang_columns) as [scan_row|e] eqn:Hrow; [|eauto].
  exfalso.
  destruct (scan_row_parts parse scan scan_row Hrow)
    as (langs' & extra & Hlangs' & _ & _ & _ & Hlang & _).
  rewrite Hlangs in Hlangs'. injection Hlangs' as <-.
  destruct (Hlang l L Hl Hname) as (e & He & _). congruence.
Qed.

(** C1: on a record set with a record that uses a language absent from the
    registry, the normalisation of that record raises, the run stops
    writing, logs the unexpected exception and saves nothing; the workbook
    is never closed and the completion status is 0. *)
Theorem unknown_language_run cu f x fo dbg doc scans out rm clk scan L :
  permitted out fo rm ->
  getitem doc "value" = Returns (PyList scans) ->
  In scan scans -> uses scan L -> assoc L init_lang_columns = None ->
  let o := cxsi parse cu f x fo dbg (start (Json doc) out rm clk) in
  (exists e, convert_json_scan parse scan init_lang_columns = Raises e) /\
  In (CRITICAL, UnexpectedException) (_log (final_state o)) /\
  output_file (final_state o) = None /\
  (exists wb, _scans_wb (final_state o) = Some wb /\ fileclosed wb = false) /\
  completion_status o = 0.
Proof.
  intros Hperm Hv Hin Huses Hnone o.
  destruct (unknown_language_raises scan L Huses Hnone) as [e He].
  split; [eauto|].
  destruct (cxsi_run parse cu f x fo dbg doc scans out rm clk Hperm Hv)
    as (s & Hrun & [Hop _] & Hargs & Hout).
  subst o. rewrite Hrun. unfold try_except, mbind, M_bind.
  destruct (write_scans_ws_inv parse scans s Hop)
    as (wb0 & w0 & w1 & w1b & Hwb0 & Hws0 & _ & _ & Hcase).
  destruct Hop as (_ & _ & _ & wb & ? & ? & Hwb & _ & Hcl).
  rewrite Hwb0 in Hwb. injection Hwb as <-.
  destruct (write_scans_ws parse (PyList scans) s) as [[] s1|e1 s1].
  { exfalso. destruct Hcase as (w1' & Hfill & _).
    destruct (fill_raises parse scans 0
                (add_table (scans_range (Z.of_nat (length scans))) scans_options w1b)
                scan e Hin He) as [e' He'].
    congruence. }
  destruct Hcase as (Hexc & _ & w1' & Hwb1 & Hfr).
  rewrite Hexc. destruct Hfr as (_ & _ & _ & _ & Hout1).
  change (unexpected e1 s1)
    with (Ok tt (add_log (ERROR, Traceback (Some e1))
                         (add_log (CRITICAL, UnexpectedException) s1))).
  cbn [final_state completion_status add_log _log output_file _scans_wb].
  split; [apply in_or_app; left; apply in_or_app; right; now left|].
  split; [congruence|].
  split; [|reflexivity].
  eexists. split; [exact Hwb1|]. destruct wb0; exact Hcl.
Qed.

(** C6: when the output file exists and overwriting is not asked for, the
    run logs the conflict and exits with status 1; no workbook and no
    worksheet has been created, and the file is as it was. *)
Theorem output_conflict cu f x dbg data existing rm clk :
  let o := cxsi parse cu f x false dbg (start data (Some existing) rm clk) in
  completion_status o = 1 /\
  In (ERROR, ExcelExists x) (_log (final_state o)) /\
  _scans_wb (final_state o) = None /\
  _worksheets (final_state o) = [] /\
  _wb_formats (final_state o) = [] /\
  output_file (final_state o) = Some existing.
Proof.
  lazy. repeat split; auto.
Qed.


End Aborts.


(** ** Two runs on the same input

    The workbook that a run builds depends on the arguments and on the
    input document only: not on the clock, not on what the log or the
    terminal hold, and not on what was at the output path.  [same_book]
    relates two states that agree on everything else; every statement of
    the script takes related states to related outcomes. *)































Section Same.
Variable parse : string -> option datetime.








End Same.

(** ** The columns of the table *)

Section Columns.
Variable parse : string -> option datetime.

(** C5, as the code has it: on a record set that a table can hold, the
    table of the [Scans] sheet is built from the 33 fixed column
    definitions followed by one definition for each tracked language of
    the registry, 19 of them, in the order of the registry, whatever
    languages the records use. *)
Theorem columns_follow_registry scans s s' :
  ready s ->
  scans <> [] ->
  Z.of_nat (length scans) + 2 <= xls_rowmax ->
  write_scans_ws parse (PyList scans) s = Ok tt s' ->
  exists ws range,
    sheet 1 s' = Some ws /\ tables ws = [(range, scans_options)] /\
    length (columns scans_options) = (33 + length tracked_languages)%nat /\
    map header (drop 33 (columns scans_options)) = tracked_languages /\
    length tracked_languages = 19%nat.
Proof.
  intros Hready Hne Hfit Hrun.
  destruct (write_scans_ws_sheet parse scans s s' Hready Hfit Hrun)
    as (wb & w0 & ws & Hwb & Hws & _ & _ & _ & Htabs & _).
  exists ws, (scans_range (Z.of_nat (length scans))).
  split; [unfold sheet; rewrite Hwb; cbn; now rewrite Hws|].
  split; [destruct scans; [contradiction|exact Htabs]|].
  repeat split.
Qed.

End Columns.

Lemma sample_ready_ready : ready sample_ready.
Proof.
  split; [split; [eexists; reflexivity|]|].
  - split; [reflexivity|]. split; [reflexivity|].
    eexists _, _, _. split; [reflexivity|]. split; reflexivity.
  - eexists _, _. split; [reflexivity|]. split; [reflexivity|]. repeat split.
Qed.

Lemma sample_run :
  write_scans_ws sample_parse (PyList sample_scans) sample_ready = Ok tt sample_written.
Proof. vm_compute. reflexivity. Qed.

(** C5, as it is stated, fails on the sample record set: its records use
    three tracked languages, and the table has 52 column definitions over a
    range of 50 sheet columns, neither of which is 33 + 3. *)
Lemma columns_not_by_usage :
  ready sample_ready /\
  write_scans_ws sample_parse (PyList sample_scans) sample_ready = Ok tt sample_written /\
  exists ws range opts,
    sheet 1 sample_written = Some ws /\ tables ws = [(range, opts)] /\
    used_tracked sample_scans = 3%nat /\
    length (columns opts) <> (33 + used_tracked sample_scans)%nat /\
    range_width range <> (33 + used_tracked sample_scans)%nat.
Proof.
  split; [exact sample_ready_ready|]. split; [exact sample_run|].
  eexists _, _, _. split; [vm_compute; reflexivity|]. split; [reflexivity|].
  split; [reflexivity|]. split; vm_compute; discriminate.
Qed.

(** ** The theorems on the sample data *)

Lemma sample_row_eq :
  convert_json_scan sample_parse sample_record init_lang_columns = Returns sample_row.
Proof. vm_compute. reflexivity. Qed.


Lemma sample_uses_fortran : uses sample_fortran "Fortran".
Proof. eexists. split; [reflexivity|]. eexists. split; [left; reflexivity|reflexivity]. Qed.

Lemma sample_well_formed : well_formed sample_parse sample_record.
Proof.
  split.
  - unfold required_fields. repeat (constructor; [eexists; reflexivity|]). constructor.
  - unfold timestamp_fields. repeat (constructor; [eexists; reflexivity|]). constructor.
Qed.

Lemma sample_known_languages : known_languages sample_record.
Proof.
  eexists. split; [reflexivity|].
  repeat (constructor; [eexists; split; [reflexivity|eexists; reflexivity]|]). constructor.
Qed.


Lemma unknown_language_run_witness :
  let o := cxsi sample_parse "acme" "scans.json" "scans.xlsx" false false
             (start (Json (sample_doc sample_unknown)) None true sample_clock) in
  (exists e, convert_json_scan sample_parse sample_fortran init_lang_columns = Raises e) /\
  In (CRITICAL, UnexpectedException) (_log (final_state o)) /\
  output_file (final_state o) = None /\
  (exists wb, _scans_wb (final_state o) = Some wb /\ fileclosed wb = false) /\
  completion_status o = 0.
Proof.
  apply (unknown_language_run sample_parse "acme" "scans.json" "scans.xlsx" false false
           (sample_doc sample_unknown) sample_unknown None true sample_clock
           sample_fortran "Fortran").
  - left. reflexivity.
  - reflexivity.
  - right. left. reflexivity.
  - exact sample_uses_fortran.
  - reflexivity.
Defined.

Lemma scan_duration_is_a_formula_witness :
  exists wb ws,
    _scans_wb sample_written = Some wb /\ sheet 1 sample_written = Some ws /\
    forall (i : nat) scan, sample_scans !! i = Some scan ->
      let r := Z.of_nat i + 2 in
      tables ws = [(scans_range (Z.of_nat (length sample_scans)), scans_options)] /\
      table ws !! (r, 17) =
        Some {| content_of := Formula (Excel.text Excel.ScanDuration);
                format_of := Some [("num_format", PStr "[h]:mm:ss")] |} /\
      exists req comp,
        (getitem scan "ScanRequestedOn" ≫= convert_datetime sample_parse) =
          Returns (PyDatetime req) /\
        (getitem scan "ScanCompletedOn" ≫= convert_datetime sample_parse) =
          Returns (PyDatetime comp) /\
        let ctx := {| Excel.book := wb;
                      Excel.here := Some (ws, (scans_range (Z.of_nat (length sample_scans)),
                                               scans_options), r) |} in
        ((0 < serial comp)%Q ->
           Excel.eval ctx Excel.ScanDuration = Excel.VNum (serial comp - serial req)) /\
        (~ (0 < serial comp)%Q -> Excel.eval ctx Excel.ScanDuration = Excel.VNum 0).
Proof.
  apply (scan_duration_is_a_formula sample_parse sample_scans sample_ready sample_written).
  - exact sample_ready_ready.
  - vm_compute. discriminate.
  - exact sample_run.
Defined.


Lemma untracked_language_row_witness :
  exists scan_row,
    convert_json_scan sample_parse sample_record init_lang_columns = Returns scan_row /\
    (forall L lc, uses sample_record L -> assoc L init_lang_columns = Some lc ->
       lang_col lc = -1 ->
       In (L, {| value := PyInt 1; col := -1 |}) scan_row /\
       (forall c, In (L, c) scan_row -> col c = -1) /\
       (forall r w, write r (-1) (PyInt 1) None w = Returns w)) /\
    (forall r w w', write_cells r scan_row w = Returns w' ->
       forall c, table w' !! (r, c) <> table w !! (r, c) ->
         0 <= c <= 16 \/ 26 <= c <= 32 \/
         exists L lc, uses sample_record L /\ assoc L init_lang_columns = Some lc /\
                      lang_col lc = c /\ c <> -1).
Proof.
  apply (untracked_language_row sample_parse sample_record).
  - exact sample_well_formed.
  - exact sample_known_languages.
Defined.

Lemma columns_follow_registry_witness :
  exists ws range,
    sheet 1 sample_written = Some ws /\ tables ws = [(range, scans_options)] /\
    length (columns scans_options) = (33 + length tracked_languages)%nat /\
    map header (drop 33 (columns scans_options)) = tracked_languages /\
    length tracked_languages = 19%nat.
Proof.
  apply (columns_follow_registry sample_parse sample_scans sample_ready sample_written).
  - exact sample_ready_ready.
  - discriminate.
  - vm_compute. discriminate.
  - exact sample_run.
Defined.




Lemma formula_columns_untouched_witness :
  (forall k c, In (k, c) sample_row ->
     ~ (17 <= col c <= 25) /\
     (0 <= col c <= 16 \/ 26 <= col c <= 32 \/ 33 <= col c <= 51 \/ col c = -1)) /\
  (forall r w w', write_cells r sample_row w = Returns w' ->
     forall c, 17 <= c <= 25 -> table w' !! (r, c) = table w !! (r, c)).
Proof.
  apply (formula_columns_untouched sample_parse sample_record sample_row).
  exact sample_row_eq.
Defined.

(** ** The empty record set *)

(** X1: on the empty record set the library refuses the scans table, which
    would have no data row: the run completes with status 0 and saves a
    workbook whose sheets have no table, and the formulas of the summary
    sheet name a table that the workbook does not have. *)
Lemma empty_record_set :
  let o := cxsi sample_parse "acme" "scans.json" "scans.xlsx" false false
             (start (Json (sample_doc [])) None true sample_clock) in
  completion_status o = 0 /\
  exists wb summary ws,
    output_file (final_state o) = Some (Saved wb) /\ worksheets wb = [summary; ws] /\
    tables summary = [] /\ tables ws = [] /\
    table summary !! (6, 2) =
      Some {| content_of := Formula (Excel.text Excel.Scans); format_of := None |} /\
    Excel.find_table wb SCANS_TABLE_NAME = None /\
    Excel.eval {| Excel.book := wb; Excel.here := None |} Excel.Scans = Excel.VError.
Proof.
  split; [vm_compute; reflexivity|].
  eexists _, _, _. split; [vm_compute; reflexivity|]. split; [reflexivity|].
  split; [reflexivity|]. split; [reflexivity|].
  split; [vm_compute; reflexivity|]. split; vm_compute; reflexivity.
Qed.

(** ** The normaliser, record by record *)

Lemma getitem_raises v k e :
  getitem v k = Raises e -> e = TypeError \/ e = KeyError (PyStr k).
Proof.
  unfold getitem. destruct v; try (intros [= <-]; now left).
  destruct (assoc k d); [discriminate|]. intros [= <-]. now right.
Qed.


Lemma add_language_columns_known langs : forall scan_row row,
  add_language_columns init_lang_columns langs scan_row = Returns row ->
  Forall (fun l => exists n, getitem l "LanguageName" = Returns (PyStr n) /\
                             is_Some (assoc n init_lang_columns)) langs.
Proof.
  induction langs as [|l langs IH]; intros scan_row row; cbn [add_language_columns];
    [constructor|].
  destruct (getitem l "LanguageName") as [lang_name|] eqn:Hname; cbn [mbind Exc_bind];
    [|discriminate].
  destruct (lang_lookup init_lang_columns lang_name) as [[s lc]|] eqn:Hlook;
    cbn [mbind Exc_bind]; [|discriminate].
  intros Hrow. constructor; [|eapply IH; exact Hrow].
  unfold lang_lookup in Hlook. destruct lang_name; try discriminate.
  destruct (assoc s0 init_lang_columns) eqn:E; [|discriminate].
  exists s0. rewrite E. eauto.
Qed.


(** The keys of an ordered dictionary stay distinct under assignment. *)
Lemma od_set_keys {V} k (v : V) l :
  map fst (od_set k v l) =
    match assoc k l with Some _ => map fst l | None => map fst l ++ [k] end.
Proof.
  induction l as [|[k' v'] l IH]; cbn; [reflexivity|].
  destruct (String.eqb_spec k k') as [->|Hne]; cbn; [reflexivity|].
  rewrite IH. now destruct (assoc k l).
Qed.

Lemma assoc_None_keys {V} k (l : list (string * V)) :
  assoc k l = None -> ~ In k (map fst l).
Proof.
  induction l as [|[k' v'] l IH]; cbn; [tauto|].
  destruct (String.eqb_spec k k') as [->|Hne]; [discriminate|].
  intros H [Heq|Hin]; [congruence|]. now apply IH.
Qed.

Lemma od_set_NoDup {V} k (v : V) l : NoDup (map fst l) -> NoDup (map fst (od_set k v l)).
Proof.
  intros Hnd. rewrite od_set_keys. destruct (assoc k l) eqn:E; [exact Hnd|].
  apply NoDup_app. split; [exact Hnd|]. split; [|apply NoDup_singleton].
  intros x Hx Hk. apply list_elem_of_singleton in Hk as ->.
  apply (assoc_None_keys _ _ E). now apply list_elem_of_In.
Qed.

Lemma od_set_length {V} k (v : V) l :
  length (od_set k v l) =
    match assoc k l with Some _ => length l | None => S (length l) end.
Proof.
  induction l as [|[k' v'] l IH]; cbn; [reflexivity|].
  destruct (String.eqb_spec k k') as [->|Hne]; cbn; [reflexivity|].
  rewrite IH. now destruct (assoc k l).
Qed.

Lemma assoc_od_set {V} k (v : V) l k' :
  assoc k' (od_set k v l) = if String.eqb k' k then Some v else assoc k' l.
Proof.
  induction l as [|[k0 v0] l IH]; cbn.
  - now destruct (String.eqb k' k).
  - destruct (String.eqb_spec k k0) as [->|Hne]; cbn.
    + now destruct (String.eqb k' k0).
    + rewrite IH. destruct (String.eqb_spec k' k0) as [->|Hne'].
      * destruct (String.eqb_spec k0 k); [congruence|reflexivity].
      * reflexivity.
Qed.

Lemma add_language_columns_keys langs : forall scan_row row,
  add_language_columns init_lang_columns langs scan_row = Returns row ->
  NoDup (map fst scan_row) ->
  NoDup (map fst row) /\
  (length scan_row <= length row <= length scan_row + length langs)%nat /\
  (forall k, assoc k scan_row <> None -> assoc k row <> None).
Proof.
  induction langs as [|l langs IH]; intros scan_row row; cbn [add_language_columns].
  - intros [= <-] Hnd. cbn. split; [exact Hnd|]. split; [lia|auto].
  - destruct (getitem l "LanguageName") as [lang_name|] eqn:Hname; cbn [mbind Exc_bind];
      [|discriminate].
    destruct (lang_lookup init_lang_columns lang_name) as [[s lc]|] eqn:Hlook;
      cbn [mbind Exc_bind fst snd]; [|discriminate].
    intros Hrow Hnd. apply IH in Hrow as (Hnd' & Hlen & Hkeep); [|now apply od_set_NoDup].
    split; [exact Hnd'|]. rewrite od_set_length in Hlen. split.
    + cbn [length]. destruct (assoc s scan_row); lia.
    + intros k Hk. apply Hkeep. rewrite assoc_od_set.
      destruct (String.eqb k s); [discriminate|exact Hk].
Qed.

Lemma assoc_NoDup_In {V} k (v : V) l :
  NoDup (map fst l) -> In (k, v) l -> assoc k l = Some v.
Proof.
  induction l as [|[k' v'] l IH]; cbn; [tauto|].
  intros Hnd [[= -> ->]|Hin].
  - now rewrite String.eqb_refl.
  - apply NoDup_cons in Hnd as [Hk Hnd].
    destruct (String.eqb_spec k k') as [->|Hne]; [|auto].
    exfalso. apply Hk. apply list_elem_of_In, in_map_iff. exists (k', v). auto.
Qed.

Ltac split_returns H :=
  match type of H with
  | context [match ?x with Returns _ => _ | Raises _ => _ end] =>
      match x with
      | context [match _ with Returns _ => _ | Raises _ => _ end] => fail 1
      | _ => destruct x eqn:?; cbv beta iota in H; [|discriminate H]
      end
  end.

Section Records.
Variable parse : string -> option datetime.


Lemma convert_json_scan_well_formed scan scan_row :
  convert_json_scan parse scan init_lang_columns = Returns scan_row ->
  well_formed parse scan /\ known_languages scan.
Proof.
  intros H.
  unfold convert_json_scan in H. unfold mbind, Exc_bind in H. cbv beta in H.
  repeat split_returns H.
  repeat match goal with
  | E : convert_datetime parse _ = Returns ?x |- _ =>
      let d := fresh "d" in
      destruct (convert_datetime_inv parse _ _ E) as [d ->]
  end.
  split; [split|].
  - unfold required_fields. repeat (constructor; [eexists; eassumption|]). constructor.
  - unfold timestamp_fields.
    repeat (constructor;
            [eexists; unfold mbind, Exc_bind;
             match goal with
             | E : getitem scan ?k = Returns _ |- context [getitem scan ?k] => rewrite E
             end; eassumption|]).
    constructor.
  - eexists. split.
    + unfold mbind, Exc_bind.
      match goal with
      | E : getitem scan "ScannedLanguages" = Returns _ |- _ => rewrite E
      end. eassumption.
    + eapply add_language_columns_known. exact H.
Qed.

(** X2: a record normalises exactly when it has the eighteen plain fields,
    its five timestamps are texts that the parser reads, and its languages
    can be iterated and each names, by a text, a language of the
    registry. *)
Theorem normalises_iff_well_formed scan :
  (exists scan_row, convert_json_scan parse scan init_lang_columns = Returns scan_row) <->
  well_formed parse scan /\ known_languages scan.
Proof.
  split.
  - intros [scan_row H]. eapply convert_json_scan_well_formed. exact H.
  - intros [Hwf Hknown]. now apply convert_json_scan_returns.
Qed.


Lemma scan_row_keys scan scan_row :
  convert_json_scan parse scan init_lang_columns = Returns scan_row ->
  NoDup (map fst scan_row) /\
  exists langs, (getitem scan "ScannedLanguages" ≫= iter) = Returns langs /\
    (24 <= length scan_row <= 24 + length langs)%nat.
Proof.
  intros H. apply convert_json_scan_inv in H as (langs & Hl & Hadd & _).
  assert (Hfixed : NoDup (map fst (fixed_cells parse scan))).
  { unfold fixed_cells. cbn [map fst].
    apply (bool_decide_unpack _). vm_compute. reflexivity. }
  destruct (add_language_columns_keys langs _ _ Hadd Hfixed) as (Hnd & Hlen & _).
  split; [exact Hnd|]. exists langs. split; [exact Hl|]. exact Hlen.
Qed.

(** X4: a scan row is a dictionary: its keys are distinct, so that a
    language that a record lists more than once has one cell, and looking
    a key up gives the cell listed for it; it has the 24 fixed cells and at
    most one more for each entry of the language-usage list. *)
Theorem scan_row_is_a_dictionary scan scan_row :
  convert_json_scan parse scan init_lang_columns = Returns scan_row ->
  NoDup (map fst scan_row) /\
  (forall k c, In (k, c) scan_row -> assoc k scan_row = Some c) /\
  exists langs, (getitem scan "ScannedLanguages" ≫= iter) = Returns langs /\
    (24 <= length scan_row <= 24 + length langs)%nat.
Proof.
  intros H. destruct (scan_row_keys scan scan_row H) as (Hnd & Hlen).
  split; [exact Hnd|]. split; [|exact Hlen].
  intros k c. now apply assoc_NoDup_In.
Qed.

End Records.

(** ** Leaving the script *)


(** ** The cells of a record on the sheet *)

Section Cells.
Variable parse : string -> option datetime.

Lemma fixed_cell_stored scan scan_row key c :
  convert_json_scan parse scan init_lang_columns = Returns scan_row ->
  In (key, c) (fixed_cells parse scan) ->
  stored (col c) scan_row None = cell_content (value c).
Proof.
  intros Hrow Hin.
  destruct (scan_row_parts parse scan scan_row Hrow) as (langs & extra & _ & Heq & _).
  pose proof (fixed_cells_columns parse scan key c Hin) as Hc.
  apply (scan_row_stored parse scan scan_row key c Hrow); [|lia].
  rewrite Heq. apply in_or_app. now left.
Qed.

Lemma field_value scan scan_row src :
  convert_json_scan parse scan init_lang_columns = Returns scan_row ->
  In src required_fields ->
  exists v, getitem scan src = Returns v /\ field scan src = v.
Proof.
  intros Hrow Hin.
  destruct (convert_json_scan_well_formed parse scan scan_row Hrow) as [[Hreq _] _].
  rewrite List.Forall_forall in Hreq. destruct (Hreq src Hin) as [v Hv].
  exists v. split; [exact Hv|]. unfold field. now rewrite Hv.
Qed.

Lemma no_formula_outside n c :
  ~ (17 <= c <= 25) -> table_formula (scans_range n) scans_options c = None.
Proof.
  intros Hc. destruct (table_formula (scans_range n) scans_options c) eqn:E; [|reflexivity].
  apply scans_formula_columns in E. lia.
Qed.

Ltac in_list := repeat first [left; reflexivity | right].

(** X6: the cells [Incr], [Locked] and [Public] of a scan row hold the
    number 1 when the field they are read from is true in the sense of
    Python, and 0 otherwise, whatever the type of the field: a text that is
    not empty counts as true.  Written into a sheet row they leave that
    number in the columns 8, 31 and 32. *)
Theorem flags_are_zero_or_one scan scan_row :
  convert_json_scan parse scan init_lang_columns = Returns scan_row ->
  Forall (fun p =>
    exists v, getitem scan p.1.1 = Returns v /\
      assoc p.1.2 scan_row =
        Some {| value := PyInt (if truthy v then 1 else 0); col := p.2 |} /\
      forall r w w', write_cells r scan_row w = Returns w' -> 0 <= r < xls_rowmax ->
        table w' !! (r, p.2) =
          Some {| content_of := Number (if truthy v then 1 else 0); format_of := None |})
    flag_fields.
Proof.
  intros Hrow.
  destruct (scan_row_keys parse scan scan_row Hrow) as (Hnd & _).
  destruct (scan_row_parts parse scan scan_row Hrow) as (langs & extra & _ & Heq & _).
  assert (Hone : forall src key c,
            In src required_fields ->
            In (key, {| value := flag (field scan src); col := c |})
               (fixed_cells parse scan) ->
            exists v, getitem scan src = Returns v /\
              assoc key scan_row =
                Some {| value := PyInt (if truthy v then 1 else 0); col := c |} /\
              forall r w w', write_cells r scan_row w = Returns w' -> 0 <= r < xls_rowmax ->
                table w' !! (r, c) =
                  Some {| content_of := Number (if truthy v then 1 else 0);
                          format_of := None |}).
  { intros src key c Hsrc Hin.
    destruct (field_value scan scan_row src Hrow Hsrc) as (v & Hv & Hf).
    rewrite Hf in Hin. unfold flag in Hin.
    exists v. split; [exact Hv|]. split.
    - apply assoc_NoDup_In; [exact Hnd|]. rewrite Heq. apply in_or_app. now left.
    - intros r w w' Hw Hr. apply write_cells_inv in Hw as [_ Hw]. rewrite Hw.
      pose proof (fixed_cells_columns parse scan _ _ Hin) as Hc. cbn [col] in Hc.
      rewrite decide_True
        by (split; [reflexivity|apply check_dimensions_spec; unfold xls_colmax; lia]).
      pose proof (fixed_cell_stored scan scan_row _ _ Hrow Hin) as Hs.
      cbn [col value cell_content] in Hs. rewrite Hs. reflexivity. }
  unfold flag_fields.
  repeat (constructor; [cbn [fst snd]; apply Hone; [unfold required_fields|unfold fixed_cells];
                        in_list|]).
  constructor.
Qed.

Section Sheet.
Variables (scans : list pyval) (s s' : state).
Hypothesis Hready : ready s.
Hypothesis Hfit : Z.of_nat (length scans) + 2 <= xls_rowmax.
Hypothesis Hrun : write_scans_ws parse (PyList scans) s = Ok tt s'.

Lemma record_rows :
  exists ws, sheet 1 s' = Some ws /\
    forall (i : nat) scan, scans !! i = Some scan ->
      tables ws = [(scans_range (Z.of_nat (length scans)), scans_options)] /\
      exists scan_row, convert_json_scan parse scan init_lang_columns = Returns scan_row /\
        forall c, 0 <= c < xls_colmax ->
          table ws !! (Z.of_nat i + 2, c) =
            over (stored c scan_row None)
                 (table_formula (scans_range (Z.of_nat (length scans))) scans_options c).
Proof.
  destruct (write_scans_ws_sheet parse scans s s' Hready Hfit Hrun)
    as (wb & w0 & ws & Hwb & Hws & _ & _ & _ & Htabs & Hrows & _).
  exists ws. split; [unfold sheet; rewrite Hwb; cbn; now rewrite Hws|].
  intros i scan Hi. split; [|now apply Hrows].
  destruct scans; [rewrite lookup_nil in Hi; discriminate|exact Htabs].
Qed.

End Sheet.



(** X9: the range of the scans table ends at column [AX], which is column
    49, so the table has no column for the two tracked languages [VbNet]
    and [VB6], whose registry columns are 50 and 51: the row of a record
    that uses one of them has the number 1 in that column, to the right of
    the table, and the table has no column of that name. *)
Theorem flags_beyond_the_table scans s s' (i : nat) scan L lc :
  ready s ->
  Z.of_nat (length scans) + 2 <= xls_rowmax ->
  write_scans_ws parse (PyList scans) s = Ok tt s' ->
  scans !! i = Some scan -> uses scan L ->
  assoc L init_lang_columns = Some lc -> 49 < lang_col lc ->
  exists ws tb,
    sheet 1 s' = Some ws /\ tables ws = [tb] /\
    (L = "VbNet" \/ L = "VB6") /\
    table ws !! (Z.of_nat i + 2, lang_col lc) =
      Some {| content_of := Number 1; format_of := None |} /\
    xl_col (last_col tb.1) = 49 /\
    range_width tb.1 = 50%nat /\ length (columns tb.2) = 52%nat /\
    Excel.column_position tb L = None.
Proof.
  intros Hready Hfit Hrun Hi (langs & Hlangs & l & Hl & Hname) HL Hcol.
  destruct (record_rows scans s s' Hready Hfit Hrun) as (ws & Hws & Hrows).
  destruct (Hrows i scan Hi) as (Htabs & scan_row & Hrow & Hcells).
  exists ws, (scans_range (Z.of_nat (length scans)), scans_options).
  split; [exact Hws|]. split; [exact Htabs|].
  assert (Hwhich : L = "VbNet" \/ L = "VB6").
  { pose proof (registry_cols L lc HL) as Hc.
    pose proof (registry_lang_at L lc HL ltac:(lia)) as Hat.
    assert (Hc' : lang_col lc = 50 \/ lang_col lc = 51) by lia.
    destruct Hc' as [Hc'|Hc']; rewrite Hc' in Hat; [left|right]; now rewrite <- Hat. }
  split; [exact Hwhich|]. split.
  - rewrite Hcells by (pose proof (registry_cols L lc HL); unfold xls_colmax; lia).
    destruct (scan_row_parts parse scan scan_row Hrow)
      as (langs' & extra & Hlangs' & Heq & _ & _ & Hlang & _).
    rewrite Hlangs in Hlangs'. injection Hlangs' as <-.
    destruct (Hlang l L Hl Hname) as (e & He & Hin). rewrite HL in He. injection He as <-.
    assert (Hin' : In (L, {| value := PyInt 1; col := lang_col lc |}) scan_row)
      by (rewrite Heq; apply in_or_app; now right).
    pose proof (scan_row_stored parse scan scan_row _ _ Hrow Hin') as Hs.
    cbn [col value cell_content] in Hs. rewrite Hs by lia. reflexivity.
  - split; [reflexivity|]. split; [reflexivity|]. split; [reflexivity|].
    destruct Hwhich as [-> | ->]; reflexivity.
Qed.



End Cells.

(** ** The workbook that [init] opens *)

Lemma init_inv args data out rm clk s :
  init args (start data out rm clk) = Ok tt s ->
  permitted out (force args) rm /\ ready s /\
  _args s = Some args /\ input_file s = data /\ output_file s = None /\
  removable s = rm /\ stdout s = [] /\
  exists wb,
    _scans_wb s = Some wb /\ worksheets wb = [summary_sheet; scans_sheet] /\
    fileclosed wb = false /\ formats wb = map snd formats_table /\
    properties wb = [("title", customer args +:+ " CxSAST Usage");
                     ("subject", "Scan usage workbook"); ("author", "Randy Geyer");
                     ("company", "Checkmarx");
                     ("comments", "Created with Python and XlsxWriter")].
Proof.
  destruct args as [cu f x fo dbg]. unfold permitted. cbn [force].
  destruct out as [a|]; [destruct fo; [destruct rm|]|]; intros H; lazy in H;
    try discriminate H; injection H as <-;
    (split; [first [now left | right; split; reflexivity]|]);
    (split; [split; [split; [eexists; reflexivity|]; split; [reflexivity|];
                     split; [reflexivity|]; eexists _, _, _; repeat split; reflexivity
                    |eexists _, _; repeat split; reflexivity]|]);
    repeat (split; [reflexivity|]); eexists; repeat split; reflexivity.
Qed.

(** X10: [init] returns exactly when the output path is free, or is taken
    by a file that may be overwritten and can be removed; it then leaves
    the path free and an open, unsaved workbook with the title of the
    customer, the 21 formats and the two empty sheets [Summary] (green) and
    [Scans] (yellow), in that order.  Otherwise it leaves the script with
    status 1 or 4. *)
Theorem init_opens_the_workbook args data out rm clk :
  let o := init args (start data out rm clk) in
  match o with
  | Ok _ s =>
      permitted out (force args) rm /\ ready s /\
      _args s = Some args /\ output_file s = None /\
      exists wb,
        _scans_wb s = Some wb /\ worksheets wb = [summary_sheet; scans_sheet] /\
        fileclosed wb = false /\ formats wb = map snd formats_table /\
        length (formats wb) = 21%nat /\
        assoc "title" (properties wb) = Some (customer args +:+ " CxSAST Usage")
  | Raise e s =>
      ~ permitted out (force args) rm /\ _scans_wb s = None /\ output_file s = out /\
      e = SystemExit (if force args then 4 else 1)
  end.
Proof.
  intros o. subst o.
  destruct (init args (start data out rm clk)) as [[] s|e s] eqn:H.
  - apply init_inv in H as (Hp & Hr & Ha & _ & Ho & _ & _ & wb & Hwb & Hws & Hcl & Hf & Hpr).
    split; [exact Hp|]. split; [exact Hr|]. split; [exact Ha|]. split; [exact Ho|].
    exists wb. split; [exact Hwb|]. split; [exact Hws|]. split; [exact Hcl|].
    split; [exact Hf|]. split; [rewrite Hf; reflexivity|]. rewrite Hpr. reflexivity.
  - destruct args as [cu f x fo dbg]. unfold permitted. cbn [force].
    destruct out as [a|]; [destruct fo; [destruct rm|]|]; lazy in H;
      try discriminate H; injection H as <- <-;
      (split; [intros [Hn|[Hf Hr]]; discriminate|]); repeat split.
Qed.

(** ** The settings of the [Scans] sheet *)

Lemma same_settings_refl w : same_settings w w.
Proof. repeat split. Qed.

Lemma same_settings_trans w1 w2 w3 :
  same_settings w1 w2 -> same_settings w2 w3 -> same_settings w1 w3.
Proof. unfold same_settings. intuition congruence. Qed.

Lemma store_settings r c x w : same_settings w (store r c x w).
Proof. unfold store. destruct (check_dimensions r c); repeat split. Qed.

Lemma write_settings r c v f w w' : write r c v f w = Returns w' -> same_settings w w'.
Proof.
  unfold write, write_blank.
  destruct v; try discriminate;
    repeat match goal with
    | |- context [if ?b then _ else _] => destruct b
    | |- context [match f with _ => _ end] => destruct f
    end;
    intros [= <-]; first [apply store_settings | apply same_settings_refl].
Qed.

Lemma write_cells_settings r scan_row : forall w w',
  write_cells r scan_row w = Returns w' -> same_settings w w'.
Proof.
  induction scan_row as [|kc rest IH]; intros w w'; cbn [write_cells].
  - intros [= <-]. apply same_settings_refl.
  - destruct (write r (col kc.2) (value kc.2) None w) as [w1|] eqn:E; cbn [mbind Exc_bind];
      [|discriminate].
    intros H. eapply same_settings_trans; [eapply write_settings; exact E|now apply IH].
Qed.

Lemma store_all_settings cells : forall w, same_settings w (store_all cells w).
Proof.
  unfold store_all. induction cells as [|x cells IH]; intros w; cbn [foldl].
  - apply same_settings_refl.
  - eapply same_settings_trans; [apply store_settings|apply IH].
Qed.

Lemma add_table_settings rng opts w : same_settings w (add_table rng opts w).
Proof.
  unfold add_table. destruct (refused rng); [apply same_settings_refl|].
  destruct (store_all_settings (table_cells rng opts) w) as (? & ? & ? & ? & ? & ?).
  repeat split; assumption.
Qed.

Section Layout.
Variable parse : string -> option datetime.

Lemma fill_settings scans : forall i w w',
  fill parse i scans w = Returns w' -> same_settings w w'.
Proof.
  induction scans as [|scan rest IH]; intros i w w'; cbn [fill].
  - intros [= <-]. apply same_settings_refl.
  - destruct (convert_json_scan parse scan init_lang_columns) as [scan_row|];
      cbn [mbind Exc_bind]; [|discriminate].
    destruct (write_cells (i + TABLE_TOP_ROWS) scan_row w) as [w1|] eqn:E;
      cbn [mbind Exc_bind]; [|discriminate].
    intros H. eapply same_settings_trans; [eapply write_cells_settings; exact E|].
    eapply IH. exact H.
Qed.

Lemma write_scans_ws_layout_inv scans s :
  opened s ->
  exists w1, sheet 1 s = Some w1 /\
    match write_scans_ws parse (PyList scans) s with
    | Ok _ s' =>
        exists w1', sheet 1 s' = Some w1' /\
          ws_name w1' = ws_name w1 /\ tab_color w1' = tab_color w1 /\
          colinfo w1' = colinfo w1 ++ option_widths (columns scans_options)
                                   ++ language_widths init_lang_columns /\
          rowinfo w1' = rowinfo w1 ++ [(0, 72 # 5, assoc "header_color" formats_table)] /\
          map (fun m => (m.1.1, m.1.2)) (merged w1') =
            map (fun m => (m.1.1, m.1.2)) (merged w1) ++
              [(range "M" 1 "Q" 1, "Date Timestamps"); (range "R" 1 "V" 1, "Durations");
               (range "W" 1 "Y" 1, "Rates per hour"); (range "Z" 1 "AD" 1, "Result counts");
               (range "AH" 1 "AX" 1, "Languages")] /\
          panes w1' = Some (2, 2)
    | Raise _ _ => True
    end.
Proof.
  intros (Ha & Hf & Hw & wb & w0 & w1 & Hwb & Hws & Hcl).
  destruct s as [a l wb0 fs hs inp out rm clk tk so].
  cbn in Ha, Hf, Hw, Hwb, Hws, Hcl. subst.
  destruct wb as [wo pr wsl fo cl]. cbn in Hws, Hcl. subst.
  exists w1. split; [reflexivity|].
  unfold write_scans_ws. cbn [len iter]. generalize (Z.of_nat (length scans)). intros n.
  match goal with
  | |- match ?run with _ => _ end =>
      let r := eval cbv -[populate_data_rows add_table set_column set_row merge_range
                          freeze_panes Z.add Z.sub Z.mul] in run in
      change run with r
  end.
  match goal with
  | |- context [populate_data_rows ?p ?h ?lc ?m ?i ?items ?S] =>
      pose proof (populate_data_rows_inv p m items i S _ w0 _ eq_refl eq_refl) as Hp;
      change init_lang_columns with lc in Hp;
      destruct (populate_data_rows p h lc m i items S) as [[] s1|e s1]; [|exact I]
  end.
  destruct Hp as (w1' & Hfill & Hb & Hfr).
  exists w1'.
  split.
  { unfold sheet. destruct s1. cbn in Hb. subst. reflexivity. }
  clear Hb Hfr.
  apply fill_settings in Hfill.
  match type of Hfill with
  | same_settings (add_table ?r ?o ?w) _ =>
      pose proof (same_settings_trans _ _ _ (add_table_settings r o w) Hfill) as Hs
  end.
  clear Hfill.
  destruct Hs as (Hn & Htc & Hci & Hri & Hm & Hpn).
  rewrite Hn, Htc, Hci, Hri, Hm, Hpn. clear Hn Htc Hci Hri Hm Hpn.
  cbn [ws_name tab_color colinfo rowinfo merged panes set_column set_row merge_range
       freeze_panes].
  split; [reflexivity|]. split; [reflexivity|].
  split.
  { rewrite <- !app_assoc. cbn [app]. f_equal. }
  split; [f_equal|]. split; [|reflexivity].
  rewrite !map_app. cbn [map fst snd]. rewrite <- !app_assoc. cbn [app]. f_equal.
Qed.
Lemma write_scans_ws_layout scans s s' :
  opened s ->
  write_scans_ws parse (PyList scans) s = Ok tt s' ->
  exists w1 w1',
    sheet 1 s = Some w1 /\ sheet 1 s' = Some w1' /\
    ws_name w1' = ws_name w1 /\ tab_color w1' = tab_color w1 /\
    colinfo w1' = colinfo w1 ++ option_widths (columns scans_options)
                             ++ language_widths init_lang_columns /\
    rowinfo w1' = rowinfo w1 ++ [(0, 72 # 5, assoc "header_color" formats_table)] /\
    map (fun m => (m.1.1, m.1.2)) (merged w1') =
      map (fun m => (m.1.1, m.1.2)) (merged w1) ++
        [(range "M" 1 "Q" 1, "Date Timestamps"); (range "R" 1 "V" 1, "Durations");
         (range "W" 1 "Y" 1, "Rates per hour"); (range "Z" 1 "AD" 1, "Result counts");
         (range "AH" 1 "AX" 1, "Languages")] /\
    panes w1' = Some (2, 2).
Proof.
  intros Hop Hrun.
  destruct (write_scans_ws_layout_inv scans s Hop) as (w1 & H1 & H).
  rewrite Hrun in H. destruct H as (w1' & H).
  exists w1, w1'. split; [exact H1|exact H].
Qed.

(** X11: whatever the records are, [write_scans_ws] freezes the first two
    rows and columns of the sheet, formats the title row, merges the five
    title ranges, gives a width to each of the 52 column definitions, with
    [ProjectId] the only hidden one, and then a width of 8 to each of the
    19 language columns. *)
Theorem scans_sheet_layout scans s s' :
  opened s ->
  write_scans_ws parse (PyList scans) s = Ok tt s' ->
  exists w1 w1',
    sheet 1 s = Some w1 /\ sheet 1 s' = Some w1' /\
    colinfo w1' = colinfo w1 ++ option_widths (columns scans_options)
                             ++ language_widths init_lang_columns /\
    length (option_widths (columns scans_options)) = 52%nat /\
    length (language_widths init_lang_columns) = 19%nat /\
    (forall e, In e (option_widths (columns scans_options)
                     ++ language_widths init_lang_columns) ->
       e.2 = Some 1 <-> e.1.1.1.1 = 2) /\
    rowinfo w1' = rowinfo w1 ++ [(0, 72 # 5, assoc "header_color" formats_table)] /\
    map (fun m => (m.1.1, m.1.2)) (merged w1') =
      map (fun m => (m.1.1, m.1.2)) (merged w1) ++
        [(range "M" 1 "Q" 1, "Date Timestamps"); (range "R" 1 "V" 1, "Durations");
         (range "W" 1 "Y" 1, "Rates per hour"); (range "Z" 1 "AD" 1, "Result counts");
         (range "AH" 1 "AX" 1, "Languages")] /\
    panes w1' = Some (2, 2).
Proof.
  intros Hop Hrun.
  destruct (write_scans_ws_layout scans s s' Hop Hrun)
    as (w1 & w1' & H1 & H1' & _ & _ & Hci & Hri & Hm & Hpn).
  exists w1, w1'. split; [exact H1|]. split; [exact H1'|]. split; [exact Hci|].
  split; [reflexivity|]. split; [reflexivity|]. split; [|auto].
  intros e He. vm_compute in He.
  repeat (destruct He as [<-|He]; [cbn; split; intros; first [discriminate|reflexivity|lia]|]).
  destruct He.
Qed.

End Layout.

(** ** The [ProjectId] column *)

Section ProjectId.
Variable parse : string -> option datetime.

(** X12: the normaliser gives every record the cell [ProjectId] with the
    value [None], which the sheet does not store: after [init] and
    [write_scans_ws] the [ProjectId] column, column 2 of the table, is
    empty in the row of every record, and it is the one hidden column of
    the sheet. *)
Theorem project_id_is_empty_and_hidden args data out rm clk scans s s' :
  init args (start data out rm clk) = Ok tt s ->
  Z.of_nat (length scans) + 2 <= xls_rowmax ->
  write_scans_ws parse (PyList scans) s = Ok tt s' ->
  exists ws, sheet 1 s' = Some ws /\
    (forall (i : nat) scan, scans !! i = Some scan ->
       exists scan_row, convert_json_scan parse scan init_lang_columns = Returns scan_row /\
         assoc "ProjectId" scan_row = Some {| value := PyNone; col := 2 |} /\
         table ws !! (Z.of_nat i + 2, 2) = None /\
         Excel.column_position (scans_range (Z.of_nat (length scans)), scans_options)
           "ProjectId" = Some 2) /\
    In (2, 2, 10, None, Some 1) (colinfo ws) /\
    (forall e, In e (colinfo ws) -> e.2 = Some 1 <-> e.1.1.1.1 = 2).
Proof.
  intros Hinit Hfit Hrun.
  destruct (init_inv _ _ _ _ _ _ Hinit)
    as (_ & Hready & _ & _ & _ & _ & _ & wb & Hwb & Hws & _).
  destruct (write_scans_ws_layout parse scans s s' (proj1 Hready) Hrun)
    as (w1 & w1' & H1 & H1' & _ & _ & Hci & _).
  assert (Hw1 : w1 = scans_sheet).
  { unfold sheet in H1. rewrite Hwb in H1. cbn in H1. rewrite Hws in H1. now injection H1. }
  subst w1. cbn [colinfo scans_sheet set_tab_color new_worksheet app] in Hci.
  destruct (record_rows parse scans s s' Hready Hfit Hrun) as (ws & Hsheet & Hrows).
  rewrite H1' in Hsheet. injection Hsheet as <-.
  exists w1'. split; [exact H1'|]. split.
  - intros i scan Hi. destruct (Hrows i scan Hi) as (_ & scan_row & Hrow & Hcells).
    exists scan_row. split; [exact Hrow|].
    assert (Hin : In ("ProjectId", {| value := PyNone; col := 2 |}) (fixed_cells parse scan))
      by (unfold fixed_cells; repeat first [left; reflexivity | right]).
    destruct (scan_row_keys parse scan scan_row Hrow) as (Hnd & _).
    destruct (scan_row_parts parse scan scan_row Hrow) as (langs & extra & _ & Heq & _).
    split; [apply assoc_NoDup_In; [exact Hnd|rewrite Heq; apply in_or_app; now left]|].
    split; [|reflexivity].
    rewrite Hcells by (unfold xls_colmax; lia).
    pose proof (fixed_cell_stored parse scan scan_row _ _ Hrow Hin) as Hs.
    cbn [col value cell_content] in Hs. rewrite Hs, no_formula_outside by lia. reflexivity.
  - rewrite Hci. split.
    + vm_compute. tauto.
    + intros e He. vm_compute in He.
      repeat (destruct He as [<-|He];
              [cbn; split; intros; first [discriminate|reflexivity|lia]|]).
      destruct He.
Qed.

End ProjectId.

(** ** Runs that stop at a record or at the document *)

Section Stops.
Variable parse : string -> option datetime.



Ltac run_on_doc :=
  match goal with
  | |- match ?run with _ => _ end =>
      let r := eval cbv -[getitem len is_Exception write_scans_ws write_summary_ws
                          exit_script Z.of_nat firstn] in run in
      change run with r
  end.

(** X14: a document from which no record list can be read, because it has
    no key [value], is not an object, or has a [value] without a length,
    stops the run after the workbook has been opened: the exception is
    logged, the workbook is left open and unsaved, with its two sheets as
    [init] made them, and the process completes with status 0. *)
Theorem document_without_records cu f x fo dbg doc e out rm clk :
  permitted out fo rm ->
  (getitem doc "value" ≫= len) = Raises e ->
  match cxsi parse cu f x fo dbg (start (Json doc) out rm clk) with
  | Ok _ s' =>
      output_file s' = None /\
      (exists wb, _scans_wb s' = Some wb /\ fileclosed wb = false /\
                  worksheets wb = [summary_sheet; scans_sheet]) /\
      exists before,
        _log s' = before ++ [(CRITICAL, UnexpectedException); (ERROR, Traceback (Some e))]
  | Raise _ _ => False
  end.
Proof.
  intros Hp Hv.
  assert (Hcases : out = None \/ exists a, out = Some a /\ fo = true /\ rm = true).
  { destruct Hp as [->|[-> ->]]; [now left|]. destruct out; [right; eauto|now left]. }
  assert (He : is_Exception e = true).
  { unfold mbind, Exc_bind in Hv. destruct (getitem doc "value") as [v|ex] eqn:E.
    - destruct v; cbn in Hv; try discriminate; now injection Hv as <-.
    - injection Hv as <-. destruct (getitem_raises _ _ _ E) as [-> | ->]; reflexivity. }
  unfold mbind, Exc_bind in Hv.
  unfold cxsi, try_except.
  destruct (getitem doc "value") as [v|ex] eqn:E;
    destruct Hcases as [->|(a & -> & -> & ->)]; destruct dbg;
    run_on_doc; rewrite ?E; cbv beta iota; rewrite ?Hv; cbv beta iota;
    try (injection Hv as ->); rewrite He;
    (split; [reflexivity|]; split; [eexists; repeat split|];
     match goal with
     | |- exists before, ?l = _ => exists (removelast (removelast l)); reflexivity
     end).
Qed.

End Stops.

(** ** The progress bar *)

Lemma append_length s1 s2 :
  String.length (s1 +:+ s2) = (String.length s1 + String.length s2)%nat.
Proof. induction s1 as [|c s1 IH]; simpl; [reflexivity|]. f_equal. exact IH. Qed.

Lemma str_repeat_length s n :
  String.length (str_repeat s n) = (n * String.length s)%nat.
Proof.
  induction n as [|n IH]; cbn [str_repeat]; [reflexivity|].
  rewrite append_length, IH. lia.
Qed.

Lemma filledLength_bounds n iteration total :
  0 <= n -> 0 < total -> 0 <= iteration <= total ->
  0 <= filledLength n iteration total <= n.
Proof.
  intros Hn Ht Hi. unfold filledLength. split.
  - apply Z.div_pos; nia.
  - apply Z.div_le_upper_bound; nia.
Qed.

Lemma filledLength_full n iteration total :
  0 < n -> 0 < total -> 0 <= iteration <= total ->
  filledLength n iteration total = n <-> iteration = total.
Proof.
  intros Hn Ht Hi. unfold filledLength. split.
  - intros H. destruct (Z.eq_dec iteration total) as [|Hne]; [assumption|exfalso].
    assert (Hlt : n * iteration / total < n)
      by (apply Z.div_lt_upper_bound; nia).
    lia.
  - intros ->. apply Z.div_mul. lia.
Qed.

Section Progress.
Variable parse : string -> option datetime.

Lemma on_sheet_stdout h f s : stdout (final_state (on_sheet h f s)) = stdout s.
Proof.
  unfold on_sheet. destruct (_scans_wb s) as [wb|]; [|reflexivity].
  destruct (worksheets wb !! h) as [w|]; [|reflexivity]. now destruct (f w).
Qed.

Lemma for_each_stdout {A} (body : A -> M unit) l :
  (forall x s, stdout (final_state (body x s)) = stdout s) ->
  forall s, stdout (final_state (for_each l body s)) = stdout s.
Proof.
  intros Hb. induction l as [|x l IH]; intros s; cbn [for_each]; [reflexivity|].
  unfold mbind, M_bind. specialize (Hb x s).
  destruct (body x s) as [[] s1|e s1]; cbn [final_state] in *; [|exact Hb].
  now rewrite IH.
Qed.

Lemma populate_data_rows_stdout n scans : forall i s,
  match populate_data_rows parse 1 init_lang_columns n i scans s with
  | Ok _ s' =>
      stdout s' = stdout s ++ map (fun k => (i + Z.of_nat k + 1, n)) (seq 0 (length scans))
  | Raise _ _ => True
  end.
Proof.
  induction scans as [|scan rest IH]; intros i s; cbn [populate_data_rows].
  - cbn. now rewrite app_nil_r.
  - unfold mbind at 1, M_bind. unfold print_progress_bar.
    destruct (Z.eqb n 0); [exact I|].
    unfold modify at 1. unfold mbind at 1, M_bind. unfold lift at 1.
    destruct (convert_json_scan parse scan init_lang_columns) as [scan_row|e]; [|exact I].
    unfold mbind at 1, M_bind.
    pose proof (for_each_stdout
                  (fun scan_col : string * cell =>
                     on_sheet 1 (write (i + TABLE_TOP_ROWS) (col scan_col.2)
                                       (value scan_col.2) None))
                  scan_row (fun x s => on_sheet_stdout _ _ s) (add_stdout (i + 1, n) s)) as Hrow.
    cbv zeta.
    destruct (for_each scan_row _ (add_stdout (i + 1, n) s)) as [[] s1|e s1]; [|exact I].
    cbn [final_state stdout add_stdout] in Hrow.
    specialize (IH (i + 1) s1).
    destruct (populate_data_rows parse 1 init_lang_columns n (i + 1) rest s1) as [[] s2|];
      [|exact I].
    rewrite IH, Hrow, <- app_assoc. f_equal. cbn [length seq map app].
    f_equal; [f_equal; lia|].
    rewrite <- seq_shift, map_map. apply map_ext. intros k. f_equal. lia.
Qed.

Lemma write_scans_ws_stdout scans s :
  opened s ->
  match write_scans_ws parse (PyList scans) s with
  | Ok _ s' =>
      stdout s' = stdout s ++ map (fun k => (Z.of_nat k + 1, Z.of_nat (length scans)))
                                  (seq 0 (length scans))
  | Raise _ _ => True
  end.
Proof.
  intros (Ha & Hf & Hw & wb & w0 & w1 & Hwb & Hws & Hcl).
  destruct s as [a l wb0 fs hs inp out rm clk tk so].
  cbn in Ha, Hf, Hw, Hwb, Hws, Hcl. subst.
  destruct wb as [wo pr wsl fo cl]. cbn in Hws, Hcl. subst.
  unfold write_scans_ws. cbn [len iter stdout].
  generalize (Z.of_nat (length scans)). intros n.
  match goal with
  | |- match ?run with _ => _ end =>
      let r := eval cbv -[populate_data_rows add_table set_column set_row merge_range
                          freeze_panes Z.add Z.sub Z.mul] in run in
      change run with r
  end.
  match goal with
  | |- context [populate_data_rows ?p ?h ?lc ?m ?i ?items ?S] =>
      pose proof (populate_data_rows_stdout m items i S) as Hp;
      change init_lang_columns with lc in Hp;
      destruct (populate_data_rows p h lc m i items S) as [[] s1|e s1]; [|exact I]
  end.
  destruct s1 as [? ? ? ? ? ? ? ? ? ? so1]. cbn in Hp |- *. rewrite Hp. f_equal.
Qed.

(** X15: [write_scans_ws] prints the progress bar once for each record
    that it writes, with the number of the record and the number of
    records, so that the bar never divides by zero; each of these bars has
    100 places, of which the whole part of 100 k / N are filled for record
    k of N, and it is full at the last record only. *)
Theorem progress_bar_per_record scans s s' :
  opened s ->
  write_scans_ws parse (PyList scans) s = Ok tt s' ->
  let N := Z.of_nat (length scans) in
  stdout s' = stdout s ++ map (fun k => (Z.of_nat k + 1, N)) (seq 0 (length scans)) /\
  forall k : nat, (k < length scans)%nat ->
    let iteration := Z.of_nat k + 1 in
    N <> 0 /\
    0 <= filledLength 100 iteration N <= 100 /\
    (filledLength 100 iteration N = 100 <-> iteration = N) /\
    forall fill, String.length fill = 1%nat ->
      String.length (bar fill 100 iteration N) = 100%nat.
Proof.
  intros Hop Hrun N.
  pose proof (write_scans_ws_stdout scans s Hop) as H. rewrite Hrun in H.
  split; [exact H|].
  intros k Hk iteration.
  assert (Hb : 0 <= filledLength 100 iteration N <= 100)
    by (apply filledLength_bounds; unfold N, iteration; lia).
  split; [unfold N; lia|]. split; [exact Hb|].
  split; [apply filledLength_full; unfold N, iteration; lia|].
  intros fill Hfill. unfold bar, str_mul.
  rewrite append_length, !str_repeat_length, Hfill. cbn [String.length]. lia.
Qed.

End Progress.

(** ** Writing a line of headers *)

Lemma write_written r c v f w w' :
  write r c v f w = Returns w' ->
  tables w' = tables w /\
  forall r' c', table w' !! (r', c') =
    if decide (r' = r /\ c' = c /\ check_dimensions r c = true)
    then written v f (table w !! (r', c'))
    else table w !! (r', c').
Proof.
  assert (Hstore : forall x,
            tables (store r c x w) = tables w /\
            forall r' c', table (store r c x w) !! (r', c') =
              if decide (r' = r /\ c' = c /\ check_dimensions r c = true) then Some x
              else table w !! (r', c')).
  { intros x. split; [apply tables_store|]. intros r' c'. apply table_store. }
  assert (Hsame : tables w = tables w /\
            forall r' c', table w !! (r', c') =
              if decide (r' = r /\ c' = c /\ check_dimensions r c = true)
              then table w !! (r', c') else table w !! (r', c')).
  { split; [reflexivity|]. intros r' c'. destruct (decide _); reflexivity. }
  unfold write, write_blank, written, cell_content.
  destruct v as [| b | z | t | d | l | d]; try discriminate;
    try (intros [= <-]; first [apply Hstore | destruct f; [apply Hstore|apply Hsame]]).
  destruct (String.eqb t "");
    [intros [= <-]; destruct f; [apply Hstore|apply Hsame]|].
  destruct (starts_with_eq t); intros [= <-]; apply Hstore.
Qed.



(** ** The completion status *)



























Section Status.
Variable parse : string -> option datetime.






End Status.

(** ** The query and the normaliser *)

(** X19: a record that has every field that the query of [print_query]
    selects, with timestamps that the parser accepts and a language-usage
    list of registry languages, normalises.  The query selects every field
    that the normaliser reads, the expanded [ScannedLanguages] apart, and
    one that it never reads, [ScanDuration]. *)
Theorem query_selects_what_is_read (parse : string -> option datetime) scan :
  (forall k, In k selected -> exists v, getitem scan k = Returns v) ->
  Forall (fun k => forall v, getitem scan k = Returns v ->
                   exists t d, v = PyStr t /\ parse t = Some d) timestamp_fields ->
  known_languages scan ->
  (exists scan_row, convert_json_scan parse scan init_lang_columns = Returns scan_row) /\
  (forall k, In k record_fields -> k = "ScannedLanguages" \/ In k selected) /\
  In "ScanDuration" selected /\ ~ In "ScanDuration" record_fields /\
  print_query false true = Some [__banner__ +:+ " v" +:+ __version__; " ";
                                 "OData query to generate Scan data:"; " "; Query.query].
Proof.
  intros Hsel Hts Hlangs.
  assert (Hcover : forall k, In k record_fields -> k = "ScannedLanguages" \/ In k selected).
  { intros k Hk. vm_compute in Hk. vm_compute.
    repeat (destruct Hk as [<-|Hk]; [tauto|]). destruct Hk. }
  split; [|split; [exact Hcover|split; [vm_compute; tauto|split; [|reflexivity]]]].
  - apply convert_json_scan_returns; [split|exact Hlangs].
    + apply List.Forall_forall. intros k Hk. apply Hsel.
      destruct (Hcover k) as [->|H]; [|vm_compute in Hk |- *|exact H].
      * unfold record_fields. apply in_or_app. now left.
      * repeat (destruct Hk as [Hk|Hk]; [discriminate Hk|]). destruct Hk.
    + rewrite List.Forall_forall in Hts. apply List.Forall_forall. intros k Hk.
      destruct (Hsel k) as [v Hv].
      { destruct (Hcover k) as [->|H]; [|vm_compute in Hk |- *|exact H].
        - unfold record_fields. apply in_or_app. right. apply in_or_app. now left.
        - repeat (destruct Hk as [Hk|Hk]; [discriminate Hk|]). destruct Hk. }
      destruct (Hts k Hk v Hv) as (t & d & -> & Ht).
      exists d. rewrite Hv. cbn. now rewrite Ht.
  - vm_compute. intros H. repeat (destruct H as [H|H]; [discriminate H|]). destruct H.
Qed.

(** ** The cells of the summary sheet *)

(** X20: [write_summary_ws] on an open workbook returns, whatever the
    records are; it changes the [Summary] sheet only, and adds no table.
    Cell [A1] gets the title with the name of the customer, in bold: as a
    text, or as a formula when the name begins with [=].  Each of the rows
    2 to 21 gets a text without a format in column 1 and a formula in
    column 2, and no cell changes outside [A1] and the rows 1 to 21 of the
    columns 1 to 3. *)
Theorem summary_sheet_cells scans s :
  opened s ->
  exists wb w0 w1 w0' s' a bold,
    _scans_wb s = Some wb /\ worksheets wb = [w0; w1] /\ _args s = Some a /\
    assoc "bold" formats_table = Some bold /\
    write_summary_ws scans s = Ok tt s' /\
    _scans_wb s' = Some (set_worksheets [w0'; w1] wb) /\ frame s s' /\
    tables w0' = tables w0 /\
    (let title := customer a +:+ " Scan Summary Info" in
     table w0' !! (0, 0) =
       Some {| content_of := if starts_with_eq (customer a) then Formula title
                             else Text title;
               format_of := Some bold |}) /\
    (forall r, 2 <= r <= 21 ->
       (exists title,
          table w0' !! (r, 1) = Some {| content_of := Text title; format_of := None |}) /\
       (exists f fmt,
          table w0' !! (r, 2) = Some {| content_of := Formula f; format_of := fmt |} /\
          starts_with_eq f = true)) /\
    (forall r c, ~ (r = 0 /\ c = 0) -> ~ (1 <= r <= 21 /\ 1 <= c <= 3) ->
       table w0' !! (r, c) = table w0 !! (r, c)).
Proof.
  intros ([a Ha] & Hf & Hw & wb & w0 & w1 & Hwb & Hws & Hcl).
  destruct a as [cu file excel fo' dbg].
  explicit_state s. subst. destruct wb as [wo pr wsl fo cl]. cbn in *. subst.
  exists {| wb_options := wo; properties := pr; worksheets := [w0; w1]; formats := fo;
            fileclosed := false |}, w0, w1.
  unfold write_summary_ws.
  match goal with
  | |- exists _ _ _ _, _ /\ _ /\ _ /\ _ /\ ?run = _ /\ _ =>
      let r := eval cbv -[write store set_column Z.add Z.sub Z.mul] in run in
      change run with r
  end.
  match goal with
  | |- context [write ?r ?c (PyStr ?t) ?f ?w] =>
      destruct (write_text r c t f w) as (wt & Hwt & Htt); rewrite Hwt;
      pose proof (write_written _ _ _ _ _ _ Hwt) as [_ Hcells]
  end.
  cbv beta iota.
  match goal with
  | |- exists _ _ _ _, _ /\ _ /\ _ /\ _ /\ ?run = _ /\ _ =>
      let r := eval cbv -[store set_column Z.add Z.sub Z.mul] in run in
      change run with r
  end.
  eexists _, _, _, _. split; [reflexivity|]. split; [reflexivity|]. split; [reflexivity|].
  split; [reflexivity|]. split; [reflexivity|].
  cbn [_scans_wb]. split; [reflexivity|]. split; [repeat split|].
  split; [rewrite !tables_store; exact Htt|].
  split; [|split].
  - cbv zeta. lookup_stores. rewrite Hcells. rewrite decide_True by (repeat split).
    unfold written, cell_content. cbn [table set_column customer].
    destruct cu as [|ch rest]; [reflexivity|].
    cbn. destruct (Ascii.eqb ch "="); reflexivity.
  - intros r Hr.
    assert (Hcases : r = 2 \/ r = 3 \/ r = 4 \/ r = 5 \/ r = 6 \/ r = 7 \/ r = 8 \/ r = 9 \/
                     r = 10 \/ r = 11 \/ r = 12 \/ r = 13 \/ r = 14 \/ r = 15 \/ r = 16 \/
                     r = 17 \/ r = 18 \/ r = 19 \/ r = 20 \/ r = 21) by lia.
    clear Hr.
    repeat (destruct Hcases as [->|Hcases];
            [split; [eexists; lookup_stores; reflexivity
                    |eexists _, _; split; [lookup_stores; reflexivity|reflexivity]]|]).
    subst r.
    split; [eexists; lookup_stores; reflexivity
           |eexists _, _; split; [lookup_stores; reflexivity|reflexivity]].
  - intros r c H0 Hbox.
    repeat (rewrite table_store; rewrite decide_False by (intros (? & ? & ?); lia)).
    rewrite Hcells. rewrite decide_False by (intros (? & ? & ?); lia). reflexivity.
Qed.

(** ** The properties of the single functions on the sample data *)


Lemma scan_row_is_a_dictionary_witness :
  NoDup (map fst sample_row) /\
  (forall k c, In (k, c) sample_row -> assoc k sample_row = Some c) /\
  exists langs, (getitem sample_record "ScannedLanguages" ≫= iter) = Returns langs /\
    (24 <= length sample_row <= 24 + length langs)%nat.
Proof.
  apply (scan_row_is_a_dictionary sample_parse sample_record sample_row).
  exact sample_row_eq.
Defined.

Lemma flags_are_zero_or_one_witness :
  Forall (fun p =>
    exists v, getitem sample_record p.1.1 = Returns v /\
      assoc p.1.2 sample_row =
        Some {| value := PyInt (if truthy v then 1 else 0); col := p.2 |} /\
      forall r w w', write_cells r sample_row w = Returns w' -> 0 <= r < xls_rowmax ->
        table w' !! (r, p.2) =
          Some {| content_of := Number (if truthy v then 1 else 0); format_of := None |})
    flag_fields.
Proof.
  apply (flags_are_zero_or_one sample_parse sample_record sample_row).
  exact sample_row_eq.
Defined.



Lemma flags_beyond_the_table_witness :
  exists ws tb,
    sheet 1 sample_written = Some ws /\ tables ws = [tb] /\
    ("VB6" = "VbNet" \/ "VB6" = "VB6") /\
    table ws !! (Z.of_nat 1 + 2, 51) =
      Some {| content_of := Number 1; format_of := None |} /\
    xl_col (last_col tb.1) = 49 /\
    range_width tb.1 = 50%nat /\ length (columns tb.2) = 52%nat /\
    Excel.column_position tb "VB6" = None.
Proof.
  apply (flags_beyond_the_table sample_parse sample_scans sample_ready sample_written
           1%nat sample_vb6 "VB6" {| lang_col := 51; lang_hidden := DEFAULT_HIDE |}).
  - exact sample_ready_ready.
  - vm_compute. discriminate.
  - exact sample_run.
  - reflexivity.
  - eexists. split; [reflexivity|]. eexists. split; [right; left; reflexivity|reflexivity].
  - reflexivity.
  - reflexivity.
Defined.


Lemma scans_sheet_layout_witness :
  exists w1 w1',
    sheet 1 sample_ready = Some w1 /\ sheet 1 sample_written = Some w1' /\
    colinfo w1' = colinfo w1 ++ option_widths (columns scans_options)
                             ++ language_widths init_lang_columns /\
    length (option_widths (columns scans_options)) = 52%nat /\
    length (language_widths init_lang_columns) = 19%nat /\
    (forall e, In e (option_widths (columns scans_options)
                     ++ language_widths init_lang_columns) ->
       e.2 = Some 1 <-> e.1.1.1.1 = 2) /\
    rowinfo w1' = rowinfo w1 ++ [(0, 72 # 5, assoc "header_color" formats_table)] /\
    map (fun m => (m.1.1, m.1.2)) (merged w1') =
      map (fun m => (m.1.1, m.1.2)) (merged w1) ++
        [(range "M" 1 "Q" 1, "Date Timestamps"); (range "R" 1 "V" 1, "Durations");
         (range "W" 1 "Y" 1, "Rates per hour"); (range "Z" 1 "AD" 1, "Result counts");
         (range "AH" 1 "AX" 1, "Languages")] /\
    panes w1' = Some (2, 2).
Proof.
  apply (scans_sheet_layout sample_parse sample_scans sample_ready sample_written).
  - exact (proj1 sample_ready_ready).
  - exact sample_run.
Defined.

Lemma project_id_is_empty_and_hidden_witness :
  exists ws, sheet 1 sample_written = Some ws /\
    (forall (i : nat) scan, sample_scans !! i = Some scan ->
       exists scan_row,
         convert_json_scan sample_parse scan init_lang_columns = Returns scan_row /\
         assoc "ProjectId" scan_row = Some {| value := PyNone; col := 2 |} /\
         table ws !! (Z.of_nat i + 2, 2) = None /\
         Excel.column_position
           (scans_range (Z.of_nat (length sample_scans)), scans_options)
           "ProjectId" = Some 2) /\
    In (2, 2, 10, None, Some 1) (colinfo ws) /\
    (forall e, In e (colinfo ws) -> e.2 = Some 1 <-> e.1.1.1.1 = 2).
Proof.
  apply (project_id_is_empty_and_hidden sample_parse sample_args
           (Json (sample_doc sample_scans)) None true (fun n => Z.of_nat n)
           sample_scans sample_ready sample_written).
  - vm_compute. reflexivity.
  - vm_compute. discriminate.
  - exact sample_run.
Defined.


Lemma document_without_records_witness :
  match cxsi sample_parse "acme" "scans.json" "scans.xlsx" false false
          (start (Json (PyDict [])) None true sample_clock) with
  | Ok _ s' =>
      output_file s' = None /\
      (exists wb, _scans_wb s' = Some wb /\ fileclosed wb = false /\
                  worksheets wb = [summary_sheet; scans_sheet]) /\
      exists before,
        _log s' = before ++ [(CRITICAL, UnexpectedException);
                             (ERROR, Traceback (Some (KeyError (PyStr "value"))))]
  | Raise _ _ => False
  end.
Proof.
  apply (document_without_records sample_parse "acme" "scans.json" "scans.xlsx" false false
           (PyDict []) (KeyError (PyStr "value")) None true sample_clock).
  - left. reflexivity.
  - reflexivity.
Defined.

Lemma progress_bar_per_record_witness :
  let N := Z.of_nat (length sample_scans) in
  stdout sample_written =
    stdout sample_ready ++ map (fun k => (Z.of_nat k + 1, N)) (seq 0 (length sample_scans)) /\
  forall k : nat, (k < length sample_scans)%nat ->
    let iteration := Z.of_nat k + 1 in
    N <> 0 /\
    0 <= filledLength 100 iteration N <= 100 /\
    (filledLength 100 iteration N = 100 <-> iteration = N) /\
    forall fill, String.length fill = 1%nat ->
      String.length (bar fill 100 iteration N) = 100%nat.
Proof.
  apply (progress_bar_per_record sample_parse sample_scans sample_ready sample_written).
  - exact (proj1 sample_ready_ready).
  - exact sample_run.
Defined.


Lemma query_selects_what_is_read_witness :
  (exists scan_row,
     convert_json_scan sample_parse sample_queried init_lang_columns = Returns scan_row) /\
  (forall k, In k record_fields -> k = "ScannedLanguages" \/ In k selected) /\
  In "ScanDuration" selected /\ ~ In "ScanDuration" record_fields /\
  print_query false true = Some [__banner__ +:+ " v" +:+ __version__; " ";
                                 "OData query to generate Scan data:"; " "; Query.query].
Proof.
  apply (query_selects_what_is_read sample_parse sample_queried).
  - intros k Hk. vm_compute in Hk.
    repeat (destruct Hk as [<-|Hk]; [eexists; reflexivity|]). destruct Hk.
  - unfold timestamp_fields.
    repeat (constructor;
            [intros v Hv; vm_compute in Hv; injection Hv as <-;
             eexists _, _; split; reflexivity|]).
    constructor.
  - eexists. split; [reflexivity|].
    repeat (constructor; [eexists; split; [reflexivity|eexists; reflexivity]|]). constructor.
Defined.

Lemma summary_sheet_cells_witness :
  exists wb w0 w1 w0' s' a bold,
    _scans_wb sample_ready = Some wb /\ worksheets wb = [w0; w1] /\
    _args sample_ready = Some a /\
    assoc "bold" formats_table = Some bold /\
    write_summary_ws (PyList sample_scans) sample_ready = Ok tt s' /\
    _scans_wb s' = Some (set_worksheets [w0'; w1] wb) /\ frame sample_ready s' /\
    tables w0' = tables w0 /\
    (let title := customer a +:+ " Scan Summary Info" in
     table w0' !! (0, 0) =
       Some {| content_of := if starts_with_eq (customer a) then Formula title
                             else Text title;
               format_of := Some bold |}) /\
    (forall r, 2 <= r <= 21 ->
       (exists title,
          table w0' !! (r, 1) = Some {| content_of := Text title; format_of := None |}) /\
       (exists f fmt,
          table w0' !! (r, 2) = Some {| content_of := Formula f; format_of := fmt |} /\
          starts_with_eq f = true)) /\
    (forall r c, ~ (r = 0 /\ c = 0) -> ~ (1 <= r <= 21 /\ 1 <= c <= 3) ->
       table w0' !! (r, c) = table w0 !! (r, c)).
Proof.
  apply (summary_sheet_cells (PyList sample_scans) sample_ready).
  exact (proj1 sample_ready_ready).
Defined.
